(** * Customer-portal protection scripts: violation reporting and
      notification socket

    A shallow embedding of the browser scripts of the portal
    (customer-security-strict.js, customer_security_warning_only.js,
    customer-security-final.js, customer-security-core.js and
    websocket-notifications.js) together with the properties their
    specification states about them.

    JavaScript values are modelled as the code uses them: a value that is
    either [undefined] or a string is an [option string], timestamps from
    [Date.now()] are integers in milliseconds, a DOM document is the list of
    its elements in document order, and every handler returns the effects it
    performs (requests, timers, UI calls) next to the new state.  A call
    that an exception cuts short keeps the state it has reached, and the
    exception is the last of its effects. *)

From Stdlib Require Import ZArith String Ascii List Bool Lia.
From Stdlib Require Import Numbers.DecimalString.
From stdpp Require Import base list.
Import ListNotations.

Local Open Scope string_scope.
Local Open Scope list_scope.
Local Open Scope Z_scope.

(* ===================================================================== *)
(** ** JavaScript helpers *)
(* ===================================================================== *)

Module JS.

(** Truthiness of a value that is [undefined] or a string: [undefined]
    and the empty string are falsy. *)
Definition truthy (v : option string) : bool :=
  match v with
  | Some s => negb (String.eqb s "")
  | None => false
  end.

(** [String.prototype.startsWith]. *)
Definition startsWith (s p : string) : bool := String.prefix p s.

(** [String.prototype.split] with a non-empty separator.  [skip] counts
    the separator characters still to be dropped after a match, [cur] is
    the piece read so far. *)
Fixpoint split_go (sep : string) (skip : nat) (cur : string) (s : string)
  : list string :=
  match s with
  | EmptyString => [cur]
  | String c s' =>
      match skip with
      | S k => split_go sep k cur s'
      | O =>
          if String.prefix sep s
          then cur :: split_go sep (String.length sep - 1) "" s'
          else split_go sep 0 (cur ++ String c "")%string s'
      end
  end.

Definition split (sep s : string) : list string := split_go sep 0 "" s.

(** [Array.prototype.find]. *)
Definition find {A} (p : A -> bool) (l : list A) : option A := List.find p l.

(** The value of a character as a digit in the given radix: [0]-[9],
    then the letters of either case from ten on. *)
Definition digit_of (radix : Z) (c : ascii) : option Z :=
  let n := Z.of_nat (nat_of_ascii c) in
  let v :=
    if (48 <=? n) && (n <=? 57) then Some (n - 48)
    else if (97 <=? n) && (n <=? 122) then Some (n - 87)
    else if (65 <=? n) && (n <=? 90) then Some (n - 55)
    else None in
  match v with
  | Some d => if d <? radix then Some d else None
  | None => None
  end.

(** White space, among the characters below 128: space, tab, line feed,
    vertical tab, form feed and carriage return. *)
Definition is_space (c : ascii) : bool :=
  let n := nat_of_ascii c in
  (Nat.eqb n 32 || Nat.eqb n 9 || Nat.eqb n 10 || Nat.eqb n 11
   || Nat.eqb n 12 || Nat.eqb n 13)%bool.

Fixpoint skip_spaces (s : string) : string :=
  match s with
  | String c s' => if is_space c then skip_spaces s' else s
  | EmptyString => s
  end.

(** The longest prefix of digits of the radix, read as a number; [None]
    when there is no digit at all. *)
Fixpoint digits_go (radix : Z) (acc : option Z) (s : string) : option Z :=
  match s with
  | String c s' =>
      match digit_of radix c with
      | Some d => digits_go radix (Some (radix * default 0 acc + d)) s'
      | None => acc
      end
  | EmptyString => acc
  end.

(** The digits of [parseInt(s)] once white space and sign are gone: after
    a prefix [0x] or [0X] they are read in base sixteen, otherwise in base
    ten. *)
Definition unsigned (s : string) : option Z :=
  match s with
  | String "0" (String x s') =>
      if Ascii.eqb x "x" || Ascii.eqb x "X" then digits_go 16 None s'
      else digits_go 10 None s
  | _ => digits_go 10 None s
  end.

(** [parseInt(s)] without a radix: leading white space, an optional sign,
    then the digits, in base sixteen after [0x]; anything after the digits
    is ignored.  [None] is [NaN]. *)
Definition parseInt (s : string) : option Z :=
  match skip_spaces s with
  | String "-" s' => option_map Z.opp (unsigned s')
  | String "+" s' => unsigned s'
  | s' => unsigned s'
  end.

(** Number to string conversion of an integer. *)
Definition toString (n : Z) : string := NilZero.string_of_int (Z.to_int n).

End JS.

(* ===================================================================== *)
(** ** The document *)
(* ===================================================================== *)

(** An element carries what the scripts read from it: its tag name, its
    [id] and [name] attributes, the [content] property (present on [meta]
    elements only, otherwise [undefined]), the [value] property of form
    controls, and whether it lies inside the embedded chat widget
    ([closest('#tawkchat-container, iframe[src*="tawk"]')] is not null). *)
Record Element := {
  tagName : string;
  el_id : option string;
  el_name : option string;
  el_content : option string;
  el_value : option string;
  in_tawk : bool
}.

Record Document := {
  elements : list Element;
  cookie : string
}.

(** [document.querySelector('[name=n]')]: the first element in document
    order whose [name] attribute is [n]. *)
Definition querySelector_name (n : string) (d : Document) : option Element :=
  List.find (fun e => match el_name e with
                      | Some m => String.eqb m n
                      | None => false
                      end) (elements d).

(* ===================================================================== *)
(** ** Anti-forgery token lookup (getCSRFToken) *)
(* ===================================================================== *)

Module Csrf.

Inductive Source := MetaTag | FormField | Cookie.

(** [document.querySelector('[name=csrf-token]')?.content] *)
Definition meta_content (d : Document) : option string :=
  match querySelector_name "csrf-token" d with
  | Some e => el_content e
  | None => None
  end.

(** [document.querySelector('[name=csrfmiddlewaretoken]')?.value] *)
Definition form_value (d : Document) : option string :=
  match querySelector_name "csrfmiddlewaretoken" d with
  | Some e => el_value e
  | None => None
  end.

(** [document.cookie.split('; ').find(row => row.startsWith('csrftoken='))] *)
Definition cookie_row (d : Document) : option string :=
  JS.find (fun row => JS.startsWith row "csrftoken=")
          (JS.split "; " (cookie d)).

(** [cookieValue.split('=')[1]] *)
Definition cookie_token (row : string) : option string :=
  nth_error (JS.split "=" row) 1.

(** getCSRFToken, returning the token and the sources it consulted, in
    the order it consulted them. *)
Definition getCSRFToken (d : Document) : option string * list Source :=
  let token := meta_content d in
  let log := [MetaTag] in
  let '(token, log) :=
    if negb (JS.truthy token) then (form_value d, log ++ [FormField])
    else (token, log) in
  if negb (JS.truthy token) then
    match cookie_row d with
    | Some cookieValue =>
        if JS.truthy (Some cookieValue)
        then (cookie_token cookieValue, log ++ [Cookie])
        else (token, log ++ [Cookie])
    | None => (token, log ++ [Cookie])
    end
  else (token, log).

Definition token_of (d : Document) : option string := fst (getCSRFToken d).






End Csrf.

(* ===================================================================== *)
(** ** Cookies and the token lookup of customer-security-final.js *)
(* ===================================================================== *)

Module Cookies.

(** The part of a string before the first occurrence of a character. *)
Fixpoint before (c : ascii) (s : string) : string :=
  match s with
  | EmptyString => EmptyString
  | String x s' => if Ascii.eqb x c then EmptyString else String x (before c s')
  end.

Fixpoint has_char (c : ascii) (s : string) : bool :=
  match s with
  | EmptyString => false
  | String x s' => Ascii.eqb x c || has_char c s'
  end.

(** [String.prototype.trim] *)
Fixpoint trim_end (s : string) : string :=
  match s with
  | EmptyString => EmptyString
  | String c s' =>
      let r := trim_end s' in
      if JS.is_space c && String.eqb r "" then EmptyString else String c r
  end.

Definition trim (s : string) : string := trim_end (JS.skip_spaces s).

(** [s.substring(0, n)] and [s.substring(n)] *)
Definition substring_to (n : nat) (s : string) : string :=
  String.substring 0 n s.

Definition substring_from (n : nat) (s : string) : string :=
  String.substring n (String.length s - n) s.

(** How a call ends: with a value, or by throwing. *)
Inductive Completion (A : Type) :=
| Normal (a : A)
| Throw.

Arguments Normal {A} a.
Arguments Throw {A}.

Section GetCookie.

(** [decodeURIComponent], which throws on a malformed escape sequence
    ([None]). *)
Variable decodeURIComponent : string -> option string.

(** The loop of getCookie over the pieces of [document.cookie]. *)
Fixpoint getCookie_loop (name : string) (cookies : list string)
  : Completion (option string) :=
  match cookies with
  | [] => Normal None
  | c :: rest =>
      let cookie := trim c in
      if String.eqb (substring_to (String.length name + 1) cookie)
                    (name ++ "=")
      then match decodeURIComponent
                   (substring_from (String.length name + 1) cookie) with
           | Some v => Normal (Some v)
           | None => Throw
           end
      else getCookie_loop name rest
  end.

(** getCookie of customer-security-core.js and customer-security-final.js;
    [None] is [null]. *)
Definition getCookie (name : string) (d : Document)
  : Completion (option string) :=
  if JS.truthy (Some (cookie d)) && negb (String.eqb (cookie d) "")
  then getCookie_loop name (JS.split ";" (cookie d))
  else Normal None.

(** [document.querySelector('meta[name="csrf-token"]')?.getAttribute('content')] *)
Definition meta_attribute (d : Document) : option string :=
  match List.find (fun e => String.eqb (tagName e) "META"
                            && match el_name e with
                               | Some m => String.eqb m "csrf-token"
                               | None => false
                               end) (elements d) with
  | Some e => el_content e
  | None => None
  end.

(** getCsrfToken of customer-security-final.js:
    the form field [||] the meta tag [||] the cookie. *)
Definition getCsrfToken (d : Document) : Completion (option string) :=
  if JS.truthy (Csrf.form_value d) then Normal (Csrf.form_value d)
  else if JS.truthy (meta_attribute d) then Normal (meta_attribute d)
  else getCookie "csrftoken" d.

End GetCookie.

End Cookies.

(* ===================================================================== *)
(** ** The violation log queue (logActivity / processLogQueue) *)
(* ===================================================================== *)

Module LogQueue.

(** A queue entry: [{ activityType, description, timestamp }]. *)
Record Item := {
  activityType : string;
  description : string;
  timestamp : Z
}.

(** The request body.  [timestamp] is the entry's time; its rendering as
    an ISO-8601 string is not modelled. *)
Record Payload := {
  violation_type : string;
  p_description : string;
  p_timestamp : Z;
  page_url : string
}.

(** What one run of the script can observe of its environment:
    [Date.now()], the document and [window.location.href]. *)
Record Env := {
  now : Z;
  doc : Document;
  href : string
}.

(** [logQueue], [isLogging] and the shared [window.lastLogTime]
    ([None] is [undefined]). *)
Record State := {
  logQueue : list Item;
  isLogging : bool;
  lastLogTime : option Z
}.

Definition init : State :=
  {| logQueue := []; isLogging := false; lastLogTime := None |}.

Inductive Effect :=
| Fetch (csrfToken : string) (payload : Payload)
| SetTimeout (delay : Z).

(** Truthiness of [window.lastLogTime]: [undefined] and [0] are falsy. *)
Definition truthy_time (t : option Z) : bool :=
  match t with
  | Some v => negb (v =? 0)
  | None => false
  end.

(** [window.lastLogTime && (now - window.lastLogTime) < 2000] *)
Definition debounced (t : option Z) (n : Z) : bool :=
  match t with
  | Some v => truthy_time t && (n - v <? 2000)
  | None => false
  end.

Definition payload_of (item : Item) (e : Env) : Payload :=
  {| violation_type := activityType item;
     p_description := description item;
     p_timestamp := timestamp item;
     page_url := href e |}.

(** processLogQueue of customer_security_warning_only.js.  The timer that
    follows a [Fetch] is armed in the request's [finally], whatever the
    outcome of the request. *)
Definition processLogQueue (e : Env) (st : State) : State * list Effect :=
  match logQueue st with
  | [] =>
      ({| logQueue := []; isLogging := false;
          lastLogTime := lastLogTime st |}, [])
  | item :: rest =>
      if debounced (lastLogTime st) (now e) then
        ({| logQueue := rest; isLogging := true;
            lastLogTime := lastLogTime st |}, [SetTimeout 100])
      else
        let st' := {| logQueue := rest; isLogging := true;
                      lastLogTime := Some (now e) |} in
        match Csrf.token_of (doc e) with
        | Some csrfToken =>
            if JS.truthy (Some csrfToken)
            then (st', [Fetch csrfToken (payload_of item e); SetTimeout 100])
            else (st', [SetTimeout 100])
        | None => (st', [SetTimeout 100])
        end
  end.

(** processQueue of customer-security-strict.js: the same loop, except
    that it reads the clock twice, once for the debounce test ([now e])
    and once more for the assignment to [window.lastLogTime] ([now2]). *)
Definition processQueue (e : Env) (now2 : Z) (st : State)
  : State * list Effect :=
  match logQueue st with
  | [] =>
      ({| logQueue := []; isLogging := false;
          lastLogTime := lastLogTime st |}, [])
  | item :: rest =>
      if debounced (lastLogTime st) (now e) then
        ({| logQueue := rest; isLogging := true;
            lastLogTime := lastLogTime st |}, [SetTimeout 100])
      else
        let st' := {| logQueue := rest; isLogging := true;
                      lastLogTime := Some now2 |} in
        match Csrf.token_of (doc e) with
        | Some csrfToken =>
            if JS.truthy (Some csrfToken)
            then (st', [Fetch csrfToken (payload_of item e); SetTimeout 100])
            else (st', [SetTimeout 100])
        | None => (st', [SetTimeout 100])
        end
  end.

(** logActivity: push, then start the loop unless it is already running. *)
Definition logActivity (e : Env) (ty desc : string) (st : State)
  : State * list Effect :=
  let st1 := {| logQueue := logQueue st ++
                  [{| activityType := ty; description := desc;
                      timestamp := now e |}];
                isLogging := isLogging st;
                lastLogTime := lastLogTime st |} in
  if negb (isLogging st1) then processLogQueue e st1 else (st1, []).

(** *** Runs of the loop *)

(** An effect together with the clock reading of the run that performed
    it. *)
Definition Trace := list (Z * Effect).

Definition stamp (e : Env) (effs : list Effect) : Trace :=
  map (fun x => (now e, x)) effs.

Definition timer_armed (effs : list Effect) : bool :=
  existsb (fun x => match x with SetTimeout _ => true | _ => false end) effs.

(** Several [logActivity] calls made one after the other within one task
    of the event loop, all seeing the same environment. *)
Fixpoint burst (e : Env) (calls : list (string * string)) (st : State)
  : State * Trace :=
  match calls with
  | [] => (st, [])
  | (ty, desc) :: calls' =>
      let '(st1, e1) := logActivity e ty desc st in
      let '(st2, t2) := burst e calls' st1 in
      (st2, stamp e e1 ++ t2)
  end.

(** The timer-driven part of the loop: each environment of [ticks] is the
    one seen by the next firing of the timer.  A run that arms no timer
    ends the loop; later ticks do not happen. *)
Fixpoint drain (ticks : list Env) (st : State) : State * Trace :=
  match ticks with
  | [] => (st, [])
  | e :: ticks' =>
      let '(st1, e1) := processLogQueue e st in
      if timer_armed e1 then
        let '(st2, t2) := drain ticks' st1 in
        (st2, stamp e e1 ++ t2)
      else (st1, stamp e e1)
  end.

(** A burst of calls followed by the timer-driven runs, when the burst
    left a timer armed. *)
Definition run (e : Env) (calls : list (string * string))
           (ticks : list Env) (st : State) : State * Trace :=
  let '(st1, t1) := burst e calls st in
  if isLogging st1 then
    let '(st2, t2) := drain ticks st1 in (st2, t1 ++ t2)
  else (st1, t1).

(** The requests of a trace: when each was issued and what it carried. *)
Fixpoint deliveries (t : Trace) : list (Z * Payload) :=
  match t with
  | [] => []
  | (n, Fetch _ p) :: t' => (n, p) :: deliveries t'
  | (_, SetTimeout _) :: t' => deliveries t'
  end.

(** The queue entry a request body was made from. *)
Definition item_of (p : Payload) : Item :=
  {| activityType := violation_type p;
     description := p_description p;
     timestamp := p_timestamp p |}.

Definition delivered_items (t : Trace) : list Item :=
  map (fun x => item_of (snd x)) (deliveries t).

(** The entries a burst of calls pushes. *)
Definition pushed (e : Env) (calls : list (string * string)) : list Item :=
  map (fun c => {| activityType := fst c; description := snd c;
                   timestamp := now e |}) calls.

Definition delivery_times (t : Trace) : list Z :=
  map fst (deliveries t).

(** Successive times are at least [gap] apart. *)
Fixpoint spaced (gap : Z) (l : list Z) : Prop :=
  match l with
  | a :: ((b :: _) as l') => b - a >= gap /\ spaced gap l'
  | _ => True
  end.

(** [n] is at least 2000 ms after the time [t], when there is one. *)
Definition ok_gap (t : option Z) (n : Z) : Prop :=
  match t with
  | Some v => n - v >= 2000
  | None => True
  end.

(** The times [l] are spaced by 2000 ms and start 2000 ms after [t]. *)
Definition spaced_after (t : option Z) (l : list Z) : Prop :=
  match l with
  | [] => True
  | b :: _ => ok_gap t b
  end /\ spaced 2000 l.

(** The shapes a run of processLogQueue can take. *)
Inductive Outcome (e : Env) (st : State) : State * list Effect -> Prop :=
| Idle :
    logQueue st = [] ->
    Outcome e st ({| logQueue := []; isLogging := false;
                     lastLogTime := lastLogTime st |}, [])
| Deferred item rest :
    logQueue st = item :: rest ->
    debounced (lastLogTime st) (now e) = true ->
    Outcome e st ({| logQueue := rest; isLogging := true;
                     lastLogTime := lastLogTime st |}, [SetTimeout 100])
| NoToken item rest :
    logQueue st = item :: rest ->
    debounced (lastLogTime st) (now e) = false ->
    JS.truthy (Csrf.token_of (doc e)) = false ->
    Outcome e st ({| logQueue := rest; isLogging := true;
                     lastLogTime := Some (now e) |}, [SetTimeout 100])
| Sent item rest tok :
    logQueue st = item :: rest ->
    debounced (lastLogTime st) (now e) = false ->
    Csrf.token_of (doc e) = Some tok ->
    JS.truthy (Some tok) = true ->
    Outcome e st ({| logQueue := rest; isLogging := true;
                     lastLogTime := Some (now e) |},
                  [Fetch tok (payload_of item e); SetTimeout 100]).

End LogQueue.

(* ===================================================================== *)
(** ** Keyboard handlers *)
(* ===================================================================== *)

Module Keys.

(** A keyboard event as the handlers read it.  [target] is the element the
    event is dispatched to, which for a keyboard event is the focused
    element ([None] is [null]). *)
Record KeyEvent := {
  key : string;
  keyCode : Z;
  ctrlKey : bool;
  shiftKey : bool;
  metaKey : bool;
  altKey : bool;
  target : option Element
}.

(** What a handler does.  Warning texts are given without their leading
    pictograph. *)
Inductive Action :=
| PreventDefault
| StopPropagation
| ShowWarning (message : string)
| LogActivity (type description : string)
| LogViolation (violationType description : string)
| ShowViolationAlert (type : string)
| ClearClipboard
| BlurScreen.

Definition includes {A} (eqb : A -> A -> bool) (l : list A) (x : A) : bool :=
  existsb (eqb x) l.

(** isExemptedElement of customer-security-strict.js: form controls and
    anything inside the chat widget. *)
Definition isExemptedElement (element : option Element) : bool :=
  match element with
  | None => false
  | Some el =>
      if includes String.eqb ["INPUT"; "TEXTAREA"; "SELECT"; "BUTTON"]
                  (tagName el)
      then true
      else if in_tawk el then true
      else false
  end.

(** The keydown listener of customer-security-strict.js.  Each of the three
    last tests is skipped, and the next one tried, when the target is
    exempt. *)
Definition strict_keydown (e : KeyEvent) : list Action :=
  if (keyCode e =? 123) || String.eqb (key e) "F12" then
    [PreventDefault; ShowWarning "Developer tools are disabled";
     LogActivity "f12_blocked" "F12 pressed"]
  else if ctrlKey e && shiftKey e
          && ((keyCode e =? 73) || String.eqb (key e) "I") then
    [PreventDefault; ShowWarning "Inspect element is disabled";
     LogActivity "inspect_blocked" "Ctrl+Shift+I pressed"]
  else if ctrlKey e && shiftKey e
          && ((keyCode e =? 74) || String.eqb (key e) "J") then
    [PreventDefault; ShowWarning "Console is disabled";
     LogActivity "console_blocked" "Ctrl+Shift+J pressed"]
  else if ctrlKey e && shiftKey e
          && ((keyCode e =? 67) || String.eqb (key e) "C") then
    [PreventDefault; ShowWarning "Inspect is disabled";
     LogActivity "inspect_blocked" "Ctrl+Shift+C pressed"]
  else if ctrlKey e && ((keyCode e =? 85) || String.eqb (key e) "u") then
    [PreventDefault; ShowWarning "View source is disabled";
     LogActivity "view_source_blocked" "Ctrl+U pressed"]
  else if ctrlKey e && ((keyCode e =? 83) || String.eqb (key e) "s") then
    [PreventDefault; ShowWarning "Save is disabled";
     LogActivity "save_blocked" "Ctrl+S pressed"]
  else if ctrlKey e && ((keyCode e =? 80) || String.eqb (key e) "p") then
    [PreventDefault; ShowWarning "Print is disabled";
     LogActivity "print_blocked" "Ctrl+P pressed"]
  else if ctrlKey e && ((keyCode e =? 67) || String.eqb (key e) "c")
          && negb (shiftKey e) && negb (isExemptedElement (target e)) then
    [PreventDefault; ShowWarning "Copy is disabled";
     LogActivity "ctrl_c_blocked" "Ctrl+C pressed"]
  else if ctrlKey e && ((keyCode e =? 88) || String.eqb (key e) "x")
          && negb (isExemptedElement (target e)) then
    [PreventDefault; ShowWarning "Cut is disabled";
     LogActivity "ctrl_x_blocked" "Ctrl+X pressed"]
  else if ctrlKey e && ((keyCode e =? 65) || String.eqb (key e) "a")
          && negb (isExemptedElement (target e)) then
    [PreventDefault; ShowWarning "Select all is disabled"]
  else [].

(** The keyup listener of customer-security-strict.js. *)
Definition strict_keyup (e : KeyEvent) : list Action :=
  if String.eqb (key e) "PrintScreen" || (keyCode e =? 44) then
    [ClearClipboard; ShowWarning "Screenshots are disabled";
     LogActivity "printscreen_blocked" "PrintScreen pressed"; BlurScreen]
  else [].

(** Pressing and releasing a key runs both listeners. *)
Definition strict_press (e : KeyEvent) : list Action :=
  strict_keydown e ++ strict_keyup e.

(** The keydown listener of customer-security-final.js: a run of
    independent tests, each of which may overwrite [violationType]. *)
Definition final_keydown (e : KeyEvent) : list Action :=
  let st0 := (false, "") in
  let st1 :=
    if (keyCode e =? 44) || String.eqb (key e) "PrintScreen"
    then (true, "screenshot_attempt") else st0 in
  let st2 :=
    if String.eqb (key e) "Meta" && shiftKey e && (keyCode e =? 83)
    then (true, "screenshot_tool_detected") else st1 in
  let st3 :=
    if altKey e && ((keyCode e =? 44) || String.eqb (key e) "PrintScreen")
    then (true, "screenshot_attempt") else st2 in
  let st4 :=
    if metaKey e && shiftKey e && includes Z.eqb [51; 52; 53; 54] (keyCode e)
    then (true, "screenshot_attempt") else st3 in
  let st5 :=
    if (ctrlKey e || metaKey e) && includes Z.eqb [67; 88; 86; 65] (keyCode e)
    then (true, "copy_attempt") else st4 in
  let st6 :=
    if (keyCode e =? 123)
       || (ctrlKey e && shiftKey e && includes Z.eqb [73; 74] (keyCode e))
       || (ctrlKey e && (keyCode e =? 85))
    then (true, "devtools_detected") else st5 in
  let '(blocked, violationType) := st6 in
  if blocked then
    [PreventDefault; StopPropagation;
     LogViolation violationType
       ("Key combination: " ++
        (if negb (String.eqb (key e) "") then key e
         else JS.toString (keyCode e)))%string;
     ShowViolationAlert violationType]
  else [].

(** *** The specification's table *)

(** The kinds of the specification's key-combination table. *)
Inductive ViolationKind :=
| DevToolsOpened
| ViewSourceAttempt
| SaveAttempt
| PrintAttempt
| CopyAttempt
| CutAttempt
| SelectAllAttempt
| Screenshot
| SnippingToolAttempt.

(** The physical keys of the table, with the [keyCode] and the [key]
    values a browser reports for them. *)
Inductive TableKey :=
| KF12 | KI | KJ | KC | KU | KS | KP | KX | KA | KPrintScreen
| K3 | K4 | K5 | K6.

Definition code_of (k : TableKey) : Z :=
  match k with
  | KF12 => 123 | KI => 73 | KJ => 74 | KC => 67 | KU => 85 | KS => 83
  | KP => 80 | KX => 88 | KA => 65 | KPrintScreen => 44
  | K3 => 51 | K4 => 52 | K5 => 53 | K6 => 54
  end.

Definition names_of (k : TableKey) : list string :=
  match k with
  | KF12 => ["F12"] | KI => ["i"; "I"] | KJ => ["j"; "J"] | KC => ["c"; "C"]
  | KU => ["u"; "U"] | KS => ["s"; "S"] | KP => ["p"; "P"]
  | KX => ["x"; "X"] | KA => ["a"; "A"] | KPrintScreen => ["PrintScreen"]
  | K3 => ["3"; "#"] | K4 => ["4"; "$"] | K5 => ["5"; "%"] | K6 => ["6"; "^"]
  end.

(** The event is the browser's event for key [k]. *)
Definition pressed (k : TableKey) (e : KeyEvent) : bool :=
  (keyCode e =? code_of k) && includes String.eqb (names_of k) (key e).

(** The rows of the table. *)
Inductive Row :=
| RF12
| RCtrlShiftI | RCtrlShiftJ | RCtrlShiftC
| RCtrlU | RCtrlS | RCtrlP
| RCopy | RCut | RSelectAll
| RPrintScreen | RAltPrintScreen
| RMetaShiftS
| RMetaShift3 | RMetaShift4 | RMetaShift5 | RMetaShift6.

Definition rows : list Row :=
  [RF12; RCtrlShiftI; RCtrlShiftJ; RCtrlShiftC; RCtrlU; RCtrlS; RCtrlP;
   RCopy; RCut; RSelectAll; RPrintScreen; RAltPrintScreen; RMetaShiftS;
   RMetaShift3; RMetaShift4; RMetaShift5; RMetaShift6].

(** Table, left column: when an event matches a row. *)
Definition matches (r : Row) (e : KeyEvent) : bool :=
  match r with
  | RF12 => pressed KF12 e
  | RCtrlShiftI => ctrlKey e && shiftKey e && pressed KI e
  | RCtrlShiftJ => ctrlKey e && shiftKey e && pressed KJ e
  | RCtrlShiftC => ctrlKey e && shiftKey e && pressed KC e
  | RCtrlU => ctrlKey e && pressed KU e
  | RCtrlS => ctrlKey e && pressed KS e
  | RCtrlP => ctrlKey e && pressed KP e
  | RCopy => (ctrlKey e || metaKey e) && negb (shiftKey e) && pressed KC e
  | RCut => (ctrlKey e || metaKey e) && pressed KX e
  | RSelectAll => (ctrlKey e || metaKey e) && pressed KA e
  | RPrintScreen => pressed KPrintScreen e
  | RAltPrintScreen => altKey e && pressed KPrintScreen e
  | RMetaShiftS => metaKey e && shiftKey e && pressed KS e
  | RMetaShift3 => metaKey e && shiftKey e && pressed K3 e
  | RMetaShift4 => metaKey e && shiftKey e && pressed K4 e
  | RMetaShift5 => metaKey e && shiftKey e && pressed K5 e
  | RMetaShift6 => metaKey e && shiftKey e && pressed K6 e
  end.

(** Table, right column. *)
Definition documented_kind (r : Row) : ViolationKind :=
  match r with
  | RF12 | RCtrlShiftI | RCtrlShiftJ | RCtrlShiftC => DevToolsOpened
  | RCtrlU => ViewSourceAttempt
  | RCtrlS => SaveAttempt
  | RCtrlP => PrintAttempt
  | RCopy => CopyAttempt
  | RCut => CutAttempt
  | RSelectAll => SelectAllAttempt
  | RPrintScreen | RAltPrintScreen => Screenshot
  | RMetaShiftS => SnippingToolAttempt
  | RMetaShift3 | RMetaShift4 | RMetaShift5 | RMetaShift6 => Screenshot
  end.

(** The kind each logged violation type stands for. *)
Definition kind_of_type (ty : string) : option ViolationKind :=
  if includes String.eqb
       ["f12_blocked"; "inspect_blocked"; "console_blocked";
        "devtools_detected"] ty then Some DevToolsOpened
  else if String.eqb ty "view_source_blocked" then Some ViewSourceAttempt
  else if String.eqb ty "save_blocked" then Some SaveAttempt
  else if String.eqb ty "print_blocked" then Some PrintAttempt
  else if includes String.eqb ["ctrl_c_blocked"; "copy_attempt"] ty
       then Some CopyAttempt
  else if String.eqb ty "ctrl_x_blocked" then Some CutAttempt
  else if includes String.eqb ["printscreen_blocked"; "screenshot_attempt"] ty
       then Some Screenshot
  else if String.eqb ty "screenshot_tool_detected"
       then Some SnippingToolAttempt
  else None.

(** The classification a run of a handler amounts to: the kind of the
    violation it logged, if any, and whether it prevented the default
    action. *)
Fixpoint logged_kind (acts : list Action) : option ViolationKind :=
  match acts with
  | [] => None
  | LogActivity ty _ :: _ => kind_of_type ty
  | LogViolation ty _ :: _ => kind_of_type ty
  | _ :: acts' => logged_kind acts'
  end.

Definition prevents_default (acts : list Action) : bool :=
  existsb (fun a => match a with PreventDefault => true | _ => false end) acts.

Definition classification (acts : list Action) : option ViolationKind * bool :=
  (logged_kind acts, prevents_default acts).

(** Rows and events for which customer-security-strict.js follows the
    table: it knows the Ctrl variants only. *)
Definition strict_follows (r : Row) (e : KeyEvent) : bool :=
  match r with
  | RF12 | RCtrlShiftI | RCtrlShiftJ | RCtrlShiftC
  | RCtrlU | RCtrlS | RCtrlP => true
  | RCopy | RCut => ctrlKey e
  | _ => false
  end.

(** Rows for which customer-security-final.js follows the table. *)
Definition final_follows (r : Row) : bool :=
  match r with
  | RF12 | RCtrlShiftI | RCtrlShiftJ | RCopy
  | RPrintScreen | RAltPrintScreen
  | RMetaShift3 | RMetaShift4 | RMetaShift5 | RMetaShift6 => true
  | _ => false
  end.

End Keys.

(* ===================================================================== *)
(** ** Session policy (customer-security-core.js) *)
(* ===================================================================== *)

Module Policy.

Record Config := {
  sessionTimeout : Z;
  idleTimeout : Z;
  warningTime : Z;
  maxViolations : Z
}.

(** [CustomerSecurity.config] *)
Definition config : Config :=
  {| sessionTimeout := 15 * 60 * 1000;
     idleTimeout := 5 * 60 * 1000;
     warningTime := 2 * 60 * 1000;
     maxViolations := 5 |}.

(** What [document.body] holds: the page itself, the termination notice
    that replaces everything, or a widget appended by the script. *)
Inductive Node :=
| PageContent
| TerminationNotice
| ViolationWarning (count : Z)
| TimeoutWarning
| BlurOverlay.

(** [CustomerSecurity.state] and the body of the page. *)
Record State := {
  violations : Z;
  lastActivity : Z;
  sessionStart : Z;
  warningShown : bool;
  isBlurred : bool;
  body : list Node
}.

Definition start (t : Z) : State :=
  {| violations := 0; lastActivity := t; sessionStart := t;
     warningShown := false; isBlurred := false; body := [PageContent] |}.

Inductive Detail :=
| DType (type : string) (count : Z)
| DReason (reason : string).

(** What a call does to the outside.  [Uncaught] stands for an exception
    that nothing catches: it ends the call and every call above it, so it
    is the last effect of the handler that ran into it. *)
Inductive Effect :=
| LogSecurityEvent (eventType : string) (details : Detail)
| Redirect (url : string)
| SetTimeoutRemoveWarning (delay : Z)
| SetTimeoutIdleRedirect (delay : Z)
| Uncaught.

Definition threw (effs : list Effect) : bool :=
  existsb (fun x => match x with Uncaught => true | _ => false end) effs.

(** One statement after the other: the second runs only when the first
    has not thrown. *)
Definition and_then (r : State * list Effect)
           (k : State -> State * list Effect) : State * list Effect :=
  let '(st1, e1) := r in
  if threw e1 then (st1, e1)
  else let '(st2, e2) := k st1 in (st2, e1 ++ e2).

Definition is_violation_warning (n : Node) : bool :=
  match n with ViolationWarning _ => true | _ => false end.

(** Remove the first node that satisfies [p]
    ([getElementById(..)] then [remove()]). *)
Fixpoint remove_first (p : Node -> bool) (l : list Node) : list Node :=
  match l with
  | [] => []
  | n :: l' => if p n then l' else n :: remove_first p l'
  end.

Definition set_body (b : list Node) (st : State) : State :=
  {| violations := violations st; lastActivity := lastActivity st;
     sessionStart := sessionStart st; warningShown := warningShown st;
     isBlurred := isBlurred st; body := b |}.

(** showViolationWarning: replace the warning on display by a new one,
    to be taken down five seconds later. *)
Definition showViolationWarning (count : Z) (st : State)
  : State * list Effect :=
  (set_body (remove_first is_violation_warning (body st)
             ++ [ViolationWarning count]) st,
   [SetTimeoutRemoveWarning 5000]).

(** updateActivity *)
Definition updateActivity (now : Z) (st : State) : State :=
  {| violations := violations st; lastActivity := now;
     sessionStart := sessionStart st; warningShown := false;
     isBlurred := isBlurred st; body := body st |}.

Section Logging.

(** [decodeURIComponent], which throws on a malformed escape sequence
    ([None]). *)
Variable decodeURIComponent : string -> option string.

(** logSecurityEvent: it reads the cookie first, through getCookie, and
    sends the request only when that call has returned; [d] is the
    document the call finds. *)
Definition logSecurityEvent (d : Document) (eventType : string)
           (details : Detail) (st : State) : State * list Effect :=
  match Cookies.getCookie decodeURIComponent "csrftoken" d with
  | Cookies.Normal _ => (st, [LogSecurityEvent eventType details])
  | Cookies.Throw => (st, [Uncaught])
  end.

(** showSecurityBlock: log, then replace the whole body. *)
Definition showSecurityBlock (d : Document) (st : State)
  : State * list Effect :=
  and_then
    (logSecurityEvent d "session_terminated" (DReason "max_violations") st)
    (fun st1 => (set_body [TerminationNotice] st1, [])).

(** incrementViolation *)
Definition incrementViolation (cfg : Config) (d : Document) (type : string)
           (st : State) : State * list Effect :=
  let st1 := {| violations := violations st + 1;
                lastActivity := lastActivity st;
                sessionStart := sessionStart st;
                warningShown := warningShown st;
                isBlurred := isBlurred st; body := body st |} in
  and_then
    (logSecurityEvent d "security_violation" (DType type (violations st1))
                      st1)
    (fun st2 =>
       if violations st2 >=? maxViolations cfg then showSecurityBlock d st2
       else if violations st2 >=? 3 then
         showViolationWarning (violations st2) st2
       else (st2, [])).

(** checkSession.  Showing the time-out warning appends it to the body and
    arms a timer that redirects if the warning is still there. *)
Definition checkSession (cfg : Config) (now : Z) (d : Document) (st : State)
  : State * list Effect :=
  let idleTime := now - lastActivity st in
  let sessionTime := now - sessionStart st in
  if idleTime >? idleTimeout cfg then
    and_then
      (logSecurityEvent d "session_timeout" (DReason "idle") st)
      (fun st1 => (st1, [Redirect "/accounts/signin/?timeout=idle"]))
  else if sessionTime >? sessionTimeout cfg then
    and_then
      (logSecurityEvent d "session_timeout" (DReason "max_duration") st)
      (fun st1 => (st1, [Redirect "/accounts/signin/?timeout=expired"]))
  else if (idleTime >? idleTimeout cfg - warningTime cfg)
          && negb (warningShown st) then
    ({| violations := violations st; lastActivity := lastActivity st;
        sessionStart := sessionStart st; warningShown := true;
        isBlurred := isBlurred st;
        body := body st ++ [TimeoutWarning] |},
     [SetTimeoutIdleRedirect (warningTime cfg)])
  else (st, []).

(** What the script does in response to the page's events; [doc] is the
    document the handler finds when it runs. *)
Inductive Event :=
| Violation (type : string) (doc : Document)
| SessionCheck (now : Z) (doc : Document)
| Activity (now : Z).

Definition step (cfg : Config) (ev : Event) (st : State)
  : State * list Effect :=
  match ev with
  | Violation type d => incrementViolation cfg d type st
  | SessionCheck now d => checkSession cfg now d st
  | Activity now => (updateActivity now st, [])
  end.

(** A handler that throws ends on its own; the events after it are
    handled as usual. *)
Fixpoint steps (cfg : Config) (evs : list Event) (st : State)
  : State * list Effect :=
  match evs with
  | [] => (st, [])
  | ev :: evs' =>
      let '(st1, e1) := step cfg ev st in
      let '(st2, e2) := steps cfg evs' st1 in
      (st2, e1 ++ e2)
  end.

(** The handler of the event finds a cookie that getCookie can read. *)
Definition readable (ev : Event) : Prop :=
  match ev with
  | Violation _ d | SessionCheck _ d =>
      Cookies.getCookie decodeURIComponent "csrftoken" d <> Cookies.Throw
  | Activity _ => True
  end.

End Logging.


(** The page shows the termination notice and its content is gone. *)
Definition terminated (st : State) : Prop :=
  In TerminationNotice (body st) /\ ~ In PageContent (body st).

(** The same state with another violation count. *)
Definition with_violations (v : Z) (st : State) : State :=
  {| violations := v; lastActivity := lastActivity st;
     sessionStart := sessionStart st; warningShown := warningShown st;
     isBlurred := isBlurred st; body := body st |}.


End Policy.

(* ===================================================================== *)
(** ** Session check of customer-security-final.js *)
(* ===================================================================== *)

Module Banking.

Record Config := {
  maxViolations : Z;
  sessionTimeout : Z;
  idleTimeout : Z;
  warningTime : Z;
  redirectUrl : string
}.

(** [BankingSecurity.config] *)
Definition config : Config :=
  {| maxViolations := 3;
     sessionTimeout := 15 * 60 * 1000;
     idleTimeout := 5 * 60 * 1000;
     warningTime := 2 * 60 * 1000;
     redirectUrl := "/auth/signin/" |}.

Record State := {
  violations : Z;
  lastActivity : Z;
  sessionStart : Z;
  isBlurred : bool;
  warningShown : bool;
  devToolsOpen : bool
}.

Definition start (t : Z) : State :=
  {| violations := 0; lastActivity := t; sessionStart := t;
     isBlurred := false; warningShown := false; devToolsOpen := false |}.

Inductive Effect :=
| Redirect (url : string)
| ShowTimeoutWarning.

(** checkSession *)
Definition checkSession (cfg : Config) (now : Z) (st : State)
  : State * list Effect :=
  let idleTime := now - lastActivity st in
  let sessionTime := now - sessionStart st in
  if idleTime >? idleTimeout cfg then
    (st, [Redirect (redirectUrl cfg ++ "?timeout=idle")%string])
  else if sessionTime >? sessionTimeout cfg then
    (st, [Redirect (redirectUrl cfg ++ "?timeout=expired")%string])
  else if (idleTime >? idleTimeout cfg - warningTime cfg)
          && negb (warningShown st) then
    ({| violations := violations st; lastActivity := lastActivity st;
        sessionStart := sessionStart st; isBlurred := isBlurred st;
        warningShown := true; devToolsOpen := devToolsOpen st |},
     [ShowTimeoutWarning])
  else (st, []).

End Banking.

(* ===================================================================== *)
(** ** Notification socket (websocket-notifications.js) *)
(* ===================================================================== *)

Module Socket.

Inductive ReadyState := CONNECTING | OPEN | CLOSING | CLOSED.

Definition is_open (r : ReadyState) : bool :=
  match r with OPEN => true | _ => false end.

(** The badge element [#adminNotifBadge]: its text, whether it carries
    the class [show], and its [style.display]. *)
Record Badge := {
  textContent : string;
  show : bool;
  display : string
}.

Record Notification := {
  n_id : Z;
  title : string;
  message : string;
  link : string;
  notification_type : string
}.

(** Frames the client sends. *)
Inductive Outbound :=
| Ping
| MarkRead (notification_id : string)
| MarkAllRead
| GetNotifications (limit : Z).

(** Frames the client receives, by their [type]. *)
Inductive Inbound :=
| ConnectionEstablished (user_type : string) (user_id : Z)
                        (groups : list string) (unread_count : Z)
| NewNotification (notification : Notification)
| UnreadCount (count : Z)
| MarkReadResponse (notification_id : Z)
| MarkAllReadResponse (count : Z)
| NotificationsList (notifications : list Notification)
| Pong
| Unknown (type : string).

(** The fields of [NotificationWebSocket] and the parts of the page it
    touches.  [ws] is [None] for [null], otherwise the socket's
    [readyState]; [heartbeatInterval] tells whether the interval timer is
    set; [menu_open] tells whether [#adminNotifMenu] exists with class
    [show]; [reconnect_buttons] counts the reconnect buttons in the
    page. *)
Record State := {
  ws : option ReadyState;
  reconnectAttempts : Z;
  maxReconnectAttempts : Z;
  reconnectDelay : Z;
  heartbeatInterval : bool;
  isConnecting : bool;
  badge : option Badge;
  menu_open : bool;
  permission_granted : bool;
  reconnect_buttons : nat
}.

Inductive Effect :=
| NewWebSocket (path : string)
| Send (frame : Outbound)
| SetTimeoutConnect (delay : Z)
| UpdateConnectionStatus (isConnected : bool)
| ShowConnectionToast (message type : string)
| PlayNotificationSound
| ShowBrowserNotification (notification : Notification)
| ShowNotificationToast (notification : Notification)
| RenderNotifications (notifications : list Notification).

Definition update (st : State)
    (w : option ReadyState) (attempts : Z) (hb connecting : bool)
    (b : option Badge) (buttons : nat) : State :=
  {| ws := w; reconnectAttempts := attempts;
     maxReconnectAttempts := maxReconnectAttempts st;
     reconnectDelay := reconnectDelay st;
     heartbeatInterval := hb; isConnecting := connecting;
     badge := b; menu_open := menu_open st;
     permission_granted := permission_granted st;
     reconnect_buttons := buttons |}.

(** The state the constructor sets up, before it calls [connect]. *)
Definition constructed (b : option Badge) (menu perm : bool) : State :=
  {| ws := None; reconnectAttempts := 0; maxReconnectAttempts := 5;
     reconnectDelay := 3000; heartbeatInterval := false;
     isConnecting := false; badge := b; menu_open := menu;
     permission_granted := perm; reconnect_buttons := 0 |}.

Definition socket_open (st : State) : bool :=
  match ws st with
  | Some r => is_open r
  | None => false
  end.

(** connect *)
Definition connect (st : State) : State * list Effect :=
  if isConnecting st || socket_open st then (st, [])
  else
    (update st (Some CONNECTING) (reconnectAttempts st)
            (heartbeatInterval st) true (badge st) (reconnect_buttons st),
     [NewWebSocket "/ws/notifications/"]).

(** [ws.onopen]; the socket is [OPEN] when the handler runs. *)
Definition onopen (st : State) : State * list Effect :=
  (update st (Some OPEN) 0 true false (badge st) (reconnect_buttons st),
   [UpdateConnectionStatus true; ShowConnectionToast "Connected" "success"]).

(** [ws.onerror] *)
Definition onerror (st : State) : State * list Effect :=
  (update st (ws st) (reconnectAttempts st) (heartbeatInterval st) false
          (badge st) (reconnect_buttons st), []).

(** [ws.onclose]; the socket is [CLOSED] when the handler runs. *)
Definition onclose (st : State) : State * list Effect :=
  if reconnectAttempts st <? maxReconnectAttempts st then
    let attempts := reconnectAttempts st + 1 in
    (update st (Some CLOSED) attempts false false (badge st)
            (reconnect_buttons st),
     [UpdateConnectionStatus false;
      SetTimeoutConnect (reconnectDelay st * attempts)])
  else
    (update st (Some CLOSED) (reconnectAttempts st) false false (badge st)
            (S (reconnect_buttons st)),
     [UpdateConnectionStatus false;
      ShowConnectionToast "Disconnected - Refresh page to reconnect" "error"]).

(** The click listener of the reconnect button. *)
Definition click_reconnect (st : State) : State * list Effect :=
  let st0 := update st (ws st) 0 (heartbeatInterval st) (isConnecting st)
                    (badge st) (reconnect_buttons st) in
  let '(st1, effs) := connect st0 in
  (update st1 (ws st1) (reconnectAttempts st1) (heartbeatInterval st1)
          (isConnecting st1) (badge st1) (pred (reconnect_buttons st1)),
   effs).

(** The heartbeat interval's callback. *)
Definition heartbeat (st : State) : State * list Effect :=
  if socket_open st then (st, [Send Ping]) else (st, []).

(** markAsRead, markAllAsRead, loadNotifications *)
Definition markAsRead (notificationId : string) (st : State)
  : State * list Effect :=
  if socket_open st then (st, [Send (MarkRead notificationId)]) else (st, []).

Definition markAllAsRead (st : State) : State * list Effect :=
  if socket_open st then (st, [Send MarkAllRead]) else (st, []).

Definition loadNotifications (limit : Z) (st : State) : State * list Effect :=
  if socket_open st then (st, [Send (GetNotifications limit)]) else (st, []).

(** updateUnreadBadge; [count] is a number, [None] standing for [NaN]. *)
Definition gt0 (count : option Z) : bool :=
  match count with Some c => c >? 0 | None => false end.

Definition updateUnreadBadge (count : option Z) (st : State) : State :=
  match badge st with
  | None => st
  | Some b =>
      let b' :=
        if gt0 count then
          {| textContent :=
               match count with
               | Some c => if c >? 99 then "99+" else JS.toString c
               | None => textContent b
               end;
             show := true; display := "block" |}
        else
          {| textContent := textContent b; show := false;
             display := "none" |} in
      update st (ws st) (reconnectAttempts st) (heartbeatInterval st)
             (isConnecting st) (Some b') (reconnect_buttons st)
  end.

(** [parseInt(badge.textContent || '0')] *)
Definition currentCount (b : Badge) : option Z :=
  JS.parseInt (if JS.truthy (Some (textContent b)) then textContent b
               else "0").

(** The count the script reads off the badge of the page. *)
Definition badge_count (st : State) : option Z :=
  match badge st with
  | Some b => currentCount b
  | None => None
  end.

(** handleNewNotification *)
Definition handleNewNotification (n : Notification) (st : State)
  : State * list Effect :=
  let st1 :=
    match badge st with
    | Some b => updateUnreadBadge (option_map (fun c => c + 1) (currentCount b)) st
    | None => st
    end in
  let browser :=
    if permission_granted st1 then [ShowBrowserNotification n] else [] in
  let '(st2, reload) :=
    if menu_open st1 then loadNotifications 10 st1 else (st1, []) in
  (st2, [PlayNotificationSound] ++ browser ++ [ShowNotificationToast n]
        ++ reload).

(** handleMessage *)
Definition handleMessage (data : Inbound) (st : State) : State * list Effect :=
  match data with
  | ConnectionEstablished _ _ _ unread_count =>
      (updateUnreadBadge (Some unread_count) st, [])
  | NewNotification n => handleNewNotification n st
  | UnreadCount count => (updateUnreadBadge (Some count) st, [])
  | MarkReadResponse _ => (st, [])
  | MarkAllReadResponse _ => (updateUnreadBadge (Some 0) st, [])
  | NotificationsList l => (st, [RenderNotifications l])
  | Pong => (st, [])
  | Unknown _ => (st, [])
  end.

(** *** Runs *)

(** The delay of the reconnect timer a handler armed, if it armed one. *)
Fixpoint scheduled_delay (effs : list Effect) : option Z :=
  match effs with
  | [] => None
  | SetTimeoutConnect d :: _ => Some d
  | _ :: effs' => scheduled_delay effs'
  end.

Definition sent (effs : list Effect) : list Outbound :=
  omap (fun x => match x with Send f => Some f | _ => None end) effs.


(** One failed connection: the socket closes and, when [onclose] armed the
    reconnect timer, the timer fires and calls [connect]. *)
Definition close_and_retry (st : State) : State * list Effect :=
  let '(st1, e1) := onclose st in
  match scheduled_delay e1 with
  | Some _ => let '(st2, e2) := connect st1 in (st2, e1 ++ e2)
  | None => (st1, e1)
  end.

(** [n] failed connections in a row; the result lists, for each of them,
    the delay of the timer that was armed ([None] when none was). *)
Fixpoint failures (n : nat) (st : State) : State * list (option Z) :=
  match n with
  | O => (st, [])
  | S n' =>
      let '(st1, e1) := close_and_retry st in
      let '(st2, ds) := failures n' st1 in
      (st2, scheduled_delay e1 :: ds)
  end.

(** The delay of the [k]-th failure in a row, counted from a client that
    has already used [a] attempts. *)
Definition nth_delay (st : State) (a : Z) (k : nat) : option Z :=
  let j := a + Z.of_nat k in
  if j <=? maxReconnectAttempts st then Some (reconnectDelay st * j)
  else None.

End Socket.

(* ===================================================================== *)
(** ** Counting what a run of the log queue did *)
(* ===================================================================== *)

Module QueueRuns.

(** The number of timers a trace armed. *)
Definition timers (t : LogQueue.Trace) : nat :=
  length (List.filter (fun x => LogQueue.timer_armed [snd x]) t).

(** The page of every run of the list has a token. *)
Definition all_with_token (l : list LogQueue.Env) : Prop :=
  Forall (fun x => JS.truthy (Csrf.token_of (LogQueue.doc x)) = true) l.

(** No page of the list has a token. *)
Definition all_without_token (l : list LogQueue.Env) : Prop :=
  Forall (fun x => JS.truthy (Csrf.token_of (LogQueue.doc x)) = false) l.

End QueueRuns.

(* ===================================================================== *)
(** ** More on the keyboard rows *)
(* ===================================================================== *)

Module KeyRows.

(** The rows of the developer-tools, view-source, save and print
    shortcuts. *)
Definition tool_row (r : Keys.Row) : bool :=
  match r with
  | Keys.RF12 | Keys.RCtrlShiftI | Keys.RCtrlShiftJ | Keys.RCtrlShiftC
  | Keys.RCtrlU | Keys.RCtrlS | Keys.RCtrlP => true
  | _ => false
  end.

(** The rows of the copy, cut and select-all shortcuts. *)
Definition clipboard_row (r : Keys.Row) : bool :=
  match r with
  | Keys.RCopy | Keys.RCut | Keys.RSelectAll => true
  | _ => false
  end.

(** The violation types a run of a handler logged. *)
Definition logged_types (acts : list Keys.Action) : list string :=
  omap (fun a => match a with
                 | Keys.LogActivity ty _ => Some ty
                 | Keys.LogViolation ty _ => Some ty
                 | _ => None
                 end) acts.

End KeyRows.

(* ===================================================================== *)
(** ** The other listeners of customer-security-strict.js *)
(* ===================================================================== *)

Module Strict.

Inductive DomEvent :=
| ContextMenu | Copy | Cut | Paste | SelectStart | MouseDown | DragStart.

(** What a listener does.  [SetData] is
    [e.clipboardData.setData(format, data)]; warning texts are given
    without their leading pictograph. *)
Inductive Action :=
| PreventDefault
| StopPropagation
| SetData (format data : string)
| ShowWarning (message : string)
| LogActivity (type description : string).

(** The listeners, by event type; [target] is [e.target]. *)
Definition listener (ev : DomEvent) (target : option Element) : list Action :=
  match ev with
  | ContextMenu =>
      if Keys.isExemptedElement target then []
      else [PreventDefault; StopPropagation;
            ShowWarning "Right-click is disabled";
            LogActivity "right_click_blocked" "Right-click attempt blocked"]
  | Copy =>
      if Keys.isExemptedElement target then []
      else [PreventDefault; StopPropagation; SetData "text/plain" "";
            ShowWarning "Copy is disabled";
            LogActivity "copy_blocked" "Copy attempt blocked"]
  | Cut =>
      if Keys.isExemptedElement target then []
      else [PreventDefault; StopPropagation;
            ShowWarning "Cut is disabled";
            LogActivity "cut_blocked" "Cut attempt blocked"]
  | Paste =>
      if Keys.isExemptedElement target then []
      else [PreventDefault; StopPropagation; ShowWarning "Paste is disabled"]
  | SelectStart =>
      if Keys.isExemptedElement target then []
      else [PreventDefault; StopPropagation]
  | MouseDown =>
      if negb (Keys.isExemptedElement target) then [PreventDefault] else []
  | DragStart =>
      [PreventDefault; ShowWarning "Dragging is disabled"]
  end.

Definition prevents (acts : list Action) : bool :=
  existsb (fun a => match a with PreventDefault => true | _ => false end) acts.

Definition logs (acts : list Action) : list string :=
  omap (fun a => match a with LogActivity ty _ => Some ty | _ => None end)
       acts.

(** The window sizes detectDevTools reads. *)
Record Window := {
  outerWidth : Z;
  innerWidth : Z;
  outerHeight : Z;
  innerHeight : Z
}.

(** [widthThreshold || heightThreshold] *)
Definition over_threshold (w : Window) : bool :=
  (outerWidth w - innerWidth w >? 160)
  || (outerHeight w - innerHeight w >? 160).

(** detectDevTools, on the flag [devtoolsOpen]. *)
Definition detectDevTools (w : Window) (devtoolsOpen : bool)
  : bool * list Action :=
  if over_threshold w then
    if negb devtoolsOpen then
      (true, [ShowWarning "Developer tools detected";
              LogActivity "devtools_detected" "Developer tools opened"])
    else (devtoolsOpen, [])
  else (false, []).

(** The interval timer calling detectDevTools once per window reading. *)
Fixpoint polls (ws : list Window) (devtoolsOpen : bool) : bool * list Action :=
  match ws with
  | [] => (devtoolsOpen, [])
  | w :: ws' =>
      let '(f1, a1) := detectDevTools w devtoolsOpen in
      let '(f2, a2) := polls ws' f1 in
      (f2, a1 ++ a2)
  end.

(** How often a sequence of readings goes from below to above the
    threshold, [prev] being the reading before the first. *)
Fixpoint rising_edges (prev : bool) (l : list bool) : nat :=
  match l with
  | [] => 0
  | b :: l' => (if b && negb prev then 1 else 0) + rising_edges b l'
  end.

End Strict.

(* ===================================================================== *)
(** ** Counting over runs of the session policy *)
(* ===================================================================== *)

Module PolicyRuns.

Definition is_violation (ev : Policy.Event) : bool :=
  match ev with Policy.Violation _ _ => true | _ => false end.

Definition is_activity (ev : Policy.Event) : bool :=
  match ev with Policy.Activity _ => true | _ => false end.

(** The number of violation events of a run. *)
Definition violation_events (evs : list Policy.Event) : Z :=
  Z.of_nat (length (List.filter is_violation evs)).

(** The number of times the time-out warning was put up, counted by the
    redirect timers armed with it. *)
Definition idle_warnings (effs : list Policy.Effect) : nat :=
  length (List.filter
            (fun x => match x with
                      | Policy.SetTimeoutIdleRedirect _ => true
                      | _ => false
                      end) effs).

(** While fewer violations than the maximum were counted the page content
    is there; from the maximum on the page is terminated. *)
Definition policy_inv (cfg : Policy.Config) (st : Policy.State) : Prop :=
  (Policy.violations st < Policy.maxViolations cfg ->
   In Policy.PageContent (Policy.body st))
  /\ (Policy.maxViolations cfg <= Policy.violations st ->
      Policy.terminated st).

(** The page content is there, or the page is terminated and the maximum
    has been reached. *)
Definition content_or_terminated (cfg : Policy.Config) (st : Policy.State)
  : Prop :=
  In Policy.PageContent (Policy.body st)
  \/ (Policy.terminated st
      /\ Policy.maxViolations cfg <= Policy.violations st).

End PolicyRuns.

(* ===================================================================== *)
(** ** Screen blur of customer-security-core.js *)
(* ===================================================================== *)

Module Blur.

(** The policy state together with [mainContent.style.filter] (the
    [transition] style set with it is left out). *)
Record State := {
  policy : Policy.State;
  filter : string
}.

Definition is_blur_overlay (n : Policy.Node) : bool :=
  match n with Policy.BlurOverlay => true | _ => false end.

(** [CustomerSecurity.config.blurIntensity] *)
Definition blurIntensity : string := "10px".

Definition set_blurred (v : bool) (p : Policy.State) : Policy.State :=
  {| Policy.violations := Policy.violations p;
     Policy.lastActivity := Policy.lastActivity p;
     Policy.sessionStart := Policy.sessionStart p;
     Policy.warningShown := Policy.warningShown p;
     Policy.isBlurred := v;
     Policy.body := Policy.body p |}.

Section Logging.

Variable decodeURIComponent : string -> option string.

(** blurScreen: the flag is set, then the event is logged, and only when
    logSecurityEvent has returned are the filter set and the overlay
    appended; [d] is the document the call finds. *)
Definition blurScreen (d : Document) (reason : string) (st : State)
  : State * list Policy.Effect :=
  if Policy.isBlurred (policy st) then (st, [])
  else
    let '(p, effs) :=
      Policy.logSecurityEvent decodeURIComponent d "screen_blurred"
                              (Policy.DReason reason)
                              (set_blurred true (policy st)) in
    if Policy.threw effs then ({| policy := p; filter := filter st |}, effs)
    else
      ({| policy := Policy.set_body (Policy.body p ++ [Policy.BlurOverlay]) p;
          filter := ("blur(" ++ blurIntensity ++ ")")%string |}, effs).

(** unblurScreen *)
Definition unblurScreen (st : State) : State :=
  {| policy :=
       {| Policy.violations := Policy.violations (policy st);
          Policy.lastActivity := Policy.lastActivity (policy st);
          Policy.sessionStart := Policy.sessionStart (policy st);
          Policy.warningShown := Policy.warningShown (policy st);
          Policy.isBlurred := false;
          Policy.body :=
            Policy.remove_first is_blur_overlay (Policy.body (policy st)) |};
     filter := "none" |}.

Inductive Op :=
| DoBlur (reason : string) (doc : Document)
| DoUnblur.

Definition apply_op (op : Op) (st : State) : State * list Policy.Effect :=
  match op with
  | DoBlur reason d => blurScreen d reason st
  | DoUnblur => (unblurScreen st, [])
  end.

Fixpoint run (ops : list Op) (st : State) : State * list Policy.Effect :=
  match ops with
  | [] => (st, [])
  | op :: ops' =>
      let '(st1, e1) := apply_op op st in
      let '(st2, e2) := run ops' st1 in
      (st2, e1 ++ e2)
  end.

(** The call finds a cookie that getCookie can read. *)
Definition readable (op : Op) : Prop :=
  match op with
  | DoBlur _ d =>
      Cookies.getCookie decodeURIComponent "csrftoken" d <> Cookies.Throw
  | DoUnblur => True
  end.

End Logging.

(** The number of blur overlays in the page. *)
Definition overlays (st : State) : nat :=
  length (List.filter is_blur_overlay (Policy.body (policy st))).

(** The flag and the overlay agree: one overlay when blurred, none
    otherwise. *)
Definition consistent (st : State) : Prop :=
  overlays st = if Policy.isBlurred (policy st) then 1%nat else 0%nat.

(** An overlay is there only while the flag is set, and no second one. *)
Definition overlay_needs_flag (st : State) : Prop :=
  (overlays st <= if Policy.isBlurred (policy st) then 1 else 0)%nat.

End Blur.

(* ===================================================================== *)
(** ** Key listeners of customer-security-screenshot.js *)
(* ===================================================================== *)

Module Screenshot.

(** What the listeners find when they run: the document, and whether
    [navigator.clipboard] is defined (it is not where the page is not a
    secure context, as on plain http). *)
Record Env := {
  doc : Document;
  clipboard : bool
}.

(** What a listener does; [Core] is an effect of the core script, reached
    through [window.CustomerSecurity].  [Uncaught] is the TypeError of a
    call on the undefined [navigator.clipboard]; like the exception of
    the core script it ends the listener. *)
Inductive Action :=
| PreventDefault
| WriteClipboard (text : string)
| ShowScreenshotWarning
| Core (eff : Policy.Effect)
| Uncaught.

Definition threw (acts : list Action) : bool :=
  existsb (fun a => match a with
                    | Uncaught | Core Policy.Uncaught => true
                    | _ => false
                    end) acts.

(** One statement after the other: the second runs only when the first
    has not thrown. *)
Definition and_then (r : option Policy.State * list Action)
           (k : option Policy.State -> option Policy.State * list Action)
  : option Policy.State * list Action :=
  let '(cs1, a1) := r in
  if threw a1 then (cs1, a1)
  else let '(cs2, a2) := k cs1 in (cs2, a1 ++ a2).

(** [navigator.clipboard.writeText(text)] *)
Definition writeText (env : Env) (text : string) : list Action :=
  if clipboard env then [WriteClipboard text] else [Uncaught].

Section Logging.

Variable decodeURIComponent : string -> option string.

(** [if (window.CustomerSecurity) window.CustomerSecurity.incrementViolation(type)];
    the state is [None] when the core script is not loaded. *)
Definition violation (cfg : Policy.Config) (d : Document) (type : string)
           (cs : option Policy.State) : option Policy.State * list Action :=
  match cs with
  | Some st =>
      let '(st', effs) :=
        Policy.incrementViolation decodeURIComponent cfg d type st in
      (Some st', map Core effs)
  | None => (None, [])
  end.

(** The keyup listener. *)
Definition keyup (cfg : Policy.Config) (env : Env) (e : Keys.KeyEvent)
           (cs : option Policy.State) : option Policy.State * list Action :=
  if String.eqb (Keys.key e) "PrintScreen" || (Keys.keyCode e =? 44) then
    and_then (cs, writeText env "")
      (fun cs1 =>
         and_then (violation cfg (doc env) "screenshot_attempt" cs1)
           (fun cs2 => (cs2, [ShowScreenshotWarning])))
  else (cs, []).

(** The keydown listener. *)
Definition keydown (cfg : Policy.Config) (env : Env) (e : Keys.KeyEvent)
           (cs : option Policy.State) : option Policy.State * list Action :=
  if (String.eqb (Keys.key e) "Meta" || Keys.metaKey e)
     && Keys.shiftKey e && (Keys.keyCode e =? 83) then
    and_then (cs, [PreventDefault])
      (fun cs1 =>
         and_then (violation cfg (doc env) "snipping_tool" cs1)
           (fun cs2 => (cs2, [ShowScreenshotWarning])))
  else if Keys.metaKey e && Keys.shiftKey e
          && Keys.includes Z.eqb [51; 52; 53; 54] (Keys.keyCode e) then
    and_then (cs, [PreventDefault])
      (fun cs1 =>
         and_then (violation cfg (doc env) "mac_screenshot" cs1)
           (fun cs2 => (cs2, [ShowScreenshotWarning])))
  else if (Keys.keyCode e =? 44)
          || String.eqb (Keys.key e) "PrintScreen" then
    and_then (cs, PreventDefault :: writeText env "")
      (fun cs1 => violation cfg (doc env) "printscreen" cs1)
  else (cs, []).

(** A key stroke: the key goes down, then up. *)
Definition stroke (cfg : Policy.Config) (env : Env) (e : Keys.KeyEvent)
           (cs : option Policy.State) : option Policy.State * list Action :=
  let '(cs1, a1) := keydown cfg env e cs in
  let '(cs2, a2) := keyup cfg env e cs1 in
  (cs2, a1 ++ a2).

Fixpoint strokes (cfg : Policy.Config) (env : Env)
         (es : list Keys.KeyEvent) (cs : option Policy.State)
  : option Policy.State * list Action :=
  match es with
  | [] => (cs, [])
  | e :: es' =>
      let '(cs1, a1) := stroke cfg env e cs in
      let '(cs2, a2) := strokes cfg env es' cs1 in
      (cs2, a1 ++ a2)
  end.

End Logging.

Definition is_printscreen (e : Keys.KeyEvent) : bool :=
  String.eqb (Keys.key e) "PrintScreen" || (Keys.keyCode e =? 44).

End Screenshot.

(* ===================================================================== *)
(** ** Violations, blur and developer tools in customer-security-final.js *)
(* ===================================================================== *)

Module Final.

(** What [document.body] holds under this script. *)
Inductive Node :=
| PageContent
| TerminationNotice
| BlurOverlay (reason : string).

(** [BankingSecurity.state], [mainContent.style.filter] and the body. *)
Record State := {
  banking : Banking.State;
  filter : string;
  body : list Node
}.

Definition start (t : Z) : State :=
  {| banking := Banking.start t; filter := ""; body := [PageContent] |}.

(** [Post] is the request logViolation sends; the token it carries as a
    header is the result of getCsrfToken().  [Uncaught] stands for an
    exception that nothing catches: it ends the call and every call above
    it. *)
Inductive Effect :=
| Post (violation_type description : string)
| Redirect (url : string)
| ShowTimeoutWarning
| Uncaught.

Definition threw (effs : list Effect) : bool :=
  existsb (fun x => match x with Uncaught => true | _ => false end) effs.

(** One statement after the other: the second runs only when the first
    has not thrown. *)
Definition and_then (r : State * list Effect)
           (k : State -> State * list Effect) : State * list Effect :=
  let '(st1, e1) := r in
  if threw e1 then (st1, e1)
  else let '(st2, e2) := k st1 in (st2, e1 ++ e2).

(** What comes back for a request: a JSON body with its [success] field
    read as a boolean, or nothing that parses. *)
Inductive Response :=
| Json (success : bool)
| NoJson.

Definition set_banking (b : Banking.State) (st : State) : State :=
  {| banking := b; filter := filter st; body := body st |}.

(** terminateSession *)
Definition terminateSession (st : State) : State :=
  {| banking := banking st; filter := filter st;
     body := [TerminationNotice] |}.

(** The continuation of logViolation's request. *)
Definition received (cfg : Banking.Config) (r : Response) (st : State)
  : State :=
  match r with
  | Json true =>
      let b := banking st in
      let st1 :=
        set_banking
          {| Banking.violations := Banking.violations b + 1;
             Banking.lastActivity := Banking.lastActivity b;
             Banking.sessionStart := Banking.sessionStart b;
             Banking.isBlurred := Banking.isBlurred b;
             Banking.warningShown := Banking.warningShown b;
             Banking.devToolsOpen := Banking.devToolsOpen b |} st in
      if Banking.violations (banking st1) >=? Banking.maxViolations cfg
      then terminateSession st1 else st1
  | _ => st
  end.

Definition set_isBlurred (v : bool) (st : State) : State :=
  let b := banking st in
  set_banking
    {| Banking.violations := Banking.violations b;
       Banking.lastActivity := Banking.lastActivity b;
       Banking.sessionStart := Banking.sessionStart b;
       Banking.isBlurred := v;
       Banking.warningShown := Banking.warningShown b;
       Banking.devToolsOpen := Banking.devToolsOpen b |} st.

Definition set_devToolsOpen (v : bool) (st : State) : State :=
  let b := banking st in
  set_banking
    {| Banking.violations := Banking.violations b;
       Banking.lastActivity := Banking.lastActivity b;
       Banking.sessionStart := Banking.sessionStart b;
       Banking.isBlurred := Banking.isBlurred b;
       Banking.warningShown := Banking.warningShown b;
       Banking.devToolsOpen := v |} st.

(** updateActivity *)
Definition updateActivity (now : Z) (st : State) : State :=
  let b := banking st in
  set_banking
    {| Banking.violations := Banking.violations b;
       Banking.lastActivity := now;
       Banking.sessionStart := Banking.sessionStart b;
       Banking.isBlurred := Banking.isBlurred b;
       Banking.warningShown := false;
       Banking.devToolsOpen := Banking.devToolsOpen b |} st.

(** checkSession, on the state of this module. *)
Definition checkSession (cfg : Banking.Config) (now : Z) (st : State)
  : State * list Effect :=
  let '(b, effs) := Banking.checkSession cfg now (banking st) in
  (set_banking b st,
   map (fun x => match x with
                 | Banking.Redirect u => Redirect u
                 | Banking.ShowTimeoutWarning => ShowTimeoutWarning
                 end) effs).

Section Logging.

(** [decodeURIComponent], which throws on a malformed escape sequence
    ([None]). *)
Variable decodeURIComponent : string -> option string.

(** logViolation, up to the request.  getCsrfToken() is called while the
    argument of [fetch] is put together, so when it throws no request is
    sent; [d] is the document the call finds. *)
Definition logViolation (d : Document) (violationType description : string)
           (st : State) : State * list Effect :=
  match Cookies.getCsrfToken decodeURIComponent d with
  | Cookies.Normal _ => (st, [Post violationType description])
  | Cookies.Throw => (st, [Uncaught])
  end.

(** blurScreen: the flag is set, then the violation is logged, and only
    when logViolation has returned are the filter set and the overlay
    appended. *)
Definition blurScreen (d : Document) (reason : string) (st : State)
  : State * list Effect :=
  if Banking.isBlurred (banking st) then (st, [])
  else
    and_then
      (logViolation d "screen_recording" ("Screen blurred: " ++ reason)%string
                    (set_isBlurred true st))
      (fun st2 =>
         ({| banking := banking st2; filter := "blur(10px)";
             body := body st2 ++ [BlurOverlay reason] |}, [])).

(** detectDevTools *)
Definition detectDevTools (d : Document) (w : Strict.Window) (st : State)
  : State * list Effect :=
  if Strict.over_threshold w then
    if negb (Banking.devToolsOpen (banking st)) then
      and_then
        (logViolation d "devtools_detected" "Developer tools opened"
                      (set_devToolsOpen true st))
        (fun st2 => blurScreen d "Developer tools detected" st2)
    else (st, [])
  else (set_devToolsOpen false st, []).

(** What happens to the page; [doc] is the document the handler finds
    when it runs. *)
Inductive Event :=
| DevToolsPoll (w : Strict.Window) (doc : Document)
| Received (r : Response)
| Blur (reason : string) (doc : Document)
| Violation (violationType description : string) (doc : Document)
| SessionCheck (now : Z)
| Activity (now : Z).

Definition step (cfg : Banking.Config) (ev : Event) (st : State)
  : State * list Effect :=
  match ev with
  | DevToolsPoll w d => detectDevTools d w st
  | Received r => (received cfg r st, [])
  | Blur reason d => blurScreen d reason st
  | Violation ty desc d => logViolation d ty desc st
  | SessionCheck now => checkSession cfg now st
  | Activity now => (updateActivity now st, [])
  end.

(** A handler that throws ends on its own; the events after it are
    handled as usual. *)
Fixpoint steps (cfg : Banking.Config) (evs : list Event) (st : State)
  : State * list Effect :=
  match evs with
  | [] => (st, [])
  | ev :: evs' =>
      let '(st1, e1) := step cfg ev st in
      let '(st2, e2) := steps cfg evs' st1 in
      (st2, e1 ++ e2)
  end.

End Logging.

Definition acknowledged (ev : Event) : bool :=
  match ev with Received (Json true) => true | _ => false end.

(** The number of requests of a run that the server acknowledged. *)
Definition acknowledgements (evs : list Event) : Z :=
  Z.of_nat (length (List.filter acknowledged evs)).

Definition terminated (st : State) : Prop :=
  In TerminationNotice (body st) /\ ~ In PageContent (body st).

Definition is_overlay (n : Node) : bool :=
  match n with BlurOverlay _ => true | _ => false end.

Definition overlays (st : State) : nat :=
  length (List.filter is_overlay (body st)).

Definition posted (effs : list Effect) : list string :=
  omap (fun x => match x with Post ty _ => Some ty | _ => None end) effs.

(** While fewer acknowledgements than the maximum were counted the page
    content is there; from the maximum on the page is terminated. *)
Definition inv (cfg : Banking.Config) (st : State) : Prop :=
  (Banking.violations (banking st) < Banking.maxViolations cfg ->
   In PageContent (body st))
  /\ (Banking.maxViolations cfg <= Banking.violations (banking st) ->
      terminated st).

End Final.

(* ===================================================================== *)
(** ** Runs of the notification client *)
(* ===================================================================== *)

Module SocketRun.

(** What happens to the client: calls of its methods, the callbacks of
    its socket and of its timers, and the click on the reconnect button. *)
Inductive Event :=
| Connect
| Opened
| Errored
| Closed
| ClickReconnect
| HeartbeatTick
| Message (data : Socket.Inbound)
| MarkAsRead (notificationId : string)
| MarkAllAsRead
| LoadNotifications (limit : Z).

Definition step (ev : Event) (st : Socket.State)
  : Socket.State * list Socket.Effect :=
  match ev with
  | Connect => Socket.connect st
  | Opened => Socket.onopen st
  | Errored => Socket.onerror st
  | Closed => Socket.onclose st
  | ClickReconnect => Socket.click_reconnect st
  | HeartbeatTick => Socket.heartbeat st
  | Message data => Socket.handleMessage data st
  | MarkAsRead id => Socket.markAsRead id st
  | MarkAllAsRead => Socket.markAllAsRead st
  | LoadNotifications limit => Socket.loadNotifications limit st
  end.

Fixpoint steps (evs : list Event) (st : Socket.State)
  : Socket.State * list Socket.Effect :=
  match evs with
  | [] => (st, [])
  | ev :: evs' =>
      let '(st1, e1) := step ev st in
      let '(st2, e2) := steps evs' st1 in
      (st2, e1 ++ e2)
  end.

Definition is_opened (ev : Event) : bool :=
  match ev with Opened => true | _ => false end.

Definition is_failure (ev : Event) : bool :=
  match ev with Closed | Errored => true | _ => false end.

(** The number of sockets a run created. *)
Definition sockets_created (effs : list Socket.Effect) : nat :=
  length (List.filter
            (fun x => match x with Socket.NewWebSocket _ => true | _ => false end)
            effs).

(** The connection part of the client's state. *)
Definition connection (st : Socket.State)
  : option Socket.ReadyState * Z * Z * Z * bool * bool * nat :=
  (Socket.ws st, Socket.reconnectAttempts st, Socket.maxReconnectAttempts st,
   Socket.reconnectDelay st, Socket.heartbeatInterval st,
   Socket.isConnecting st, Socket.reconnect_buttons st).

End SocketRun.

(* ===================================================================== *)
(** ** customer-security-copypaste.js *)
(* ===================================================================== *)

Module CopyPaste.

(** What a listener does; [Core] is an effect of the core script, reached
    through [window.CustomerSecurity]. *)
Inductive Action :=
| PreventDefault
| StopPropagation
| SetClipboardData (format data : string)
| ShowQuickAlert (title message : string)
| Core (eff : Policy.Effect).

(** The call into the core script ended in an exception, which ends the
    listener as well. *)
Definition threw (acts : list Action) : bool :=
  existsb (fun a => match a with Core Policy.Uncaught => true | _ => false end)
          acts.

(** What stands after the call into the core script runs only when the
    call has returned. *)
Definition unless_thrown (acts rest : list Action) : list Action :=
  if threw acts then [] else rest.

(** The events the script listens to.  [allow_paste] and [allow_select]
    tell whether the target carries the class of that name. *)
Inductive DomEvent :=
| Copy
| Cut
| Paste (allow_paste : bool)
| SelectStart (allow_select : bool)
| ContextMenu
| KeyDown (e : Keys.KeyEvent)
| DragStart
| Drop.

Section Logging.

Variable decodeURIComponent : string -> option string.

(** [if (window.CustomerSecurity) window.CustomerSecurity.incrementViolation(type)];
    the state is [None] when the core script is not loaded; [d] is the
    document the call finds. *)
Definition violation (cfg : Policy.Config) (d : Document) (type : string)
           (cs : option Policy.State) : option Policy.State * list Action :=
  match cs with
  | Some st =>
      let '(st', effs) :=
        Policy.incrementViolation decodeURIComponent cfg d type st in
      (Some st', map Core effs)
  | None => (None, [])
  end.

(** The keydown listener. *)
Definition keydown (cfg : Policy.Config) (d : Document) (e : Keys.KeyEvent)
           (cs : option Policy.State) : option Policy.State * list Action :=
  if Keys.ctrlKey e && Keys.includes Z.eqb [67; 88; 86; 65] (Keys.keyCode e)
  then
    let '(cs', acts) := violation cfg d "keyboard_shortcut" cs in
    (cs', [PreventDefault] ++ acts
          ++ unless_thrown acts
               [ShowQuickAlert "Shortcut Disabled"
                               "Keyboard shortcuts are disabled."])
  else if Keys.metaKey e
          && Keys.includes Z.eqb [67; 88; 86; 65] (Keys.keyCode e) then
    let '(cs', acts) := violation cfg d "keyboard_shortcut" cs in
    (cs', [PreventDefault] ++ acts)
  else if (Keys.keyCode e =? 123)
          || (Keys.ctrlKey e && Keys.shiftKey e
              && Keys.includes Z.eqb [73; 74] (Keys.keyCode e))
          || (Keys.ctrlKey e && (Keys.keyCode e =? 85)) then
    let '(cs', acts) := violation cfg d "devtools_attempt" cs in
    (cs', [PreventDefault] ++ acts)
  else if Keys.ctrlKey e && (Keys.keyCode e =? 70) then
    (cs, [PreventDefault])
  else (cs, []).

Definition listener (cfg : Policy.Config) (d : Document) (ev : DomEvent)
           (cs : option Policy.State) : option Policy.State * list Action :=
  match ev with
  | Copy =>
      let '(cs', acts) := violation cfg d "copy_attempt" cs in
      (cs', [PreventDefault; StopPropagation;
             SetClipboardData "text/plain"
                              "Content copying is disabled for security."]
            ++ acts
            ++ unless_thrown acts
                 [ShowQuickAlert
                    "Copy Disabled"
                    "Content copying is not allowed for security purposes."])
  | Cut =>
      let '(cs', acts) := violation cfg d "cut_attempt" cs in
      (cs', [PreventDefault; StopPropagation] ++ acts
            ++ unless_thrown acts
                 [ShowQuickAlert "Cut Disabled"
                                 "Content cutting is not allowed."])
  | Paste allow_paste =>
      if negb allow_paste then (cs, [PreventDefault; StopPropagation])
      else (cs, [])
  | SelectStart allow_select =>
      if negb allow_select then (cs, [PreventDefault]) else (cs, [])
  | ContextMenu =>
      let '(cs', acts) := violation cfg d "context_menu" cs in
      (cs', [PreventDefault] ++ acts
            ++ unless_thrown acts
                 [ShowQuickAlert "Right-Click Disabled"
                                 "Context menu is disabled for security."])
  | KeyDown e => keydown cfg d e cs
  | DragStart => (cs, [PreventDefault])
  | Drop => (cs, [PreventDefault])
  end.

(** The keydown listeners of this script and of the screenshot script on
    one event.  This script registers its listener on the document for
    the capture phase, so it runs before the listener of the screenshot
    script, which is registered for the bubbling phase. *)
Definition both_keydown (cfg : Policy.Config) (env : Screenshot.Env)
           (e : Keys.KeyEvent) (cs : option Policy.State)
  : option Policy.State * (list Action * list Screenshot.Action) :=
  let '(cs1, a1) := keydown cfg (Screenshot.doc env) e cs in
  let '(cs2, a2) := Screenshot.keydown decodeURIComponent cfg env e cs1 in
  (cs2, (a1, a2)).

End Logging.

Definition prevents (acts : list Action) : bool :=
  existsb (fun a => match a with PreventDefault => true | _ => false end)
          acts.

(** The effects of the core script among a listener's actions. *)
Definition core_effects (acts : list Action) : list Policy.Effect :=
  omap (fun a => match a with Core eff => Some eff | _ => None end) acts.

(** The violation count of the core script, when it is loaded. *)
Definition count (cs : option Policy.State) : option Z :=
  option_map Policy.violations cs.

(** One listener run counts no violation or one. *)
Definition at_most_one (before after : option Z) : Prop :=
  after = before \/ after = option_map (fun v => v + 1) before.

End CopyPaste.

(* ===================================================================== *)
(** ** customer-security-balanced.js *)
(* ===================================================================== *)

Module Balanced.

(** The flag of the script, the overlays in the page and the timers that
    wait to take them down; an overlay and its timer share a number. *)
Record State := {
  warningShown : bool;
  overlays : list nat;
  pending : list nat;
  created : nat
}.

Definition start : State :=
  {| warningShown := false; overlays := []; pending := []; created := 0 |}.

Inductive Effect :=
| PreventDefault
| Post (token : option string) (violation_type description severity : string)
| SetTimeoutRemove (overlay : nat) (delay : Z).

(** getCsrfToken: the form field [||] the meta tag. *)
Definition getCsrfToken (d : Document) : option string :=
  if JS.truthy (Csrf.form_value d) then Csrf.form_value d
  else Cookies.meta_attribute d.

(** showWarning *)
Definition showWarning (d : Document) (reason : string) (st : State)
  : State * list Effect :=
  if warningShown st then (st, [])
  else
    let overlay := created st in
    ({| warningShown := true; overlays := overlays st ++ [overlay];
        pending := pending st ++ [overlay]; created := S (created st) |},
     [Post (getCsrfToken d) "screenshot_attempt" reason "high";
      SetTimeoutRemove overlay 3000]).

(** The callback of the timer [showWarning] arms: it takes its overlay
    down and clears the flag. *)
Definition timeout (overlay : nat) (st : State) : State :=
  {| warningShown := false;
     overlays := List.filter (fun o => negb (Nat.eqb o overlay)) (overlays st);
     pending := pending st; created := created st |}.

(** The keydown listener. *)
Definition keydown (d : Document) (e : Keys.KeyEvent) (st : State)
  : State * list Effect :=
  if Keys.keyCode e =? 44 then
    let '(st', effs) := showWarning d "PrintScreen Key" st in
    (st', PreventDefault :: effs)
  else if Keys.metaKey e && Keys.shiftKey e && (Keys.keyCode e =? 83) then
    let '(st', effs) := showWarning d "Windows Snip Tool" st in
    (st', PreventDefault :: effs)
  else if Keys.keyCode e =? 123 then
    let '(st', effs) := showWarning d "Developer Tools" st in
    (st', PreventDefault :: effs)
  else (st, []).

(** What happens to the page: a key goes down, or the oldest timer fires
    (all timers wait three seconds, so they fire in the order they were
    armed; with no timer armed nothing happens). *)
Inductive Event :=
| KeyDown (e : Keys.KeyEvent)
| TimerFires.

Definition step (d : Document) (ev : Event) (st : State)
  : State * list Effect :=
  match ev with
  | KeyDown e => keydown d e st
  | TimerFires =>
      match pending st with
      | [] => (st, [])
      | overlay :: rest =>
          let st' := timeout overlay st in
          ({| warningShown := warningShown st'; overlays := overlays st';
              pending := rest; created := created st' |}, [])
      end
  end.

Fixpoint steps (d : Document) (evs : list Event) (st : State)
  : State * list Effect :=
  match evs with
  | [] => (st, [])
  | ev :: evs' =>
      let '(st1, e1) := step d ev st in
      let '(st2, e2) := steps d evs' st1 in
      (st2, e1 ++ e2)
  end.

Definition posts (effs : list Effect) : list string :=
  omap (fun x => match x with Post _ _ description _ => Some description
                         | _ => None end) effs.

Definition timer_events (evs : list Event) : nat :=
  length (List.filter (fun ev => match ev with TimerFires => true
                                          | KeyDown _ => false end) evs).

(** The flag, the overlay and the timer go together. *)
Definition inv (st : State) : Prop :=
  overlays st = pending st
  /\ length (pending st) = (if warningShown st then 1 else 0)%nat.

End Balanced.

(* ===================================================================== *)
(** ** customer_security_warning_only.js: the listeners *)
(* ===================================================================== *)

Module WarningOnly.

(** What the selectors of the script read from a node: its tag name (in
    upper case, as [tagName] gives it), its classes and its attributes. *)
Record Node := {
  tag : string;
  classes : list string;
  attributes : list (string * string)
}.

(** An element together with its ancestors, the nearest first. *)
Record Elem := {
  self : Node;
  ancestors : list Node
}.

(** The selectors the script uses: [.c], [t], [t[a]] and [t[a^="p"]];
    tag names are written in upper case. *)
Inductive Selector :=
| ClassSel (c : string)
| TagSel (t : string)
| TagAttrSel (t a : string)
| TagAttrPrefixSel (t a p : string).

Definition attribute (a : string) (n : Node) : option string :=
  option_map snd (List.find (fun x => String.eqb (fst x) a) (attributes n)).

Definition matches_node (s : Selector) (n : Node) : bool :=
  match s with
  | ClassSel c => Keys.includes String.eqb (classes n) c
  | TagSel t => String.eqb (tag n) t
  | TagAttrSel t a =>
      String.eqb (tag n) t
      && match attribute a n with Some _ => true | None => false end
  | TagAttrPrefixSel t a p =>
      String.eqb (tag n) t
      && match attribute a n with
         | Some v => JS.startsWith v p
         | None => false
         end
  end.

(** [element.matches(selector)] *)
Definition matches (s : Selector) (el : Elem) : bool :=
  matches_node s (self el).

(** [element.closest(s1, s2, ..)]: the element itself or its nearest
    ancestor that matches one of the selectors. *)
Definition closest (sels : list Selector) (el : Elem) : option Node :=
  List.find (fun n => existsb (fun s => matches_node s n) sels)
            (self el :: ancestors el).

Definition found (n : option Node) : bool :=
  match n with Some _ => true | None => false end.

Definition EXEMPTED_SELECTORS : list Selector :=
  [ClassSel "customer-sidebar"; ClassSel "sidebar-nav"; ClassSel "nav-link";
   ClassSel "nav-item"; ClassSel "customer-header"; ClassSel "dropdown-menu";
   TagAttrPrefixSel "A" "href" "/customer/";
   TagAttrPrefixSel "A" "href" "/accounts/";
   TagAttrSel "BUTTON" "data-bs-toggle"; ClassSel "btn";
   ClassSel "dropdown-toggle"; TagSel "FORM"].

(** isExemptedElement; [None] is [null]. *)
Definition isExemptedElement (element : option Elem) : bool :=
  match element with
  | None => false
  | Some el =>
      existsb (fun selector =>
                 matches selector el || found (closest [selector] el))
              EXEMPTED_SELECTORS
  end.

(** What a listener does; warning texts as the script gives them. *)
Inductive Action :=
| PreventDefault
| ShowWarning (message : string)
| LogActivity (type description : string)
| WriteClipboard (text : string).

(** The contextmenu listener. *)
Definition contextmenu (target : Elem) : list Action :=
  if isExemptedElement (Some target) then []
  else if Keys.includes String.eqb ["INPUT"; "TEXTAREA"; "SELECT"; "BUTTON"]
                        (tag (self target)) then []
  else
    [PreventDefault;
     ShowWarning "Right-click is disabled for content protection"]
    ++ (if negb (found (closest [ClassSel "customer-sidebar";
                                 ClassSel "customer-header"] target))
        then [LogActivity "right_click_attempt" "Right-click on content"]
        else []).

(** The keydown listener; [activeElement] is [document.activeElement]. *)
Definition keydown (e : Keys.KeyEvent) (activeElement : option Elem)
  : list Action :=
  if isExemptedElement activeElement then []
  else
    let block message := [PreventDefault; ShowWarning message] in
    if String.eqb (Keys.key e) "F12" then
      block "Developer tools are not allowed"
    else if Keys.ctrlKey e && Keys.shiftKey e && String.eqb (Keys.key e) "I"
    then block "Developer tools are not allowed"
    else if Keys.ctrlKey e && Keys.shiftKey e && String.eqb (Keys.key e) "J"
    then block "Console is not allowed"
    else if Keys.ctrlKey e && Keys.shiftKey e && String.eqb (Keys.key e) "C"
    then block "Inspect element is not allowed"
    else if Keys.ctrlKey e && String.eqb (Keys.key e) "u"
    then block "View source is not allowed"
    else if Keys.ctrlKey e && String.eqb (Keys.key e) "s"
    then block "Saving page is not allowed"
    else if Keys.ctrlKey e && String.eqb (Keys.key e) "p"
    then block "Printing is not allowed"
    else [].

(** The keyup listener. *)
Definition keyup (e : Keys.KeyEvent) : list Action :=
  if String.eqb (Keys.key e) "PrintScreen" || (Keys.keyCode e =? 44) then
    [WriteClipboard "Screenshot not allowed";
     ShowWarning "Screenshots are not allowed";
     LogActivity "screenshot_attempt" "PrintScreen detected"]
  else [].

(** The selectstart listener. *)
Definition selectstart (target : Elem) : list Action :=
  if isExemptedElement (Some target) then []
  else if Keys.includes String.eqb ["INPUT"; "TEXTAREA"; "SELECT"]
                        (tag (self target)) then []
  else if found (closest [ClassSel "demo-card"; ClassSel "customer-card";
                          ClassSel "demo-description"] target)
  then [PreventDefault]
  else [].

(** The copy listener; [selection] is [window.getSelection().toString()].
    Reading [tagName] off a [null] active element throws. *)
Definition copy (activeElement : option Elem) (selection : string)
  : Cookies.Completion (list Action) :=
  if isExemptedElement activeElement then Cookies.Normal []
  else
    match activeElement with
    | None => Cookies.Throw
    | Some el =>
        if Keys.includes String.eqb ["INPUT"; "TEXTAREA"; "SELECT"]
                         (tag (self el)) then Cookies.Normal []
        else if (Z.of_nat (String.length selection) >? 0) then
          Cookies.Normal [PreventDefault; WriteClipboard "";
                          ShowWarning "Copying content is not allowed"]
        else Cookies.Normal []
    end.

(** The dragstart listener. *)
Definition dragstart (target : Elem) : list Action :=
  if String.eqb (tag (self target)) "IMG"
     || String.eqb (tag (self target)) "VIDEO"
  then [PreventDefault; ShowWarning "Dragging media is not allowed"]
  else [].

Definition prevents (acts : list Action) : bool :=
  existsb (fun a => match a with PreventDefault => true | _ => false end)
          acts.

Definition logs (acts : list Action) : list string :=
  omap (fun a => match a with LogActivity ty _ => Some ty | _ => None end)
       acts.

End WarningOnly.

(* ===================================================================== *)
(** ** Sample pages and events *)
(* ===================================================================== *)

Module Samples.

Definition meta_tag (c : string) : Element :=
  {| tagName := "META"; el_id := None; el_name := Some "csrf-token";
     el_content := Some c; el_value := None; in_tawk := false |}.

Definition paragraph : Element :=
  {| tagName := "P"; el_id := None; el_name := None;
     el_content := None; el_value := None; in_tawk := false |}.

(** A page that carries the token in its meta tag, and one with no token
    anywhere. *)
Definition page_with_token : Document :=
  {| elements := [meta_tag "k3yT0ken"; paragraph]; cookie := "" |}.

Definition page_without_token : Document :=
  {| elements := [paragraph]; cookie := "theme=dark" |}.

Definition at_time (t : Z) (d : Document) : LogQueue.Env :=
  {| LogQueue.now := t; LogQueue.doc := d;
     LogQueue.href := "/customer/demos/" |}.

Definition right_click : string * string :=
  ("right_click_attempt", "Right-click on content").

Definition print_screen : string * string :=
  ("screenshot_attempt", "PrintScreen detected").

(** A key event on a paragraph of the page. *)
Definition key_event (k : string) (code : Z) (ctrl shift meta alt : bool)
  : Keys.KeyEvent :=
  {| Keys.key := k; Keys.keyCode := code; Keys.ctrlKey := ctrl;
     Keys.shiftKey := shift; Keys.metaKey := meta; Keys.altKey := alt;
     Keys.target := Some paragraph |}.

Definition ctrl_a : Keys.KeyEvent := key_event "a" 65 true false false false.

(** For each row of the table an event that matches it, with the Cmd key
    where the row reads Ctrl/Cmd. *)
Definition row_event (r : Keys.Row) : Keys.KeyEvent :=
  match r with
  | Keys.RF12 => key_event "F12" 123 false false false false
  | Keys.RCtrlShiftI => key_event "I" 73 true true false false
  | Keys.RCtrlShiftJ => key_event "J" 74 true true false false
  | Keys.RCtrlShiftC => key_event "C" 67 true true false false
  | Keys.RCtrlU => key_event "u" 85 true false false false
  | Keys.RCtrlS => key_event "s" 83 true false false false
  | Keys.RCtrlP => key_event "p" 80 true false false false
  | Keys.RCopy => key_event "c" 67 false false true false
  | Keys.RCut => key_event "x" 88 false false true false
  | Keys.RSelectAll => key_event "a" 65 false false true false
  | Keys.RPrintScreen => key_event "PrintScreen" 44 false false false false
  | Keys.RAltPrintScreen => key_event "PrintScreen" 44 false false false true
  | Keys.RMetaShiftS => key_event "S" 83 false true true false
  | Keys.RMetaShift3 => key_event "3" 51 false true true false
  | Keys.RMetaShift4 => key_event "4" 52 false true true false
  | Keys.RMetaShift5 => key_event "5" 53 false true true false
  | Keys.RMetaShift6 => key_event "6" 54 false true true false
  end.

(** A badge on display with the given text, and a notification. *)
Definition badge_showing (text : string) : Socket.Badge :=
  {| Socket.textContent := text; Socket.show := true;
     Socket.display := "block" |}.

Definition new_enquiry : Socket.Notification :=
  {| Socket.n_id := 17; Socket.title := "New enquiry";
     Socket.message := "A customer sent an enquiry";
     Socket.link := "/enquiries/17/";
     Socket.notification_type := "enquiry" |}.

(** A client whose socket is open, on a page with the given badge. *)
Definition connected (b : Socket.Badge) : Socket.State :=
  fst (Socket.onopen
         (fst (Socket.connect (Socket.constructed (Some b) false false)))).

(** decodeURIComponent on the strings of the examples: what is not an
    escape stands for itself, an escape of one byte below [%80] for its
    character, and a [%] that two hexadecimal digits do not follow makes
    the function throw ([None]).  The escapes from [%80] on, which only
    occur in longer sequences, are outside this sample and are refused. *)
Fixpoint decodeURIComponent (s : string) : option string :=
  match s with
  | EmptyString => Some EmptyString
  | String c s1 =>
      if Ascii.eqb c "%" then
        match s1 with
        | String a (String b s2) =>
            match JS.digit_of 16 a, JS.digit_of 16 b with
            | Some h, Some l =>
                if 16 * h + l <? 128 then
                  option_map (String (ascii_of_nat (Z.to_nat (16 * h + l))))
                             (decodeURIComponent s2)
                else None
            | _, _ => None
            end
        | _ => None
        end
      else option_map (String c) (decodeURIComponent s1)
  end.

(** A page whose csrftoken cookie is not a valid escape sequence. *)
Definition page_with_bad_cookie : Document :=
  {| elements := [paragraph]; cookie := "csrftoken=%" |}.

(** A page served over https, where [navigator.clipboard] is defined, and
    the same page over plain http, where it is not. *)
Definition secure (d : Document) : Screenshot.Env :=
  {| Screenshot.doc := d; Screenshot.clipboard := true |}.

Definition plain_http (d : Document) : Screenshot.Env :=
  {| Screenshot.doc := d; Screenshot.clipboard := false |}.

End Samples.

(* ===================================================================== *)
(** * Properties *)
(* ===================================================================== *)

(** ** Strings *)

Lemma append_empty_r (s : string) : (s ++ "")%string = s.
Proof. induction s as [|c s IH]; cbn; [reflexivity | now rewrite IH]. Qed.

Lemma append_char_assoc (a : string) (c : ascii) (b : string) :
  ((a ++ String c "") ++ b)%string = (a ++ String c b)%string.
Proof. induction a as [|x a IH]; cbn; [reflexivity | now rewrite IH]. Qed.

Lemma append_assoc_string (a b c : string) :
  ((a ++ b) ++ c)%string = (a ++ (b ++ c))%string.
Proof. induction a as [|x a IH]; cbn; [reflexivity | now rewrite IH]. Qed.

Lemma length_append_string (a b : string) :
  String.length (a ++ b) = (String.length a + String.length b)%nat.
Proof. induction a as [|x a IH]; cbn; [reflexivity | now rewrite IH]. Qed.

(** A string without the first character of the separator is not split. *)
Lemma split_go_no_separator (c : ascii) (sep cur s : string) :
  Cookies.has_char c s = false ->
  JS.split_go (String c sep) 0 cur s = [(cur ++ s)%string].
Proof.
  revert cur. induction s as [|x s IH]; intros cur Hs; cbn.
  - now rewrite append_empty_r.
  - cbn in Hs. apply orb_false_iff in Hs as [Hx Hs].
    destruct (ascii_dec c x) as [->|_].
    + now rewrite Ascii.eqb_refl in Hx.
    + rewrite IH by exact Hs. now rewrite append_char_assoc.
Qed.

(** The first piece of a split at [=] is what stands before the first
    [=]. *)
Lemma split_go_first_piece (cur s : string) :
  nth_error (JS.split_go "=" 0 cur s) 0
  = Some (cur ++ Cookies.before "=" s)%string.
Proof.
  revert cur. induction s as [|x s IH]; intros cur;
    cbn [JS.split_go Cookies.before String.prefix String.length Nat.sub].
  - cbn. now rewrite append_empty_r.
  - destruct (ascii_dec "=" x) as [<-|Hne].
    + assert (Hp : String.prefix "" s = true) by now destruct s.
      rewrite Hp. cbn. now rewrite append_empty_r.
    + destruct (Ascii.eqb_spec x "=") as [->|_]; [contradiction|].
      rewrite IH. now rewrite append_char_assoc.
Qed.

Lemma split_go_skip_char (cur : string) (x : ascii) (s : string) :
  x <> "="%char ->
  JS.split_go "=" 0 cur (String x s)
  = JS.split_go "=" 0 (cur ++ String x "")%string s.
Proof.
  intros Hx. cbn [JS.split_go String.prefix].
  destruct (ascii_dec "=" x) as [<-|_]; [contradiction | reflexivity].
Qed.

Lemma split_go_at_equals (cur s : string) :
  JS.split_go "=" 0 cur (String "=" s) = cur :: JS.split_go "=" 0 "" s.
Proof.
  cbn [JS.split_go String.prefix String.length Nat.sub].
  destruct (ascii_dec "=" "=") as [_|H]; [|contradiction].
  now destruct s.
Qed.

Lemma substring_prefix_part (a b : string) :
  String.substring 0 (String.length a) (a ++ b) = a.
Proof.
  induction a as [|x a IH]; cbn.
  - now destruct b.
  - now rewrite IH.
Qed.

Lemma substring_whole (b : string) :
  String.substring 0 (String.length b) b = b.
Proof. induction b as [|x b IH]; cbn; [reflexivity | now rewrite IH]. Qed.

Lemma substring_suffix_part (a b : string) (m : nat) :
  String.substring (String.length a) m (a ++ b) = String.substring 0 m b.
Proof. induction a as [|x a IH]; cbn; [reflexivity | exact IH]. Qed.


(** ** Anti-forgery token lookup *)

Lemma startsWith_nonempty (row p : string) :
  p <> "" -> JS.startsWith row p = true -> row <> "".
Proof.
  unfold JS.startsWith. intros Hp H ->.
  destruct p as [|c p]; [congruence | discriminate H].
Qed.

Lemma cookie_row_truthy (d : Document) (row : string) :
  Csrf.cookie_row d = Some row -> JS.truthy (Some row) = true.
Proof.
  unfold Csrf.cookie_row, JS.find. intros H.
  apply List.find_some in H as [_ H].
  apply startsWith_nonempty in H; [|discriminate].
  simpl. destruct (String.eqb_spec row ""); [contradiction | reflexivity].
Qed.

Lemma truthy_false_cases (v : option string) :
  JS.truthy v = false -> v = None \/ v = Some "".
Proof.
  destruct v as [s|]; simpl; [|auto].
  destruct (String.eqb_spec s ""); [subst; auto | discriminate].
Qed.

(** getCSRFToken with its assignments unfolded into cases. *)
Lemma getCSRFToken_cases (d : Document) :
  Csrf.getCSRFToken d =
    if JS.truthy (Csrf.meta_content d) then
      (Csrf.meta_content d, [Csrf.MetaTag])
    else if JS.truthy (Csrf.form_value d) then
      (Csrf.form_value d, [Csrf.MetaTag; Csrf.FormField])
    else
      (match Csrf.cookie_row d with
       | Some row => Csrf.cookie_token row
       | None => Csrf.form_value d
       end, [Csrf.MetaTag; Csrf.FormField; Csrf.Cookie]).
Proof.
  unfold Csrf.getCSRFToken.
  destruct (JS.truthy (Csrf.meta_content d)) eqn:Hm; cbn [negb].
  - rewrite Hm. reflexivity.
  - destruct (JS.truthy (Csrf.form_value d)) eqn:Hf; cbn [negb];
      [reflexivity|].
    destruct (Csrf.cookie_row d) as [row|] eqn:Hc; [|reflexivity].
    rewrite (cookie_row_truthy _ _ Hc). reflexivity.
Qed.






(** ** The violation log queue *)

Section LogQueueFacts.
Import LogQueue.

Lemma deliveries_app (t1 t2 : Trace) :
  deliveries (t1 ++ t2) = deliveries t1 ++ deliveries t2.
Proof.
  induction t1 as [|[n [tok p|dl]] t1 IH]; simpl; [reflexivity| |assumption].
  now rewrite IH.
Qed.

Lemma delivered_items_app (t1 t2 : Trace) :
  delivered_items (t1 ++ t2) = delivered_items t1 ++ delivered_items t2.
Proof. unfold delivered_items. now rewrite deliveries_app, map_app. Qed.

Lemma delivery_times_app (t1 t2 : Trace) :
  delivery_times (t1 ++ t2) = delivery_times t1 ++ delivery_times t2.
Proof. unfold delivery_times. now rewrite deliveries_app, map_app. Qed.

Lemma item_of_payload (item : Item) (e : Env) :
  item_of (payload_of item e) = item.
Proof. now destruct item. Qed.

Lemma processLogQueue_outcome (e : Env) (st : State) :
  Outcome e st (processLogQueue e st).
Proof.
  unfold processLogQueue.
  destruct (logQueue st) as [|item rest] eqn:Hq; [now constructor|].
  destruct (debounced (lastLogTime st) (now e)) eqn:Hd;
    [eapply Deferred; eauto|].
  destruct (Csrf.token_of (doc e)) as [tok|] eqn:Ht.
  - destruct (JS.truthy (Some tok)) eqn:Hy.
    + eapply Sent; eauto.
    + eapply NoToken; eauto. rewrite Ht. exact Hy.
  - eapply NoToken; eauto. rewrite Ht. reflexivity.
Qed.

(** What was delivered and what is still queued come, in order, from the
    queue. *)
Lemma processLogQueue_sublist (e : Env) (st : State) :
  delivered_items (stamp e (snd (processLogQueue e st)))
    ++ logQueue (fst (processLogQueue e st))
  `sublist_of` logQueue st.
Proof.
  destruct (processLogQueue_outcome e st) as [Hq|i r Hq _|i r Hq _ _|i r t Hq _ _ _];
    rewrite Hq; cbn.
  - constructor.
  - now apply sublist_cons.
  - now apply sublist_cons.
  - rewrite item_of_payload. reflexivity.
Qed.

Lemma drain_sublist (ticks : list Env) (st : State) :
  delivered_items (snd (drain ticks st)) ++ logQueue (fst (drain ticks st))
  `sublist_of` logQueue st.
Proof.
  revert st. induction ticks as [|e ticks IH]; intros st; cbn [drain].
  - cbn. reflexivity.
  - pose proof (processLogQueue_sublist e st) as H1.
    destruct (processLogQueue e st) as [st1 e1]. cbn [fst snd] in H1.
    destruct (timer_armed e1); [|exact H1].
    specialize (IH st1). destruct (drain ticks st1) as [st2 t2].
    cbn [fst snd] in *. rewrite delivered_items_app, <- app_assoc.
    etransitivity; [|exact H1].
    apply sublist_app; [reflexivity | exact IH].
Qed.

Lemma logActivity_sublist (e : Env) (ty desc : string) (st : State) :
  delivered_items (stamp e (snd (logActivity e ty desc st)))
    ++ logQueue (fst (logActivity e ty desc st))
  `sublist_of` logQueue st ++ pushed e [(ty, desc)].
Proof.
  unfold logActivity. cbn [isLogging].
  destruct (isLogging st); cbn [negb].
  - cbn. reflexivity.
  - etransitivity; [apply processLogQueue_sublist|]. cbn. reflexivity.
Qed.

Lemma burst_sublist (e : Env) (calls : list (string * string)) (st : State) :
  delivered_items (snd (burst e calls st)) ++ logQueue (fst (burst e calls st))
  `sublist_of` logQueue st ++ pushed e calls.
Proof.
  revert st. induction calls as [|[ty desc] calls IH]; intros st; cbn [burst].
  - cbn. rewrite app_nil_r. reflexivity.
  - pose proof (logActivity_sublist e ty desc st) as H1.
    destruct (logActivity e ty desc st) as [st1 e1]. cbn [fst snd] in H1.
    specialize (IH st1). destruct (burst e calls st1) as [st2 t2].
    cbn [fst snd] in *. rewrite delivered_items_app, <- app_assoc.
    etransitivity; [apply sublist_app; [reflexivity | exact IH]|].
    rewrite app_assoc.
    change (pushed e ((ty, desc) :: calls))
      with (pushed e [(ty, desc)] ++ pushed e calls).
    rewrite (app_assoc (logQueue st)).
    apply sublist_app; [exact H1 | reflexivity].
Qed.

Lemma run_sublist (e : Env) (calls : list (string * string))
      (ticks : list Env) (st : State) :
  delivered_items (snd (run e calls ticks st))
    ++ logQueue (fst (run e calls ticks st))
  `sublist_of` logQueue st ++ pushed e calls.
Proof.
  unfold run. pose proof (burst_sublist e calls st) as H1.
  destruct (burst e calls st) as [st1 t1]. cbn [fst snd] in H1.
  destruct (isLogging st1); [|exact H1].
  pose proof (drain_sublist ticks st1) as H2.
  destruct (drain ticks st1) as [st2 t2]. cbn [fst snd] in *.
  rewrite delivered_items_app, <- app_assoc.
  etransitivity; [|exact H1].
  apply sublist_app; [reflexivity | exact H2].
Qed.

End LogQueueFacts.

Section LogQueueTiming.
Import LogQueue.

Lemma spaced_after_skip (t : option Z) (n : Z) (l : list Z) :
  ok_gap t n -> spaced_after (Some n) l -> spaced_after t l.
Proof.
  unfold spaced_after. destruct l as [|b l]; [tauto|].
  destruct t as [v|]; cbn [ok_gap]; intros H [H1 H2]; split; auto; lia.
Qed.

Lemma spaced_after_cons (t : option Z) (n : Z) (l : list Z) :
  ok_gap t n -> spaced_after (Some n) l -> spaced_after t (n :: l).
Proof.
  unfold spaced_after. intros H [H1 H2]. split; [exact H|].
  destruct l as [|b l]; [exact I|]. cbn [ok_gap] in H1. cbn. auto.
Qed.

Lemma not_debounced_gap (t : option Z) (n : Z) :
  t <> Some 0 -> debounced t n = false -> ok_gap t n.
Proof.
  destruct t as [v|]; cbn; [|trivial]. intros Hv H.
  destruct (Z.eqb_spec v 0); [congruence|]. cbn in H.
  apply Z.ltb_ge in H. lia.
Qed.

(** One run of the loop keeps the request times spaced: whatever follows
    is at least 2000 ms after the time this run recorded. *)
Lemma processLogQueue_spaced (e : Env) (st : State) (l : list Z) :
  now e <> 0 -> lastLogTime st <> Some 0 ->
  spaced_after (lastLogTime (fst (processLogQueue e st))) l ->
  lastLogTime (fst (processLogQueue e st)) <> Some 0
  /\ spaced_after (lastLogTime st)
       (delivery_times (stamp e (snd (processLogQueue e st))) ++ l).
Proof.
  intros Hn Ht.
  destruct (processLogQueue_outcome e st)
    as [Hq|i r Hq Hd|i r Hq Hd Hk|i r tok Hq Hd Hk Hy]; cbn; intros Hl.
  - auto.
  - auto.
  - split; [congruence|].
    eapply spaced_after_skip; [apply not_debounced_gap|]; eauto.
  - split; [congruence|].
    apply spaced_after_cons; [apply not_debounced_gap|]; auto.
Qed.

Lemma logActivity_spaced (e : Env) (ty desc : string) (st : State)
      (l : list Z) :
  now e <> 0 -> lastLogTime st <> Some 0 ->
  spaced_after (lastLogTime (fst (logActivity e ty desc st))) l ->
  lastLogTime (fst (logActivity e ty desc st)) <> Some 0
  /\ spaced_after (lastLogTime st)
       (delivery_times (stamp e (snd (logActivity e ty desc st))) ++ l).
Proof.
  intros Hn Ht. unfold logActivity. cbn [isLogging].
  destruct (isLogging st); cbn [negb].
  - cbn. auto.
  - intros Hl. now apply processLogQueue_spaced in Hl.
Qed.

Lemma drain_spaced (ticks : list Env) (st : State) :
  Forall (fun x => now x <> 0) ticks -> lastLogTime st <> Some 0 ->
  spaced_after (lastLogTime st) (delivery_times (snd (drain ticks st))).
Proof.
  intros Hticks. revert st.
  induction Hticks as [|e ticks He Hticks IH]; intros st Ht; cbn [drain].
  - cbn. split; exact I.
  - pose proof (processLogQueue_spaced e st) as H1.
    destruct (processLogQueue e st) as [st1 e1]. cbn [fst snd] in H1.
    destruct (timer_armed e1).
    + destruct (H1 [] He Ht) as [Hz _]; [split; exact I|].
      specialize (IH st1 Hz).
      destruct (drain ticks st1) as [st2 t2]. cbn [fst snd] in *.
      rewrite delivery_times_app. now apply H1.
    + cbn [snd]. destruct (H1 [] He Ht) as [_ H]; [split; exact I|].
      now rewrite app_nil_r in H.
Qed.

Lemma burst_spaced (e : Env) (calls : list (string * string)) (st : State)
      (l : list Z) :
  now e <> 0 -> lastLogTime st <> Some 0 ->
  spaced_after (lastLogTime (fst (burst e calls st))) l ->
  lastLogTime (fst (burst e calls st)) <> Some 0
  /\ spaced_after (lastLogTime st)
       (delivery_times (snd (burst e calls st)) ++ l).
Proof.
  intros Hn. revert st.
  induction calls as [|[ty desc] calls IH]; intros st Ht; cbn [burst].
  - cbn. auto.
  - pose proof (logActivity_spaced e ty desc st) as H1.
    destruct (logActivity e ty desc st) as [st1 e1]. cbn [fst snd] in H1.
    assert (Hz : lastLogTime st1 <> Some 0)
      by (destruct (H1 [] Hn Ht) as [Hz _]; [split; exact I | exact Hz]).
    specialize (IH st1 Hz).
    destruct (burst e calls st1) as [st2 t2]. cbn [fst snd] in *.
    intros Hl. destruct (IH Hl) as [Hz2 Hs]. split; [exact Hz2|].
    rewrite delivery_times_app, <- app_assoc. now apply H1.
Qed.

Lemma run_spaced (e : Env) (calls : list (string * string))
      (ticks : list Env) (st : State) :
  now e <> 0 -> Forall (fun x => now x <> 0) ticks ->
  lastLogTime st <> Some 0 ->
  spaced_after (lastLogTime st) (delivery_times (snd (run e calls ticks st))).
Proof.
  intros Hn Hticks Ht. unfold run.
  pose proof (burst_spaced e calls st) as H1.
  destruct (burst e calls st) as [st1 t1]. cbn [fst snd] in H1.
  assert (Hz : lastLogTime st1 <> Some 0)
    by (destruct (H1 [] Hn Ht) as [Hz _]; [split; exact I | exact Hz]).
  destruct (isLogging st1).
  - pose proof (drain_spaced ticks st1 Hticks Hz) as H2.
    destruct (drain ticks st1) as [st2 t2]. cbn [fst snd] in *.
    rewrite delivery_times_app. now apply H1.
  - cbn [snd]. destruct (H1 [] Hn Ht) as [_ H]; [split; exact I|].
    now rewrite app_nil_r in H.
Qed.

Lemma processQueue_one_clock (e : Env) (st : State) :
  processQueue e (now e) st = processLogQueue e st.
Proof. reflexivity. Qed.

End LogQueueTiming.

(** C1 (amended). Records enqueued in one tick are delivered at most once
    each and in enqueue order, so N records give at most N requests, and
    successive requests are issued at least 2000 ms apart.  When less than
    2000 ms have passed since the last attempt, the run drops the record it
    has just taken from the head of the queue, issues no request and arms
    the next run 100 ms later.  processQueue of the strict script is the
    same loop. *)
Theorem log_queue_burst_deliveries
    (e : LogQueue.Env) (calls : list (string * string))
    (ticks : list LogQueue.Env) (st : LogQueue.State) :
  LogQueue.now e <> 0 ->
  Forall (fun x => LogQueue.now x <> 0) ticks ->
  LogQueue.logQueue st = [] ->
  LogQueue.lastLogTime st <> Some 0 ->
  let tr := snd (LogQueue.run e calls ticks st) in
  LogQueue.delivered_items tr `sublist_of` LogQueue.pushed e calls
  /\ (length (LogQueue.deliveries tr) <= length calls)%nat
  /\ LogQueue.spaced 2000 (LogQueue.delivery_times tr)
  /\ (forall e' st' item rest,
         LogQueue.logQueue st' = item :: rest ->
         LogQueue.debounced (LogQueue.lastLogTime st') (LogQueue.now e') = true ->
         LogQueue.processLogQueue e' st'
         = ({| LogQueue.logQueue := rest; LogQueue.isLogging := true;
               LogQueue.lastLogTime := LogQueue.lastLogTime st' |},
            [LogQueue.SetTimeout 100]))
  /\ (forall e' st',
         LogQueue.processQueue e' (LogQueue.now e') st'
         = LogQueue.processLogQueue e' st').
Proof.
  intros Hn Hticks Hq Ht tr.
  assert (Hsub : LogQueue.delivered_items tr `sublist_of` LogQueue.pushed e calls).
  { pose proof (run_sublist e calls ticks st) as H. rewrite Hq in H.
    etransitivity; [|exact H]. now apply sublist_inserts_r. }
  split; [exact Hsub|]. split.
  { apply sublist_length in Hsub. unfold LogQueue.delivered_items, LogQueue.pushed in Hsub.
    now rewrite !length_map in Hsub. }
  split.
  { apply (run_spaced e calls ticks st Hn Hticks Ht). }
  split; [|reflexivity].
  intros e' st' item rest Hq' Hd.
  unfold LogQueue.processLogQueue. now rewrite Hq', Hd.
Qed.

(** The theorem at a burst of two records on a page with a token, where
    the first request takes two seconds to settle: the timer then fires
    2100 ms after the burst and both records are delivered. *)
Lemma log_queue_burst_deliveries_witness :
  let e := Samples.at_time 1000 Samples.page_with_token in
  let ticks := [Samples.at_time 3100 Samples.page_with_token;
                Samples.at_time 3250 Samples.page_with_token] in
  let tr := snd (LogQueue.run e [Samples.right_click; Samples.print_screen]
                              ticks LogQueue.init) in
  LogQueue.delivery_times tr = [1000; 3100]
  /\ LogQueue.delivered_items tr
     `sublist_of` LogQueue.pushed e [Samples.right_click; Samples.print_screen]
  /\ (length (LogQueue.deliveries tr) <= 2)%nat
  /\ LogQueue.spaced 2000 (LogQueue.delivery_times tr).
Proof.
  intros e ticks tr.
  assert (He : LogQueue.now e <> 0) by (cbn; lia).
  assert (Hticks : Forall (fun x => LogQueue.now x <> 0) ticks)
    by (repeat constructor; cbn; lia).
  assert (Ht : LogQueue.lastLogTime LogQueue.init <> Some 0) by discriminate.
  destruct (log_queue_burst_deliveries
              e [Samples.right_click; Samples.print_screen] ticks
              LogQueue.init He Hticks eq_refl Ht) as (Hsub & Hlen & Hsp & _).
  split; [reflexivity|].
  split; [exact Hsub|]. split; [exact Hlen | exact Hsp].
Defined.

(** C1 as stated fails: two records enqueued in one tick on a page with
    a token, with the timer firing 150 ms and 250 ms later.  The loop ends
    with an empty queue after a single request; the second record was taken
    from the queue by the debounced run and dropped, not retried. *)
Lemma log_queue_burst_loses_record :
  let e := Samples.at_time 1000 Samples.page_with_token in
  let burst := LogQueue.burst e [Samples.right_click; Samples.print_screen]
                              LogQueue.init in
  let tick := Samples.at_time 1150 Samples.page_with_token in
  let r := LogQueue.run e [Samples.right_click; Samples.print_screen]
             [tick; Samples.at_time 1250 Samples.page_with_token]
             LogQueue.init in
  map LogQueue.activityType (LogQueue.logQueue (fst burst))
    = ["screenshot_attempt"]
  /\ LogQueue.processLogQueue tick (fst burst)
     = ({| LogQueue.logQueue := []; LogQueue.isLogging := true;
           LogQueue.lastLogTime := Some 1000 |}, [LogQueue.SetTimeout 100])
  /\ LogQueue.logQueue (fst r) = []
  /\ LogQueue.isLogging (fst r) = false
  /\ map LogQueue.activityType (LogQueue.delivered_items (snd r))
     = ["right_click_attempt"]
  /\ length (LogQueue.deliveries (snd r)) <> 2%nat.
Proof. vm_compute. repeat split; congruence. Qed.

(** C2 (amended). A run that finds no token issues no request.  The record
    it took from the head of the queue is not put back: the queue is left
    with the records behind it, the next run is armed 100 ms later, and
    whatever later runs deliver comes from those remaining records. *)
Theorem missing_token_skips_record (e : LogQueue.Env) (st : LogQueue.State) :
  JS.truthy (Csrf.token_of (LogQueue.doc e)) = false ->
  let r := LogQueue.processLogQueue e st in
  LogQueue.deliveries (LogQueue.stamp e (snd r)) = []
  /\ LogQueue.logQueue (fst r) = tl (LogQueue.logQueue st)
  /\ (LogQueue.logQueue st <> [] -> snd r = [LogQueue.SetTimeout 100])
  /\ (forall ticks,
         LogQueue.delivered_items (snd (LogQueue.drain ticks (fst r)))
         `sublist_of` tl (LogQueue.logQueue st)).
Proof.
  intros Hk r.
  assert (H : LogQueue.deliveries (LogQueue.stamp e (snd r)) = []
              /\ LogQueue.logQueue (fst r) = tl (LogQueue.logQueue st)
              /\ (LogQueue.logQueue st <> [] -> snd r = [LogQueue.SetTimeout 100])).
  { subst r.
    destruct (processLogQueue_outcome e st)
      as [Hq|i q Hq Hd|i q Hq Hd _|i q tok Hq Hd Ht Hy]; rewrite Hq; cbn.
    - repeat split. congruence.
    - repeat split.
    - repeat split.
    - rewrite Ht in Hk. congruence. }
  destruct H as (H1 & H2 & H3). repeat split; auto.
  intros ticks. rewrite <- H2.
  etransitivity; [|apply drain_sublist]. now apply sublist_inserts_r.
Qed.

(** The theorem at a queue of one record on a page without token. *)
Lemma missing_token_skips_record_witness :
  let e := Samples.at_time 1000 Samples.page_without_token in
  let st := fst (LogQueue.burst (Samples.at_time 900 Samples.page_with_token)
                   [Samples.right_click]
                   {| LogQueue.logQueue := []; LogQueue.isLogging := true;
                      LogQueue.lastLogTime := None |}) in
  LogQueue.deliveries (LogQueue.stamp e (snd (LogQueue.processLogQueue e st)))
  = [].
Proof.
  intros e st.
  exact (proj1 (missing_token_skips_record e st eq_refl)).
Defined.

(** C2 as stated fails: a run without token on a queue holding one record
    leaves the queue empty, so the record is not at its head any more; the
    next runs, now with a token on the page and well past the debounce
    interval, deliver nothing. *)
Lemma missing_token_record_not_retried :
  let st := {| LogQueue.logQueue :=
                 [{| LogQueue.activityType := "right_click_attempt";
                     LogQueue.description := "Right-click on content";
                     LogQueue.timestamp := 900 |}];
               LogQueue.isLogging := true;
               LogQueue.lastLogTime := None |} in
  let r := LogQueue.processLogQueue
             (Samples.at_time 1000 Samples.page_without_token) st in
  let later := LogQueue.drain
                 [Samples.at_time 4000 Samples.page_with_token;
                  Samples.at_time 8000 Samples.page_with_token] (fst r) in
  snd r = [LogQueue.SetTimeout 100]
  /\ LogQueue.logQueue (fst r) = []
  /\ LogQueue.logQueue (fst r) <> LogQueue.logQueue st
  /\ LogQueue.deliveries (snd later) = []
  /\ LogQueue.isLogging (fst later) = false.
Proof. vm_compute. repeat split; congruence. Qed.

(** ** Keyboard handlers *)

Section KeysFacts.
Import Keys.

(** Read a match with a row as the key code and the key name it fixes. *)
Ltac fix_key Hm :=
  let Hc := fresh "Hc" in
  let Hk := fresh "Hk" in
  apply andb_prop in Hm as [Hc Hk];
  apply Z.eqb_eq in Hc; cbn in Hc; subst;
  cbn in Hk;
  repeat (apply orb_prop in Hk as [Hk|Hk]);
  try discriminate Hk;
  apply String.eqb_eq in Hk; subst.

Lemma strict_follows_table (r : Row) (e : KeyEvent) :
  matches r e = true ->
  isExemptedElement (target e) = false ->
  strict_follows r e = true ->
  classification (strict_press e) = (Some (documented_kind r), true).
Proof.
  destruct e as [k kc c s m a t]. cbn [target]. intros Hm Hx Hf.
  destruct r; destruct c, s; cbn in Hf; try discriminate Hf;
    unfold matches, pressed in Hm;
    cbn [key keyCode ctrlKey shiftKey metaKey altKey] in Hm;
    cbn [andb orb negb] in Hm; try discriminate Hm;
    fix_key Hm;
    unfold classification, strict_press, strict_keydown, strict_keyup;
    cbn [key keyCode ctrlKey shiftKey metaKey altKey target];
    rewrite ?Hx; reflexivity.
Qed.

Lemma final_follows_table (r : Row) (e : KeyEvent) :
  matches r e = true ->
  final_follows r = true ->
  classification (final_keydown e) = (Some (documented_kind r), true).
Proof.
  destruct e as [k kc c s m a t]. intros Hm Hf.
  destruct r; cbn in Hf; try discriminate Hf;
    unfold matches, pressed in Hm;
    cbn [key keyCode ctrlKey shiftKey metaKey altKey] in Hm;
    destruct c, s, m, a; cbn [andb orb negb] in Hm; try discriminate Hm;
    fix_key Hm; reflexivity.
Qed.

End KeysFacts.

(** C3 (amended). For a key event that matches a row of the table while
    the focused element is not exempt, customer-security-strict.js logs the
    documented kind and prevents the default action on the rows F12,
    Ctrl+Shift+I/J/C, Ctrl+U, Ctrl+S, Ctrl+P and, with the Ctrl key, on the
    copy and cut rows; customer-security-final.js does so on the rows F12,
    Ctrl+Shift+I/J, Ctrl/Cmd+C without Shift, PrintScreen, Alt+PrintScreen
    and Meta/Cmd+Shift+3..6. *)
Theorem keyboard_table_classification (r : Keys.Row) (e : Keys.KeyEvent) :
  Keys.matches r e = true ->
  Keys.isExemptedElement (Keys.target e) = false ->
  (Keys.strict_follows r e = true ->
   Keys.classification (Keys.strict_press e)
   = (Some (Keys.documented_kind r), true))
  /\ (Keys.final_follows r = true ->
      Keys.classification (Keys.final_keydown e)
      = (Some (Keys.documented_kind r), true)).
Proof.
  intros Hm Hx. split; intros Hf.
  - now apply strict_follows_table.
  - now apply final_follows_table.
Qed.

(** The theorem at F12, a row both scripts follow. *)
Lemma keyboard_table_classification_witness :
  Keys.classification (Keys.strict_press (Samples.row_event Keys.RF12))
  = (Some Keys.DevToolsOpened, true)
  /\ Keys.classification (Keys.final_keydown (Samples.row_event Keys.RF12))
     = (Some Keys.DevToolsOpened, true).
Proof.
  destruct (keyboard_table_classification
              Keys.RF12 (Samples.row_event Keys.RF12) eq_refl eq_refl)
    as [Hs Hf].
  split; [exact (Hs eq_refl) | exact (Hf eq_refl)].
Defined.

(** C3 as stated fails: Ctrl+A on a paragraph matches the select-all row,
    whose documented kind is SelectAllAttempt, yet the strict script logs
    no violation for it and the final script logs it as a copy attempt.
    PrintScreen is logged by the strict script on key release, without
    preventing the default action. *)
Lemma keyboard_select_all_misclassified :
  Keys.matches Keys.RSelectAll Samples.ctrl_a = true
  /\ Keys.isExemptedElement (Keys.target Samples.ctrl_a) = false
  /\ Keys.documented_kind Keys.RSelectAll = Keys.SelectAllAttempt
  /\ Keys.classification (Keys.strict_press Samples.ctrl_a) = (None, true)
  /\ Keys.classification (Keys.final_keydown Samples.ctrl_a)
     = (Some Keys.CopyAttempt, true)
  /\ Keys.classification
       (Keys.strict_press (Samples.row_event Keys.RPrintScreen))
     = (Some Keys.Screenshot, false).
Proof. repeat split. Qed.

(** The rows left out of C3 are left out for a reason: on the sample event
    of each of them the script does not give the documented
    classification. *)
Lemma keyboard_table_rows_not_followed :
  Forall (fun r =>
            Keys.matches r (Samples.row_event r) = true
            /\ (Keys.strict_follows r (Samples.row_event r) = false ->
                Keys.classification (Keys.strict_press (Samples.row_event r))
                <> (Some (Keys.documented_kind r), true))
            /\ (Keys.final_follows r = false ->
                Keys.classification (Keys.final_keydown (Samples.row_event r))
                <> (Some (Keys.documented_kind r), true)))
         Keys.rows.
Proof.
  unfold Keys.rows.
  repeat (constructor; [vm_compute; repeat split; congruence|]).
  constructor.
Qed.

(** ** Session policy *)

Section PolicyFacts.
Import Policy.

Variable decodeURIComponent : string -> option string.

Lemma remove_first_keeps (p : Node -> bool) (n : Node) (l : list Node) :
  p n = false -> In n l -> In n (remove_first p l).
Proof.
  intros Hp. induction l as [|x l IH]; cbn; [tauto|].
  intros [->|H].
  - rewrite Hp. now left.
  - destruct (p x); [exact H | right; auto].
Qed.

Lemma remove_first_subset (p : Node -> bool) (n : Node) (l : list Node) :
  In n (remove_first p l) -> In n l.
Proof.
  induction l as [|x l IH]; cbn; [tauto|].
  destruct (p x); cbn; tauto.
Qed.

(** logSecurityEvent sends its request, or throws before it. *)
Lemma logSecurityEvent_cases (d : Document) (eventType : string)
      (details : Detail) (st : State) :
  (Cookies.getCookie decodeURIComponent "csrftoken" d <> Cookies.Throw
   /\ logSecurityEvent decodeURIComponent d eventType details st
      = (st, [LogSecurityEvent eventType details]))
  \/ (Cookies.getCookie decodeURIComponent "csrftoken" d = Cookies.Throw
      /\ logSecurityEvent decodeURIComponent d eventType details st
         = (st, [Uncaught])).
Proof.
  unfold logSecurityEvent.
  destruct (Cookies.getCookie decodeURIComponent "csrftoken" d);
    [left | right]; split; congruence.
Qed.

(** incrementViolation with its calls unfolded into cases. *)
Lemma incrementViolation_cases (cfg : Config) (d : Document) (type : string)
      (st : State) :
  let count := violations st + 1 in
  let st1 := with_violations count st in
  let log := LogSecurityEvent "security_violation" (DType type count) in
  (Cookies.getCookie decodeURIComponent "csrftoken" d <> Cookies.Throw
   /\ incrementViolation decodeURIComponent cfg d type st
      = if count >=? maxViolations cfg then
          (set_body [TerminationNotice] st1,
           [log; LogSecurityEvent "session_terminated"
                   (DReason "max_violations")])
        else if count >=? 3 then
          (set_body (remove_first is_violation_warning (body st)
                     ++ [ViolationWarning count]) st1,
           [log; SetTimeoutRemoveWarning 5000])
        else (st1, [log]))
  \/ (Cookies.getCookie decodeURIComponent "csrftoken" d = Cookies.Throw
      /\ incrementViolation decodeURIComponent cfg d type st
         = (st1, [Uncaught])).
Proof.
  intros count st1 log.
  unfold incrementViolation, showSecurityBlock, logSecurityEvent.
  destruct (Cookies.getCookie decodeURIComponent "csrftoken" d);
    [left | right]; (split; [congruence|]).
  - cbn [and_then threw existsb orb violations].
    fold count.
    destruct (count >=? maxViolations cfg); [reflexivity|].
    destruct (count >=? 3); reflexivity.
  - reflexivity.
Qed.

(** checkSession with its calls unfolded into cases. *)
Lemma checkSession_cases (cfg : Config) (now : Z) (d : Document)
      (st : State) :
  let can_log :=
    match Cookies.getCookie decodeURIComponent "csrftoken" d with
    | Cookies.Normal _ => true
    | Cookies.Throw => false
    end in
  checkSession decodeURIComponent cfg now d st
  = if now - lastActivity st >? idleTimeout cfg then
      (st, if can_log
           then [LogSecurityEvent "session_timeout" (DReason "idle");
                 Redirect "/accounts/signin/?timeout=idle"]
           else [Uncaught])
    else if now - sessionStart st >? sessionTimeout cfg then
      (st, if can_log
           then [LogSecurityEvent "session_timeout" (DReason "max_duration");
                 Redirect "/accounts/signin/?timeout=expired"]
           else [Uncaught])
    else if (now - lastActivity st >? idleTimeout cfg - warningTime cfg)
            && negb (warningShown st) then
      ({| violations := violations st; lastActivity := lastActivity st;
          sessionStart := sessionStart st; warningShown := true;
          isBlurred := isBlurred st;
          body := body st ++ [TimeoutWarning] |},
       [SetTimeoutIdleRedirect (warningTime cfg)])
    else (st, []).
Proof.
  intros can_log. subst can_log.
  unfold checkSession, logSecurityEvent.
  destruct (Cookies.getCookie decodeURIComponent "csrftoken" d);
    repeat match goal with
           | |- context [if ?b then _ else _] => destruct b
           end; reflexivity.
Qed.

Lemma incrementViolation_terminated (cfg : Config) (d : Document)
      (type : string) (st : State) :
  terminated st ->
  terminated (fst (incrementViolation decodeURIComponent cfg d type st)).
Proof.
  unfold terminated. intros [Hn Hp].
  destruct (incrementViolation_cases cfg d type st) as [[_ ->]|[_ ->]];
    [|cbn; tauto].
  destruct (violations st + 1 >=? maxViolations cfg); cbn.
  - split; [auto | intros [H|[]]; discriminate H].
  - destruct (violations st + 1 >=? 3); cbn; [|tauto].
    split.
    + apply in_or_app. left. now apply remove_first_keeps.
    + intros H. apply in_app_or in H as [H|[H|[]]]; [|discriminate H].
      apply Hp. eapply remove_first_subset; eauto.
Qed.

Lemma checkSession_terminated (cfg : Config) (now : Z) (d : Document)
      (st : State) :
  terminated st ->
  terminated (fst (checkSession decodeURIComponent cfg now d st)).
Proof.
  unfold terminated. intros [Hn Hp]. rewrite checkSession_cases.
  repeat match goal with |- context [if ?b then _ else _] => destruct b end;
    cbn; try tauto.
  split.
  - apply in_or_app. now left.
  - intros H. apply in_app_or in H as [H|[H|[]]]; [tauto | discriminate H].
Qed.

Lemma step_terminated (cfg : Config) (ev : Event) (st : State) :
  terminated st -> terminated (fst (step decodeURIComponent cfg ev st)).
Proof.
  destruct ev; cbn [step].
  - apply incrementViolation_terminated.
  - apply checkSession_terminated.
  - cbn. tauto.
Qed.


End PolicyFacts.




(** On a page whose csrftoken cookie cannot be decoded the fifth violation
    is counted, but the call ends in getCookie: nothing is logged and the
    page content stays. *)
Lemma violation_with_undecodable_cookie :
  let d := Samples.page_with_bad_cookie in
  let r := Policy.steps Samples.decodeURIComponent Policy.config
             (repeat (Policy.Violation "copy_attempt" d) 5)
             (Policy.start 0) in
  Policy.violations (fst r) = 5
  /\ Policy.body (fst r) = [Policy.PageContent]
  /\ snd r = repeat Policy.Uncaught 5.
Proof. vm_compute. repeat split. Qed.




(** On a page whose csrftoken cookie cannot be decoded the session check
    of the core script ends in getCookie: the idle session is not
    redirected. *)
Lemma session_check_with_undecodable_cookie :
  Policy.checkSession Samples.decodeURIComponent Policy.config 300001
                      Samples.page_with_bad_cookie (Policy.start 0)
  = (Policy.start 0, [Policy.Uncaught]).
Proof. reflexivity. Qed.

(** ** Notification socket *)

Section SocketFacts.
Import Socket.

Lemma connect_keeps (st : State) :
  reconnectAttempts (fst (connect st)) = reconnectAttempts st
  /\ maxReconnectAttempts (fst (connect st)) = maxReconnectAttempts st
  /\ reconnectDelay (fst (connect st)) = reconnectDelay st.
Proof. unfold connect. destruct (isConnecting st || socket_open st); cbn; auto. Qed.

Lemma close_and_retry_spec (st : State) :
  let r := close_and_retry st in
  maxReconnectAttempts (fst r) = maxReconnectAttempts st
  /\ reconnectDelay (fst r) = reconnectDelay st
  /\ (if reconnectAttempts st <? maxReconnectAttempts st
      then reconnectAttempts (fst r) = reconnectAttempts st + 1
           /\ scheduled_delay (snd r)
              = Some (reconnectDelay st * (reconnectAttempts st + 1))
      else reconnectAttempts (fst r) = reconnectAttempts st
           /\ scheduled_delay (snd r) = None).
Proof.
  unfold close_and_retry, onclose.
  destruct (reconnectAttempts st <? maxReconnectAttempts st);
    cbn [scheduled_delay].
  - match goal with |- context [connect ?s] =>
      pose proof (connect_keeps s) as (H1 & H2 & H3);
      destruct (connect s) as [st2 e2] end.
    cbn in *. auto.
  - cbn. auto.
Qed.

Lemma failures_delays (n : nat) (st : State) :
  0 <= reconnectAttempts st ->
  snd (failures n st) = map (nth_delay st (reconnectAttempts st)) (seq 1 n).
Proof.
  revert st. induction n as [|n IH]; intros st Ha; cbn [failures seq map].
  - reflexivity.
  - pose proof (close_and_retry_spec st) as (Hm & Hd & Hs).
    destruct (close_and_retry st) as [st1 e1]. cbn [fst snd] in *.
    assert (Ha1 : 0 <= reconnectAttempts st1)
      by (destruct (reconnectAttempts st <? maxReconnectAttempts st);
          destruct Hs as [-> _]; lia).
    specialize (IH st1 Ha1). destruct (failures n st1) as [st2 ds].
    cbn [snd] in *. rewrite IH. rewrite <- (seq_shift n 1), map_map.
    destruct (Z.ltb_spec (reconnectAttempts st) (maxReconnectAttempts st))
      as [Hlt|Hge]; destruct Hs as [Hs1 Hs2]; rewrite Hs2.
    + f_equal.
      * unfold nth_delay. change (Z.of_nat 1) with 1.
        destruct (Z.leb_spec (reconnectAttempts st + 1)
                    (maxReconnectAttempts st)); [reflexivity | lia].
      * apply map_ext. intros k. unfold nth_delay.
        rewrite Hm, Hd, Hs1. rewrite Nat2Z.inj_succ.
        replace (reconnectAttempts st + 1 + Z.of_nat k)
          with (reconnectAttempts st + Z.succ (Z.of_nat k)) by lia.
        reflexivity.
    + f_equal.
      * unfold nth_delay. change (Z.of_nat 1) with 1.
        destruct (Z.leb_spec (reconnectAttempts st + 1)
                    (maxReconnectAttempts st)); [lia | reflexivity].
      * apply map_ext_in. intros k Hk. apply in_seq in Hk.
        unfold nth_delay. rewrite Hm, Hd, Hs1.
        destruct (Z.leb_spec (reconnectAttempts st + Z.of_nat k)
                    (maxReconnectAttempts st)); [lia|].
        destruct (Z.leb_spec (reconnectAttempts st + Z.of_nat (S k))
                    (maxReconnectAttempts st)); [lia | reflexivity].
Qed.

End SocketFacts.

(** C6. After a close, while fewer than the maximum number of attempts
    have been made, the attempt counter goes up by one and the reconnect is
    scheduled after baseDelay times the new attempt number; counted from a
    client whose counter is zero, the n-th failure in a row therefore waits
    baseDelay * n, for n up to the maximum, and later failures schedule
    nothing.  Once the maximum is reached a close schedules nothing and
    puts up the reconnect button; clicking it resets the counter to zero
    and connects.  A successful open resets the counter as well. *)
Theorem reconnect_policy (st : Socket.State) :
  (Socket.reconnectAttempts st < Socket.maxReconnectAttempts st ->
   Socket.reconnectAttempts (fst (Socket.onclose st))
   = Socket.reconnectAttempts st + 1
   /\ Socket.scheduled_delay (snd (Socket.onclose st))
      = Some (Socket.reconnectDelay st * (Socket.reconnectAttempts st + 1))
   /\ Socket.reconnect_buttons (fst (Socket.onclose st))
      = Socket.reconnect_buttons st)
  /\ (Socket.maxReconnectAttempts st <= Socket.reconnectAttempts st ->
      Socket.scheduled_delay (snd (Socket.onclose st)) = None
      /\ Socket.reconnectAttempts (fst (Socket.onclose st))
         = Socket.reconnectAttempts st
      /\ Socket.reconnect_buttons (fst (Socket.onclose st))
         = S (Socket.reconnect_buttons st))
  /\ (Socket.reconnectAttempts st = 0 ->
      forall n,
        snd (Socket.failures n st)
        = map (fun k =>
                 if Z.of_nat k <=? Socket.maxReconnectAttempts st
                 then Some (Socket.reconnectDelay st * Z.of_nat k)
                 else None) (seq 1 n))
  /\ Socket.reconnectAttempts (fst (Socket.click_reconnect st)) = 0
  /\ (Socket.isConnecting st = false -> Socket.socket_open st = false ->
      snd (Socket.click_reconnect st)
      = [Socket.NewWebSocket "/ws/notifications/"]
      /\ Socket.ws (fst (Socket.click_reconnect st))
         = Some Socket.CONNECTING)
  /\ Socket.reconnectAttempts (fst (Socket.onopen st)) = 0.
Proof.
  split; [|split; [|split; [|split; [|split]]]].
  - intros H. unfold Socket.onclose.
    destruct (Z.ltb_spec (Socket.reconnectAttempts st)
                (Socket.maxReconnectAttempts st)); [|lia].
    cbn. auto.
  - intros H. unfold Socket.onclose.
    destruct (Z.ltb_spec (Socket.reconnectAttempts st)
                (Socket.maxReconnectAttempts st)); [lia|].
    cbn. auto.
  - intros H n. rewrite failures_delays by lia. rewrite H.
    apply map_ext. intros k. reflexivity.
  - unfold Socket.click_reconnect, Socket.connect. cbn.
    destruct (Socket.isConnecting st || _); reflexivity.
  - intros Hc Ho. unfold Socket.click_reconnect, Socket.connect.
    unfold Socket.socket_open in *. cbn. rewrite Hc, Ho. cbn. auto.
  - reflexivity.
Qed.

(** The theorem on a freshly constructed client (base delay 3000 ms, at
    most 5 attempts) whose connection fails seven times in a row. *)
Lemma reconnect_policy_witness :
  snd (Socket.failures 7 (Socket.constructed None false false))
  = [Some 3000; Some 6000; Some 9000; Some 12000; Some 15000; None; None].
Proof.
  destruct (reconnect_policy (Socket.constructed None false false))
    as (_ & _ & H & _).
  exact (H eq_refl 7%nat).
Defined.

(** C8. While the socket is not open, markAsRead, markAllAsRead and
    loadNotifications send nothing and leave the client exactly as it was,
    so nothing is kept for later; nor does a later open send anything.
    While it is open each sends its frame. *)
Theorem outbound_actions_need_open_socket
    (st : Socket.State) (notificationId : string) (limit : Z) :
  (Socket.socket_open st = false ->
   Socket.markAsRead notificationId st = (st, [])
   /\ Socket.markAllAsRead st = (st, [])
   /\ Socket.loadNotifications limit st = (st, []))
  /\ (Socket.socket_open st = true ->
      Socket.markAsRead notificationId st
      = (st, [Socket.Send (Socket.MarkRead notificationId)])
      /\ Socket.markAllAsRead st = (st, [Socket.Send Socket.MarkAllRead])
      /\ Socket.loadNotifications limit st
         = (st, [Socket.Send (Socket.GetNotifications limit)]))
  /\ Socket.sent (snd (Socket.onopen st)) = []
  /\ (Socket.socket_open st = true <-> Socket.ws st = Some Socket.OPEN).
Proof.
  unfold Socket.markAsRead, Socket.markAllAsRead, Socket.loadNotifications.
  split; [|split; [|split]].
  - intros ->. auto.
  - intros ->. auto.
  - reflexivity.
  - unfold Socket.socket_open. destruct (Socket.ws st) as [[]|]; cbn;
      split; congruence.
Qed.

(** The theorem on a client whose socket is still connecting, and on one
    whose socket is open. *)
Lemma outbound_actions_need_open_socket_witness :
  Socket.markAllAsRead
    (fst (Socket.connect (Socket.constructed None false false)))
  = (fst (Socket.connect (Socket.constructed None false false)), [])
  /\ snd (Socket.markAsRead "17"
            (Samples.connected (Samples.badge_showing "4")))
     = [Socket.Send (Socket.MarkRead "17")].
Proof.
  split.
  - destruct (outbound_actions_need_open_socket
                (fst (Socket.connect (Socket.constructed None false false)))
                "17" 10) as (H & _).
    exact (proj1 (proj2 (H eq_refl))).
  - destruct (outbound_actions_need_open_socket
                (Samples.connected (Samples.badge_showing "4")) "17" 10)
      as (_ & H & _).
    destruct (H eq_refl) as (H1 & _). now rewrite H1.
Defined.

(** Counts up to 99 survive being written to the badge and read back. *)
Lemma badge_text_round_trip (m : Z) (s : bool) (d : string) :
  1 <= m <= 99 ->
  Socket.currentCount {| Socket.textContent := JS.toString m;
                         Socket.show := s; Socket.display := d |} = Some m.
Proof.
  intros Hm. unfold Socket.currentCount. cbn [Socket.textContent].
  assert (Hall :
    forallb (fun k =>
               match JS.parseInt
                       (if JS.truthy (Some (JS.toString (Z.of_nat k)))
                        then JS.toString (Z.of_nat k) else "0") with
               | Some x => x =? Z.of_nat k
               | None => false
               end) (seq 1 99) = true) by (vm_compute; reflexivity).
  rewrite forallb_forall in Hall.
  specialize (Hall (Z.to_nat m)). rewrite Z2Nat.id in Hall by lia.
  assert (Hin : In (Z.to_nat m) (seq 1 99)) by (apply in_seq; lia).
  specialize (Hall Hin).
  destruct (JS.parseInt _) as [x|]; [|discriminate Hall].
  apply Z.eqb_eq in Hall. now subst.
Qed.

Lemma updateUnreadBadge_badge (count : option Z) (st : Socket.State)
      (b : Socket.Badge) :
  Socket.badge st = Some b ->
  Socket.badge (Socket.updateUnreadBadge count st)
  = Some (if Socket.gt0 count then
            {| Socket.textContent :=
                 match count with
                 | Some c => if c >? 99 then "99+" else JS.toString c
                 | None => Socket.textContent b
                 end;
               Socket.show := true; Socket.display := "block" |}
          else
            {| Socket.textContent := Socket.textContent b;
               Socket.show := false; Socket.display := "none" |}).
Proof. intros Hb. unfold Socket.updateUnreadBadge. now rewrite Hb. Qed.

Lemma loadNotifications_state (limit : Z) (st : Socket.State) :
  fst (Socket.loadNotifications limit st) = st.
Proof.
  unfold Socket.loadNotifications. now destruct (Socket.socket_open st).
Qed.

Lemma handleNewNotification_state (n : Socket.Notification)
      (st : Socket.State) (b : Socket.Badge) :
  Socket.badge st = Some b ->
  fst (Socket.handleNewNotification n st)
  = Socket.updateUnreadBadge
      (option_map (fun c => c + 1) (Socket.currentCount b)) st.
Proof.
  intros Hb. unfold Socket.handleNewNotification. rewrite Hb.
  generalize (Socket.updateUnreadBadge
                (option_map (fun c => c + 1) (Socket.currentCount b)) st).
  intros st1. pose proof (loadNotifications_state 10 st1) as H.
  destruct (Socket.menu_open st1); [|reflexivity].
  destruct (Socket.loadNotifications 10 st1). exact H.
Qed.





(** Hiding the badge leaves its text in place: a notification that arrives
    after a mark_all_read_response counts on from the old text. *)
Lemma badge_text_survives_mark_all_read :
  let st := Samples.connected (Samples.badge_showing "4") in
  let st1 := fst (Socket.handleMessage (Socket.MarkAllReadResponse 4) st) in
  let st2 := fst (Socket.handleMessage
                    (Socket.NewNotification Samples.new_enquiry) st1) in
  Socket.badge st1
  = Some {| Socket.textContent := "4"; Socket.show := false;
            Socket.display := "none" |}
  /\ Socket.badge st2 = Some (Samples.badge_showing "5").
Proof. vm_compute. split; reflexivity. Qed.

(** parseInt is called without a radix, so a badge text that starts with
    [0x] is read in base sixteen: from [0x1F], which reads as 31, a new
    notification brings the badge to 32. *)
Lemma badge_text_in_hexadecimal :
  let st := Samples.connected (Samples.badge_showing "0x1F") in
  let st1 := fst (Socket.handleMessage
                    (Socket.NewNotification Samples.new_enquiry) st) in
  Socket.badge_count st = Some 31
  /\ Socket.badge st1 = Some (Samples.badge_showing "32").
Proof. vm_compute. split; reflexivity. Qed.

(* ===================================================================== *)
(** * Further properties of the scripts *)
(* ===================================================================== *)

(** ** The log queue as a whole *)

Section QueueRunFacts.
Import LogQueue.

Lemma burst_while_logging (e : Env) (calls : list (string * string))
      (st : State) :
  isLogging st = true ->
  burst e calls st
  = ({| logQueue := logQueue st ++ pushed e calls; isLogging := true;
        lastLogTime := lastLogTime st |}, []).
Proof.
  revert st. induction calls as [|[ty desc] calls IH]; intros st Hl.
  - cbn. rewrite app_nil_r. destruct st; cbn in *. now subst.
  - cbn [burst]. unfold logActivity. cbn [isLogging]. rewrite Hl. cbn [negb].
    rewrite IH by reflexivity. cbn. now rewrite <- app_assoc.
Qed.

Lemma timer_armed_outcome (e : Env) (st : State) :
  timer_armed (snd (processLogQueue e st))
  = negb (match logQueue st with [] => true | _ => false end).
Proof.
  destruct (processLogQueue_outcome e st) as [Hq|i r Hq _|i r Hq _ _|i r t Hq _ _ _];
    rewrite Hq; reflexivity.
Qed.

Lemma queue_after_run (e : Env) (st : State) :
  logQueue (fst (processLogQueue e st)) = tl (logQueue st).
Proof.
  destruct (processLogQueue_outcome e st) as [Hq|i r Hq _|i r Hq _ _|i r t Hq _ _ _];
    rewrite Hq; reflexivity.
Qed.

End QueueRunFacts.

(** X1. Only one loop runs at a time: however many records a burst of
    logActivity calls pushes, the burst issues at most one request and arms
    at most one timer, and it leaves the loop marked as running; when the
    loop is already running the burst only appends its records. *)
Theorem burst_starts_one_loop
    (e : LogQueue.Env) (calls : list (string * string)) (st : LogQueue.State) :
  (length (LogQueue.deliveries (snd (LogQueue.burst e calls st))) <= 1)%nat
  /\ (QueueRuns.timers (snd (LogQueue.burst e calls st)) <= 1)%nat
  /\ (calls <> [] ->
      LogQueue.isLogging (fst (LogQueue.burst e calls st)) = true)
  /\ (LogQueue.isLogging st = true ->
      snd (LogQueue.burst e calls st) = []
      /\ LogQueue.logQueue (fst (LogQueue.burst e calls st))
         = LogQueue.logQueue st ++ LogQueue.pushed e calls).
Proof.
  destruct (LogQueue.isLogging st) eqn:Hl.
  - rewrite burst_while_logging by exact Hl. cbn.
    split; [lia|]. split; [lia|]. split; auto.
  - destruct calls as [|[ty desc] calls].
    + cbn. split; [lia|]. split; [lia|]. split; congruence.
    + cbn [LogQueue.burst]. unfold LogQueue.logActivity.
      cbn [LogQueue.isLogging]. rewrite Hl. cbn [negb].
      match goal with |- context [LogQueue.processLogQueue e ?s] =>
        destruct (processLogQueue_outcome e s)
          as [Hq|i r Hq _|i r Hq _ _|i r t Hq _ _ _] end;
        try (cbn in Hq; now destruct (LogQueue.logQueue st));
        rewrite burst_while_logging by reflexivity; cbn;
        (split; [lia|]); (split; [unfold QueueRuns.timers; cbn; lia|]);
        (split; [reflexivity | discriminate]).
Qed.

(** The theorem on a burst of two records on a fresh page: the loop is
    left running and a second burst only appends. *)
Lemma burst_starts_one_loop_witness :
  let e := Samples.at_time 1000 Samples.page_with_token in
  let calls := [Samples.right_click; Samples.print_screen] in
  LogQueue.isLogging (fst (LogQueue.burst e calls LogQueue.init)) = true
  /\ snd (LogQueue.burst e calls (fst (LogQueue.burst e calls LogQueue.init)))
     = [].
Proof.
  intros e calls. split.
  - apply (burst_starts_one_loop e calls LogQueue.init). discriminate.
  - apply (burst_starts_one_loop e calls
             (fst (LogQueue.burst e calls LogQueue.init))).
    reflexivity.
Defined.

(** X2. Every run of the loop takes exactly one record off the queue, so
    the loop always comes to an end: after the timer has fired more often
    than there were records, the queue is empty and the loop is marked as
    stopped. *)
Theorem drain_consumes_one_record_per_run
    (ticks : list LogQueue.Env) (st : LogQueue.State) :
  LogQueue.logQueue (fst (LogQueue.drain ticks st))
  = skipn (length ticks) (LogQueue.logQueue st)
  /\ ((length (LogQueue.logQueue st) < length ticks)%nat ->
      LogQueue.isLogging (fst (LogQueue.drain ticks st)) = false).
Proof.
  revert st. induction ticks as [|e ticks IH]; intros st.
  - cbn. split; [reflexivity | lia].
  - cbn [LogQueue.drain length].
    pose proof (timer_armed_outcome e st) as Ha.
    pose proof (queue_after_run e st) as Hq.
    destruct (LogQueue.processLogQueue e st) as [st1 e1] eqn:Hp.
    cbn [fst snd] in *. rewrite Ha.
    destruct (LogQueue.logQueue st) as [|item rest] eqn:Hqs; cbn [negb].
    + cbn [fst]. rewrite Hq. cbn. split; [reflexivity|]. intros _.
      pose proof (processLogQueue_outcome e st) as Ho. rewrite Hp in Ho.
      inversion Ho; subst; try congruence. reflexivity.
    + specialize (IH st1). destruct (LogQueue.drain ticks st1) as [st2 t2].
      cbn [fst] in *. destruct IH as [IH1 IH2]. rewrite IH1, Hq. cbn.
      split; [reflexivity|]. intros Hlen. apply IH2. rewrite Hq. cbn. lia.
Qed.

(** The loop on a queue of two records, with the timer firing three
    times. *)
Lemma drain_consumes_one_record_per_run_witness :
  let st := fst (LogQueue.burst
                   (Samples.at_time 1000 Samples.page_with_token)
                   [Samples.right_click; Samples.print_screen]
                   {| LogQueue.logQueue := []; LogQueue.isLogging := true;
                      LogQueue.lastLogTime := None |}) in
  LogQueue.isLogging
    (fst (LogQueue.drain
            [Samples.at_time 1100 Samples.page_with_token;
             Samples.at_time 1200 Samples.page_with_token;
             Samples.at_time 1300 Samples.page_with_token] st)) = false.
Proof.
  intros st.
  apply (drain_consumes_one_record_per_run
           [Samples.at_time 1100 Samples.page_with_token;
            Samples.at_time 1200 Samples.page_with_token;
            Samples.at_time 1300 Samples.page_with_token] st).
  cbn. lia.
Defined.

Section QueuePacing.
Import LogQueue.

Lemma ok_gap_not_debounced (t : option Z) (n : Z) :
  ok_gap t n -> debounced t n = false.
Proof.
  destruct t as [v|]; cbn; [|reflexivity]. intros H.
  destruct (Z.ltb_spec (n - v) 2000); [lia|]. apply andb_false_r.
Qed.

Lemma processLogQueue_sends (e : Env) (st : State) (item : Item)
      (rest : list Item) :
  logQueue st = item :: rest ->
  debounced (lastLogTime st) (now e) = false ->
  JS.truthy (Csrf.token_of (doc e)) = true ->
  exists tok,
    processLogQueue e st
    = ({| logQueue := rest; isLogging := true;
          lastLogTime := Some (now e) |},
       [Fetch tok (payload_of item e); SetTimeout 100]).
Proof.
  intros Hq Hd Hk. unfold processLogQueue. rewrite Hq, Hd.
  destruct (Csrf.token_of (doc e)) as [tok|]; [|discriminate Hk].
  rewrite Hk. now exists tok.
Qed.

Lemma processLogQueue_silent (e : Env) (st : State) :
  JS.truthy (Csrf.token_of (doc e)) = false ->
  deliveries (stamp e (snd (processLogQueue e st))) = [].
Proof.
  intros Hk.
  destruct (processLogQueue_outcome e st)
    as [Hq|i r Hq _|i r Hq _ _|i r t Hq _ Ht Hy]; try reflexivity.
  rewrite Ht in Hk. congruence.
Qed.

Lemma drain_paced (ticks : list Env) (st : State) :
  QueueRuns.all_with_token ticks ->
  spaced_after (lastLogTime st) (map now ticks) ->
  delivered_items (snd (drain ticks st))
  = firstn (length ticks) (logQueue st)
  /\ delivery_times (snd (drain ticks st))
     = firstn (length (logQueue st)) (map now ticks).
Proof.
  intros Hall. revert st.
  induction Hall as [|e ticks He Hall IH]; intros st Hsp.
  - cbn. now destruct (logQueue st).
  - cbn [drain length map]. destruct (logQueue st) as [|item rest] eqn:Hq.
    + unfold processLogQueue. rewrite Hq. cbn. auto.
    + destruct Hsp as [Hg Hs]. cbn in Hg.
      destruct (processLogQueue_sends e st item rest Hq
                  (ok_gap_not_debounced _ _ Hg) He) as [tok ->].
      cbn [timer_armed existsb orb].
      match goal with |- context [drain ticks ?s] =>
        specialize (IH s); destruct (drain ticks s) as [st2 t2] end.
      cbn [fst snd lastLogTime logQueue] in *.
      destruct IH as [IH1 IH2].
      { split; [|destruct ticks; cbn in *; tauto].
        destruct ticks as [|e' ticks]; cbn in *; tauto. }
      unfold delivered_items, delivery_times in *. cbn.
      rewrite item_of_payload. now rewrite IH1, IH2.
Qed.

End QueuePacing.

(** X3. When a token is on the page and every run of the loop comes at
    least 2000 ms after the one before, nothing is dropped: the records of
    a burst on an idle queue are all delivered, in the order they were
    pushed, the first one at once and one more at each firing of the
    timer. *)
Theorem paced_run_delivers_everything
    (e : LogQueue.Env) (calls : list (string * string))
    (ticks : list LogQueue.Env) :
  QueueRuns.all_with_token (e :: ticks) ->
  LogQueue.spaced 2000 (map LogQueue.now (e :: ticks)) ->
  (length calls <= S (length ticks))%nat ->
  let tr := snd (LogQueue.run e calls ticks LogQueue.init) in
  LogQueue.delivered_items tr = LogQueue.pushed e calls
  /\ LogQueue.delivery_times tr
     = firstn (length calls) (map LogQueue.now (e :: ticks)).
Proof.
  intros Hall Hsp Hlen tr. subst tr.
  inversion Hall as [|? ? He Hticks]; subst.
  destruct calls as [|[ty desc] calls]; [cbn; auto|].
  unfold LogQueue.run. cbn [LogQueue.burst]. unfold LogQueue.logActivity.
  cbn [LogQueue.isLogging LogQueue.init negb LogQueue.logQueue
       LogQueue.lastLogTime app].
  match goal with |- context [LogQueue.processLogQueue e ?s] =>
    destruct (processLogQueue_sends e s _ [] eq_refl eq_refl He) as [tok ->] end.
  rewrite burst_while_logging by reflexivity.
  cbn [LogQueue.isLogging LogQueue.logQueue LogQueue.lastLogTime app].
  match goal with |- context [LogQueue.drain ticks ?s] =>
    pose proof (drain_paced ticks s Hticks) as Hd;
    destruct (LogQueue.drain ticks s) as [st2 t2] end.
  cbn [fst snd LogQueue.lastLogTime LogQueue.logQueue] in *.
  destruct Hd as [Hd1 Hd2].
  { split; [|destruct ticks; cbn in *; tauto].
    destruct ticks as [|e' ticks]; cbn in *; tauto. }
  cbn [length] in Hlen.
  rewrite delivered_items_app, delivery_times_app, Hd1, Hd2.
  unfold LogQueue.delivered_items, LogQueue.delivery_times. cbn.
  rewrite firstn_all2
    by (unfold LogQueue.pushed; rewrite length_map; lia).
  unfold LogQueue.pushed. rewrite length_map. auto.
Qed.

(** The theorem on a burst of two records, the timer firing 2100 ms
    later. *)
Lemma paced_run_delivers_everything_witness :
  let e := Samples.at_time 1000 Samples.page_with_token in
  let ticks := [Samples.at_time 3100 Samples.page_with_token] in
  LogQueue.delivered_items
    (snd (LogQueue.run e [Samples.right_click; Samples.print_screen]
            ticks LogQueue.init))
  = LogQueue.pushed e [Samples.right_click; Samples.print_screen].
Proof.
  intros e ticks.
  apply (paced_run_delivers_everything
           e [Samples.right_click; Samples.print_screen] ticks).
  - repeat constructor.
  - cbn. split; [lia | exact I].
  - cbn. lia.
Defined.

(** X4. On pages without a token the queue never sends anything: a burst
    and all the timer runs that follow issue no request, whatever the
    state they start from. *)
Theorem no_token_no_request
    (e : LogQueue.Env) (calls : list (string * string))
    (ticks : list LogQueue.Env) (st : LogQueue.State) :
  QueueRuns.all_without_token (e :: ticks) ->
  LogQueue.deliveries (snd (LogQueue.run e calls ticks st)) = [].
Proof.
  intros Hall. inversion Hall as [|? ? He Hticks]; subst.
  assert (Hburst : forall s,
             LogQueue.deliveries (snd (LogQueue.burst e calls s)) = []).
  { induction calls as [|[ty desc] calls IH]; intros s; [reflexivity|].
    cbn [LogQueue.burst].
    assert (H1 : LogQueue.deliveries
                   (LogQueue.stamp e (snd (LogQueue.logActivity e ty desc s)))
                 = []).
    { unfold LogQueue.logActivity.
      destruct (negb _); [now apply processLogQueue_silent | reflexivity]. }
    destruct (LogQueue.logActivity e ty desc s) as [s1 e1].
    specialize (IH s1). destruct (LogQueue.burst e calls s1) as [s2 t2].
    cbn [snd] in *. now rewrite deliveries_app, H1, IH. }
  assert (Hdrain : forall s,
             LogQueue.deliveries (snd (LogQueue.drain ticks s)) = []).
  { clear Hall. induction Hticks as [|x ticks Hx Hticks IH]; intros s;
      [reflexivity|].
    cbn [LogQueue.drain].
    pose proof (processLogQueue_silent x s Hx) as H1.
    destruct (LogQueue.processLogQueue x s) as [s1 e1]. cbn [snd] in H1.
    destruct (LogQueue.timer_armed e1); [|exact H1].
    specialize (IH s1). destruct (LogQueue.drain ticks s1) as [s2 t2].
    cbn [snd] in *. now rewrite deliveries_app, H1, IH. }
  unfold LogQueue.run. specialize (Hburst st).
  destruct (LogQueue.burst e calls st) as [s1 t1]. cbn [snd] in Hburst.
  destruct (LogQueue.isLogging s1); [|exact Hburst].
  specialize (Hdrain s1). destruct (LogQueue.drain ticks s1) as [s2 t2].
  cbn [snd] in *. now rewrite deliveries_app, Hburst, Hdrain.
Qed.

(** The theorem on a burst of two records on a page without token. *)
Lemma no_token_no_request_witness :
  LogQueue.deliveries
    (snd (LogQueue.run (Samples.at_time 1000 Samples.page_without_token)
            [Samples.right_click; Samples.print_screen]
            [Samples.at_time 1100 Samples.page_without_token]
            LogQueue.init)) = [].
Proof.
  apply no_token_no_request. repeat constructor.
Defined.

(** X5. A run that finds no token still records its time, so it opens a
    debounce window although nothing was sent: a second run less than
    2000 ms later drops the next record as well, even when the token has
    appeared in the meantime. *)
Theorem tokenless_run_debounces_next
    (e1 e2 : LogQueue.Env) (st : LogQueue.State)
    (a b : LogQueue.Item) (rest : list LogQueue.Item) :
  LogQueue.logQueue st = a :: b :: rest ->
  LogQueue.debounced (LogQueue.lastLogTime st) (LogQueue.now e1) = false ->
  JS.truthy (Csrf.token_of (LogQueue.doc e1)) = false ->
  LogQueue.now e1 <> 0 ->
  LogQueue.now e2 - LogQueue.now e1 < 2000 ->
  LogQueue.drain [e1; e2] st
  = ({| LogQueue.logQueue := rest; LogQueue.isLogging := true;
        LogQueue.lastLogTime := Some (LogQueue.now e1) |},
     [(LogQueue.now e1, LogQueue.SetTimeout 100);
      (LogQueue.now e2, LogQueue.SetTimeout 100)]).
Proof.
  intros Hq Hd Hk Hn Hlt. cbn [LogQueue.drain].
  assert (H1 : LogQueue.processLogQueue e1 st
               = ({| LogQueue.logQueue := b :: rest;
                     LogQueue.isLogging := true;
                     LogQueue.lastLogTime := Some (LogQueue.now e1) |},
                  [LogQueue.SetTimeout 100])).
  { unfold LogQueue.processLogQueue. rewrite Hq, Hd.
    destruct (Csrf.token_of (LogQueue.doc e1)) as [tok|]; [|reflexivity].
    now rewrite Hk. }
  rewrite H1. cbn [LogQueue.timer_armed existsb orb].
  unfold LogQueue.processLogQueue.
  cbn [LogQueue.logQueue LogQueue.lastLogTime LogQueue.debounced
       LogQueue.truthy_time].
  destruct (Z.eqb_spec (LogQueue.now e1) 0); [contradiction|].
  destruct (Z.ltb_spec (LogQueue.now e2 - LogQueue.now e1) 2000); [|lia].
  reflexivity.
Qed.

(** The theorem on two records, the token appearing 500 ms after the run
    that missed it. *)
Lemma tokenless_run_debounces_next_witness :
  let st := fst (LogQueue.burst
                   (Samples.at_time 900 Samples.page_without_token)
                   [Samples.right_click; Samples.print_screen]
                   {| LogQueue.logQueue := []; LogQueue.isLogging := true;
                      LogQueue.lastLogTime := None |}) in
  LogQueue.deliveries
    (snd (LogQueue.drain [Samples.at_time 1000 Samples.page_without_token;
                          Samples.at_time 1500 Samples.page_with_token] st))
  = [].
Proof.
  intros st.
  assert (Hn : LogQueue.now (Samples.at_time 1000 Samples.page_without_token)
               <> 0) by (cbn; lia).
  assert (Hlt : LogQueue.now (Samples.at_time 1500 Samples.page_with_token)
                - LogQueue.now (Samples.at_time 1000 Samples.page_without_token)
                < 2000) by (cbn; lia).
  rewrite (tokenless_run_debounces_next
             (Samples.at_time 1000 Samples.page_without_token)
             (Samples.at_time 1500 Samples.page_with_token)
             st _ _ [] eq_refl eq_refl eq_refl Hn Hlt).
  reflexivity.
Defined.

(** ** Cookies and the two token lookups *)

(** X6. When the token comes from the cookie, getCSRFToken returns the
    cookie's value only up to its first [=]: on a cookie string that holds
    the csrftoken cookie alone, a value without [=] comes back whole, a
    value that contains one is cut there. *)
Theorem cookie_token_cut_at_equals (d : Document) (v : string) :
  JS.truthy (Csrf.meta_content d) = false ->
  JS.truthy (Csrf.form_value d) = false ->
  cookie d = ("csrftoken=" ++ v)%string ->
  Cookies.has_char ";" v = false ->
  Csrf.token_of d = Some (Cookies.before "=" v).
Proof.
  intros Hm Hf Hc Hv.
  assert (Hrow : Csrf.cookie_row d = Some ("csrftoken=" ++ v)%string).
  { unfold Csrf.cookie_row, JS.split. rewrite Hc.
    rewrite split_go_no_separator by (cbn; exact Hv).
    unfold JS.find, JS.startsWith. cbn [List.find append].
    assert (Hp : String.prefix "csrftoken=" ("csrftoken=" ++ v) = true)
      by (cbn; now destruct v).
    cbn [append] in Hp. now rewrite Hp. }
  assert (Htok : Csrf.cookie_token ("csrftoken=" ++ v)
                 = Some (Cookies.before "=" v)).
  { unfold Csrf.cookie_token, JS.split. cbn [append].
    repeat rewrite split_go_skip_char by discriminate.
    rewrite split_go_at_equals. cbn [nth_error].
    apply split_go_first_piece. }
  unfold Csrf.token_of.
  rewrite getCSRFToken_cases, Hm, Hf, Hrow. exact Htok.
Qed.

(** The theorem on a cookie whose value ends in base64 padding. *)
Lemma cookie_token_cut_at_equals_witness :
  Csrf.token_of {| elements := [Samples.paragraph];
                   cookie := "csrftoken=q8Zk3T==" |}
  = Some "q8Zk3T".
Proof.
  apply (cookie_token_cut_at_equals
           {| elements := [Samples.paragraph];
              cookie := "csrftoken=q8Zk3T==" |} "q8Zk3T==");
    reflexivity.
Defined.

(** X7. The two token lookups rank their sources differently: when both
    the hidden form field and the meta tag carry a value, getCsrfToken of
    the final script returns the form field's and getCSRFToken of the
    strict script the meta tag's, so they return the same token only if the
    two values are equal. *)
Theorem token_lookups_rank_differently
    (decodeURIComponent : string -> option string) (d : Document) :
  JS.truthy (Csrf.form_value d) = true ->
  JS.truthy (Csrf.meta_content d) = true ->
  Cookies.getCsrfToken decodeURIComponent d
  = Cookies.Normal (Csrf.form_value d)
  /\ Csrf.token_of d = Csrf.meta_content d
  /\ (Cookies.getCsrfToken decodeURIComponent d
      = Cookies.Normal (Csrf.token_of d)
      <-> Csrf.form_value d = Csrf.meta_content d).
Proof.
  intros Hf Hm.
  assert (H1 : Cookies.getCsrfToken decodeURIComponent d
               = Cookies.Normal (Csrf.form_value d))
    by (unfold Cookies.getCsrfToken; now rewrite Hf).
  assert (H2 : Csrf.token_of d = Csrf.meta_content d)
    by (unfold Csrf.token_of; rewrite getCSRFToken_cases, Hm; reflexivity).
  split; [exact H1|]. split; [exact H2|].
  rewrite H1, H2. split; [intros H; now inversion H | now intros ->].
Qed.

(** The theorem on a page whose meta tag and form field differ. *)
Lemma token_lookups_rank_differently_witness :
  let d := {| elements :=
                [Samples.meta_tag "fromMeta";
                 {| tagName := "INPUT"; el_id := None;
                    el_name := Some "csrfmiddlewaretoken";
                    el_content := None; el_value := Some "fromForm";
                    in_tawk := false |}];
              cookie := "" |} in
  Cookies.getCsrfToken Some d = Cookies.Normal (Some "fromForm")
  /\ Csrf.token_of d = Some "fromMeta".
Proof.
  intros d.
  destruct (token_lookups_rank_differently Some d eq_refl eq_refl)
    as (H1 & H2 & _).
  split; [exact H1 | exact H2].
Defined.

(** X8. getCookie reads a cookie back whole: on a cookie string that holds
    the single cookie name=value, it returns the decoded value, [=] signs
    included, and it throws exactly when decodeURIComponent does. *)
Theorem getCookie_single_cookie
    (decodeURIComponent : string -> option string)
    (d : Document) (name v : string) :
  cookie d = (name ++ "=" ++ v)%string ->
  Cookies.has_char ";" (cookie d) = false ->
  Cookies.trim (cookie d) = cookie d ->
  Cookies.getCookie decodeURIComponent name d
  = match decodeURIComponent v with
    | Some x => Cookies.Normal (Some x)
    | None => Cookies.Throw
    end.
Proof.
  intros Hc Hs Ht. unfold Cookies.getCookie.
  assert (Hne : String.eqb (cookie d) "" = false)
    by (rewrite Hc; now destruct name).
  cbn [JS.truthy]. rewrite Hne. cbn [negb andb].
  unfold JS.split. rewrite split_go_no_separator by exact Hs.
  cbn [append Cookies.getCookie_loop]. rewrite Ht, Hc.
  unfold Cookies.substring_to, Cookies.substring_from.
  rewrite <- append_assoc_string.
  replace (String.length name + 1)%nat with (String.length (name ++ "="))
    by (rewrite length_append_string; reflexivity).
  rewrite substring_prefix_part, String.eqb_refl.
  rewrite substring_suffix_part.
  rewrite (length_append_string (name ++ "=") v).
  replace (String.length (name ++ "=") + String.length v
           - String.length (name ++ "="))%nat
    with (String.length v) by lia.
  now rewrite substring_whole.
Qed.

(** The theorem on a cookie whose value ends in base64 padding, with a
    decoder that leaves its argument as it is. *)
Lemma getCookie_single_cookie_witness :
  Cookies.getCookie Some "csrftoken"
    {| elements := [Samples.paragraph]; cookie := "csrftoken=q8Zk3T==" |}
  = Cookies.Normal (Some "q8Zk3T==").
Proof.
  apply (getCookie_single_cookie Some
           {| elements := [Samples.paragraph];
              cookie := "csrftoken=q8Zk3T==" |} "csrftoken" "q8Zk3T==");
    reflexivity.
Defined.

(** ** Keyboard handlers and exemption *)

Section KeyRowFacts.
Import Keys.

Ltac pin_key Hm :=
  let Hc := fresh "Hc" in
  let Hk := fresh "Hk" in
  apply andb_prop in Hm as [Hc Hk];
  apply Z.eqb_eq in Hc; cbn in Hc; subst;
  cbn in Hk;
  repeat (apply orb_prop in Hk as [Hk|Hk]);
  try discriminate Hk;
  apply String.eqb_eq in Hk; subst.

Lemma strict_tool_rows_ignore_exemption (r : Row) (e : KeyEvent) :
  matches r e = true ->
  KeyRows.tool_row r = true ->
  classification (strict_keydown e) = (Some (documented_kind r), true).
Proof.
  destruct e as [k kc c s m a t]. intros Hm Hf.
  destruct r; cbn in Hf; try discriminate Hf;
    unfold matches, pressed in Hm;
    cbn [key keyCode ctrlKey shiftKey metaKey altKey] in Hm;
    destruct c, s; cbn [andb orb negb] in Hm; try discriminate Hm;
    pin_key Hm; reflexivity.
Qed.

Lemma strict_clipboard_rows_exempt (r : Row) (e : KeyEvent) :
  matches r e = true ->
  isExemptedElement (target e) = true ->
  KeyRows.clipboard_row r = true ->
  strict_keydown e = [].
Proof.
  destruct e as [k kc c s m a t]. cbn [target]. intros Hm Hx Hf.
  destruct r; cbn in Hf; try discriminate Hf;
    unfold matches, pressed in Hm;
    cbn [key keyCode ctrlKey shiftKey metaKey altKey] in Hm;
    destruct c, s, m; cbn [andb orb negb] in Hm; try discriminate Hm;
    pin_key Hm;
    unfold strict_keydown;
    cbn [key keyCode ctrlKey shiftKey metaKey altKey target];
    rewrite ?Hx; reflexivity.
Qed.

End KeyRowFacts.

(** X9. The strict script consults the exemption for the copy, cut and
    select-all shortcuts only: in a form control or the chat widget these
    three pass untouched, while F12, Ctrl+Shift+I/J/C, Ctrl+U, Ctrl+S and
    Ctrl+P are prevented and logged there as everywhere else. *)
Theorem strict_keydown_exemption (r : Keys.Row) (e : Keys.KeyEvent) :
  Keys.matches r e = true ->
  Keys.isExemptedElement (Keys.target e) = true ->
  (KeyRows.tool_row r = true ->
   Keys.classification (Keys.strict_keydown e)
   = (Some (Keys.documented_kind r), true))
  /\ (KeyRows.clipboard_row r = true -> Keys.strict_keydown e = []).
Proof.
  intros Hm Hx. split; intros Hr.
  - now apply strict_tool_rows_ignore_exemption.
  - now apply (strict_clipboard_rows_exempt r e).
Qed.

(** The theorem on Ctrl+S and Ctrl+C typed into a text field. *)
Lemma strict_keydown_exemption_witness :
  let field := {| tagName := "INPUT"; el_id := None; el_name := Some "q";
                  el_content := None; el_value := Some "";
                  in_tawk := false |} in
  let ctrl_s := {| Keys.key := "s"; Keys.keyCode := 83;
                   Keys.ctrlKey := true; Keys.shiftKey := false;
                   Keys.metaKey := false; Keys.altKey := false;
                   Keys.target := Some field |} in
  let ctrl_c := {| Keys.key := "c"; Keys.keyCode := 67;
                   Keys.ctrlKey := true; Keys.shiftKey := false;
                   Keys.metaKey := false; Keys.altKey := false;
                   Keys.target := Some field |} in
  Keys.classification (Keys.strict_keydown ctrl_s)
  = (Some Keys.SaveAttempt, true)
  /\ Keys.strict_keydown ctrl_c = [].
Proof.
  intros field ctrl_s ctrl_c. split.
  - exact (proj1 (strict_keydown_exemption Keys.RCtrlS ctrl_s
                    eq_refl eq_refl) eq_refl).
  - exact (proj2 (strict_keydown_exemption Keys.RCopy ctrl_c
                    eq_refl eq_refl) eq_refl).
Defined.

Section FinalKeyFacts.
Import Keys.

Ltac pin_key' Hm :=
  let Hc := fresh "Hc" in
  let Hk := fresh "Hk" in
  apply andb_prop in Hm as [Hc Hk];
  apply Z.eqb_eq in Hc; cbn in Hc; subst;
  cbn in Hk;
  repeat (apply orb_prop in Hk as [Hk|Hk]);
  try discriminate Hk;
  apply String.eqb_eq in Hk; subst.

Lemma final_passes_s_and_p (e : KeyEvent) :
  pressed KS e = true \/ pressed KP e = true -> final_keydown e = [].
Proof.
  destruct e as [k kc c s m a t]. unfold pressed.
  cbn [key keyCode]. intros [Hm|Hm]; pin_key' Hm;
    destruct c, s, m, a; reflexivity.
Qed.

Lemma final_snipping_branch_dead (e : KeyEvent) :
  (key e = "Meta" -> keyCode e <> 83) ->
  ~ In "screenshot_tool_detected" (KeyRows.logged_types (final_keydown e)).
Proof.
  destruct e as [k kc c s m a t]. cbn [key keyCode]. intros Hmeta.
  unfold final_keydown. cbn [key keyCode ctrlKey shiftKey metaKey altKey].
  destruct (String.eqb k "Meta" && s && (kc =? 83)) eqn:H2.
  { apply andb_prop in H2 as [H2 H3]. apply andb_prop in H2 as [H2 _].
    apply String.eqb_eq in H2. apply Z.eqb_eq in H3. now apply Hmeta in H2. }
  repeat match goal with
         | |- context [if ?b then _ else _] => destruct b
         end;
    cbn; intuition discriminate.
Qed.

End FinalKeyFacts.

(** X10. The final script never reports the snipping tool: for every key
    event a browser can produce (the Meta key itself has key code 91, not
    83) no violation of type screenshot_tool_detected is logged.  And it
    lets the S and P keys through whatever the modifiers, so that Ctrl+S,
    Ctrl+P and Win+Shift+S are not blocked by it. *)
Theorem final_keydown_blind_spots (e : Keys.KeyEvent) :
  ((Keys.key e = "Meta" -> Keys.keyCode e <> 83) ->
   ~ In "screenshot_tool_detected"
        (KeyRows.logged_types (Keys.final_keydown e)))
  /\ (Keys.pressed Keys.KS e = true \/ Keys.pressed Keys.KP e = true ->
      Keys.final_keydown e = []).
Proof.
  split.
  - apply final_snipping_branch_dead.
  - apply final_passes_s_and_p.
Qed.

(** The theorem on Win+Shift+S. *)
Lemma final_keydown_blind_spots_witness :
  Keys.final_keydown (Samples.row_event Keys.RMetaShiftS) = [].
Proof.
  apply (proj2 (final_keydown_blind_spots
                  (Samples.row_event Keys.RMetaShiftS))).
  left. reflexivity.
Defined.

(** ** The other listeners of the strict script *)

(** X11. In the strict script a form control or an element of the chat
    widget is left alone by the right-click, copy, cut, paste, selection
    and mouse-down listeners, and everywhere else each of them prevents the
    default action; dragging is prevented on every element.  Only right
    click, copy and cut are logged. *)
Theorem strict_listeners_respect_exemption
    (ev : Strict.DomEvent) (target : option Element) :
  (Keys.isExemptedElement target = true -> ev <> Strict.DragStart ->
   Strict.listener ev target = [])
  /\ (Keys.isExemptedElement target = false ->
      Strict.prevents (Strict.listener ev target) = true)
  /\ Strict.prevents (Strict.listener Strict.DragStart target) = true
  /\ (Strict.logs (Strict.listener ev target) <> [] ->
      Keys.isExemptedElement target = false
      /\ In ev [Strict.ContextMenu; Strict.Copy; Strict.Cut]).
Proof.
  split; [|split; [|split]].
  - intros Hx Hev. destruct ev; cbn; rewrite ?Hx; try reflexivity.
    contradiction.
  - intros Hx. destruct ev; cbn; rewrite ?Hx; reflexivity.
  - reflexivity.
  - destruct ev; cbn; destruct (Keys.isExemptedElement target); cbn;
      intros H; try contradiction; split; auto 6.
Qed.

(** The theorem on a right-click in a text field and on a paragraph. *)
Lemma strict_listeners_respect_exemption_witness :
  let field := {| tagName := "TEXTAREA"; el_id := None; el_name := None;
                  el_content := None; el_value := Some "";
                  in_tawk := false |} in
  Strict.listener Strict.ContextMenu (Some field) = []
  /\ Strict.prevents
       (Strict.listener Strict.ContextMenu (Some Samples.paragraph)) = true.
Proof.
  intros field.
  destruct (strict_listeners_respect_exemption
              Strict.ContextMenu (Some field)) as (H1 & _).
  destruct (strict_listeners_respect_exemption
              Strict.ContextMenu (Some Samples.paragraph)) as (_ & H2 & _).
  split; [apply H1; [reflexivity | discriminate] | apply H2; reflexivity].
Defined.

Lemma detectDevTools_flag (w : Strict.Window) (flag : bool) :
  fst (Strict.detectDevTools w flag) = Strict.over_threshold w
  /\ length (Strict.logs (snd (Strict.detectDevTools w flag)))
     = (if Strict.over_threshold w && negb flag then 1 else 0)%nat.
Proof.
  unfold Strict.detectDevTools.
  destruct (Strict.over_threshold w), flag; cbn; auto.
Qed.

Lemma last_cons_default (A : Type) (x d : A) (l : list A) :
  List.last (x :: l) d = List.last l x.
Proof.
  revert x d. induction l as [|y l IH]; intros x d; [reflexivity|].
  change (List.last (x :: y :: l) d) with (List.last (y :: l) d).
  now rewrite (IH y d), (IH y x).
Qed.

Lemma strict_logs_app (a b : list Strict.Action) :
  Strict.logs (a ++ b) = Strict.logs a ++ Strict.logs b.
Proof. unfold Strict.logs. apply omap_app. Qed.

(** X12. The developer-tools poll of the strict script logs once per
    opening: over any sequence of window readings the number of
    devtools_detected records equals the number of times the readings go
    from below to above the 160-pixel threshold, so a window that stays
    above it is logged at most once; afterwards the flag tells whether the
    last reading was above the threshold. *)
Theorem devtools_logged_once_per_opening
    (ws : list Strict.Window) (flag : bool) :
  length (Strict.logs (snd (Strict.polls ws flag)))
  = Strict.rising_edges flag (map Strict.over_threshold ws)
  /\ fst (Strict.polls ws flag)
     = List.last (map Strict.over_threshold ws) flag
  /\ (Forall (fun w => Strict.over_threshold w = true) ws ->
      (length (Strict.logs (snd (Strict.polls ws flag))) <= 1)%nat).
Proof.
  assert (H : forall ws flag,
             length (Strict.logs (snd (Strict.polls ws flag)))
             = Strict.rising_edges flag (map Strict.over_threshold ws)
             /\ fst (Strict.polls ws flag)
                = List.last (map Strict.over_threshold ws) flag).
  { clear. induction ws as [|w ws IH]; intros flag; [now cbn|].
    cbn [Strict.polls map Strict.rising_edges].
    pose proof (detectDevTools_flag w flag) as [Hf Hl].
    destruct (Strict.detectDevTools w flag) as [f1 a1]. cbn [fst snd] in *.
    specialize (IH f1). destruct (Strict.polls ws f1) as [f2 a2].
    cbn [fst snd] in *. destruct IH as [IH1 IH2]. subst f1.
    rewrite strict_logs_app, length_app, Hl, IH1, IH2.
    split; [reflexivity|]. now rewrite last_cons_default. }
  destruct (H ws flag) as [H1 H2]. split; [exact H1|]. split; [exact H2|].
  intros Hall. rewrite H1. clear H H1 H2. revert flag.
  induction Hall as [|w ws Hw Hall IH]; intros flag; [cbn; lia|].
  cbn [map Strict.rising_edges]. rewrite Hw.
  assert (Hrest : Strict.rising_edges true (map Strict.over_threshold ws)
                  = 0%nat).
  { clear IH. induction Hall as [|w' ws' Hw' _ IH']; [reflexivity|].
    cbn [map Strict.rising_edges]. rewrite Hw'. cbn. exact IH'. }
  rewrite Hrest. destruct flag; cbn; lia.
Qed.

(** The theorem on a window that stays docked for three readings. *)
Lemma devtools_logged_once_per_opening_witness :
  let docked := {| Strict.outerWidth := 1920; Strict.innerWidth := 1400;
                   Strict.outerHeight := 1080; Strict.innerHeight := 990 |} in
  (length (Strict.logs (snd (Strict.polls [docked; docked; docked] false)))
   <= 1)%nat.
Proof.
  intros docked.
  apply (devtools_logged_once_per_opening [docked; docked; docked] false).
  repeat constructor.
Defined.

(** ** The session policy over whole runs *)

Section PolicyRunFacts.
Import Policy.

Variable decodeURIComponent : string -> option string.

Lemma step_counts (cfg : Config) (ev : Event) (st : State) :
  violations (fst (step decodeURIComponent cfg ev st))
  = violations st + (if PolicyRuns.is_violation ev then 1 else 0).
Proof.
  destruct ev as [type d|now d|now]; cbn [step PolicyRuns.is_violation].
  - destruct (incrementViolation_cases decodeURIComponent cfg d type st)
      as [[_ ->]|[_ ->]]; [|reflexivity].
    destruct (_ >=? maxViolations cfg); [reflexivity|].
    destruct (_ >=? 3); reflexivity.
  - rewrite checkSession_cases.
    repeat match goal with |- context [if ?b then _ else _] => destruct b end;
      cbn; lia.
  - cbn. lia.
Qed.

Lemma step_policy_inv (cfg : Config) (ev : Event) (st : State) :
  readable decodeURIComponent ev ->
  PolicyRuns.policy_inv cfg st ->
  PolicyRuns.policy_inv cfg (fst (step decodeURIComponent cfg ev st)).
Proof.
  intros Hr [Hlow Hhigh]. split.
  - rewrite step_counts.
    destruct ev as [type d|now d|now]; cbn [step PolicyRuns.is_violation].
    + destruct (incrementViolation_cases decodeURIComponent cfg d type st)
        as [[_ ->]|[Ht _]]; [|contradiction].
      destruct (Z.geb_spec (violations st + 1) (maxViolations cfg)); [lia|].
      intros _. assert (Hp : In PageContent (body st)) by (apply Hlow; lia).
      destruct (_ >=? 3); cbn; [|exact Hp].
      apply in_or_app. left. now apply remove_first_keeps.
    + intros H. assert (Hp : In PageContent (body st)) by (apply Hlow; lia).
      rewrite checkSession_cases.
      repeat match goal with |- context [if ?b then _ else _] => destruct b end;
        cbn; auto. apply in_or_app. now left.
    + intros H. cbn. apply Hlow. lia.
  - rewrite step_counts.
    destruct ev as [type d|now d|now]; cbn [PolicyRuns.is_violation].
    + intros H. cbn [step].
      destruct (incrementViolation_cases decodeURIComponent cfg d type st)
        as [[_ ->]|[Ht _]]; [|contradiction].
      destruct (Z.geb_spec (violations st + 1) (maxViolations cfg)); [|lia].
      unfold terminated. cbn. split; [auto | intros [Hc|[]]; discriminate Hc].
    + intros H. apply step_terminated. apply Hhigh. lia.
    + intros H. apply step_terminated. apply Hhigh. lia.
Qed.

Lemma step_content_or_terminated (cfg : Config) (ev : Event) (st : State) :
  PolicyRuns.content_or_terminated cfg st ->
  PolicyRuns.content_or_terminated
    cfg (fst (step decodeURIComponent cfg ev st)).
Proof.
  intros [Hp|[Ht Hm]].
  - destruct ev as [type d|now d|now]; cbn [step].
    + destruct (incrementViolation_cases decodeURIComponent cfg d type st)
        as [[_ ->]|[_ ->]]; [|left; exact Hp].
      destruct (Z.geb_spec (violations st + 1) (maxViolations cfg)).
      * right. unfold terminated. cbn.
        split; [|lia]. split; [auto | intros [Hc|[]]; discriminate Hc].
      * left. destruct (_ >=? 3); cbn; [|exact Hp].
        apply in_or_app. left. now apply remove_first_keeps.
    + left. rewrite checkSession_cases.
      repeat match goal with |- context [if ?b then _ else _] => destruct b end;
        cbn; auto. apply in_or_app. now left.
    + left. exact Hp.
  - right. split; [now apply step_terminated|].
    rewrite step_counts. destruct (PolicyRuns.is_violation ev); lia.
Qed.

Lemma steps_counts (cfg : Config) (evs : list Event) (st : State) :
  violations (fst (steps decodeURIComponent cfg evs st))
  = violations st + PolicyRuns.violation_events evs
  /\ (PolicyRuns.content_or_terminated cfg st ->
      PolicyRuns.content_or_terminated
        cfg (fst (steps decodeURIComponent cfg evs st))).
Proof.
  unfold PolicyRuns.violation_events.
  revert st. induction evs as [|ev evs IH]; intros st; cbn [steps].
  - cbn. split; [lia | auto].
  - pose proof (step_counts cfg ev st) as Hc.
    pose proof (step_content_or_terminated cfg ev st) as Hi.
    destruct (step decodeURIComponent cfg ev st) as [st1 e1].
    cbn [fst] in *.
    specialize (IH st1).
    destruct (steps decodeURIComponent cfg evs st1) as [st2 e2].
    cbn [fst] in *. destruct IH as [IH1 IH2]. split; [|auto].
    rewrite IH1, Hc. cbn [List.filter].
    destruct (PolicyRuns.is_violation ev); cbn [length]; lia.
Qed.

Lemma steps_policy_inv (cfg : Config) (evs : list Event) (st : State) :
  Forall (readable decodeURIComponent) evs ->
  PolicyRuns.policy_inv cfg st ->
  PolicyRuns.policy_inv cfg (fst (steps decodeURIComponent cfg evs st)).
Proof.
  intros Hall. revert st.
  induction Hall as [|ev evs Hev Hall IH]; intros st Hinv; cbn [steps];
    [exact Hinv|].
  pose proof (step_policy_inv cfg ev st Hev Hinv) as Hi.
  destruct (step decodeURIComponent cfg ev st) as [st1 e1]. cbn [fst] in *.
  specialize (IH st1 Hi).
  now destruct (steps decodeURIComponent cfg evs st1) as [st2 e2].
Qed.

End PolicyRunFacts.

(** X13. The violation counter of the core script counts the violation
    events and nothing else, whatever their types and order and whatever
    session checks and activity come in between.  On a fresh page with a
    positive maximum the termination notice is only ever up when that
    number has reached the maximum; and it is up exactly then when every
    handler of the run found a csrftoken cookie it could read (a handler
    that cannot decode the cookie throws before it shows anything). *)
Theorem termination_exactly_at_maximum
    (decodeURIComponent : string -> option string)
    (cfg : Policy.Config) (evs : list Policy.Event) (t : Z) :
  0 < Policy.maxViolations cfg ->
  let st := fst (Policy.steps decodeURIComponent cfg evs (Policy.start t)) in
  Policy.violations st = PolicyRuns.violation_events evs
  /\ (Policy.terminated st ->
      Policy.maxViolations cfg <= PolicyRuns.violation_events evs)
  /\ (Forall (Policy.readable decodeURIComponent) evs ->
      (Policy.terminated st
       <-> Policy.maxViolations cfg <= PolicyRuns.violation_events evs)).
Proof.
  intros Hmax st.
  destruct (steps_counts decodeURIComponent cfg evs (Policy.start t))
    as [Hc Hweak].
  fold st in Hc, Hweak.
  assert (Hc' : Policy.violations st = PolicyRuns.violation_events evs)
    by (rewrite Hc; cbn [Policy.start Policy.violations]; lia).
  assert (Honly : Policy.terminated st ->
                  Policy.maxViolations cfg
                  <= PolicyRuns.violation_events evs).
  { intros [_ Hno]. rewrite <- Hc'.
    destruct Hweak as [Hp|[_ Hm]]; [left; cbn; auto | contradiction | exact Hm]. }
  split; [exact Hc'|]. split; [exact Honly|].
  intros Hall. split; [exact Honly|].
  assert (Hinv : PolicyRuns.policy_inv cfg (Policy.start t)).
  { split; cbn; [auto | lia]. }
  destruct (steps_policy_inv decodeURIComponent cfg evs (Policy.start t)
                             Hall Hinv) as [_ Hhigh].
  fold st in Hhigh. rewrite <- Hc'. exact Hhigh.
Qed.

(** The theorem with the thresholds of the core script, on five
    violations of different kinds with session checks in between, on a
    page without cookies. *)
Lemma termination_exactly_at_maximum_witness :
  let d := Samples.page_with_token in
  Policy.terminated
    (fst (Policy.steps Samples.decodeURIComponent Policy.config
            [Policy.Violation "copy_attempt" d; Policy.SessionCheck 1000 d;
             Policy.Violation "context_menu" d; Policy.Violation "devtools" d;
             Policy.Activity 2000; Policy.Violation "printscreen" d;
             Policy.Violation "screenshot_attempt" d] (Policy.start 0))).
Proof.
  intros d.
  assert (Hmax : 0 < Policy.maxViolations Policy.config) by reflexivity.
  apply (termination_exactly_at_maximum Samples.decodeURIComponent
           Policy.config _ 0 Hmax).
  - repeat constructor; vm_compute; discriminate.
  - vm_compute. discriminate.
Defined.

Section IdleWarningFacts.
Import Policy.

Variable decodeURIComponent : string -> option string.

Lemma step_idle_warning (cfg : Config) (ev : Event) (st : State) :
  PolicyRuns.is_activity ev = false ->
  (warningShown st = true ->
   warningShown (fst (step decodeURIComponent cfg ev st)) = true
   /\ PolicyRuns.idle_warnings (snd (step decodeURIComponent cfg ev st))
      = 0%nat)
  /\ (PolicyRuns.idle_warnings (snd (step decodeURIComponent cfg ev st))
      = 0%nat
      \/ (PolicyRuns.idle_warnings (snd (step decodeURIComponent cfg ev st))
          = 1%nat
          /\ warningShown (fst (step decodeURIComponent cfg ev st)) = true)).
Proof.
  intros Ha. destruct ev as [type d|now d|now]; [| |discriminate Ha];
    cbn [step].
  - destruct (incrementViolation_cases decodeURIComponent cfg d type st)
      as [[_ ->]|[_ ->]]; [|cbn; auto].
    destruct (_ >=? maxViolations cfg); cbn; [auto|].
    destruct (_ >=? 3); cbn; auto.
  - rewrite checkSession_cases.
    destruct (_ >? idleTimeout cfg); cbn [fst snd].
    { destruct (Cookies.getCookie decodeURIComponent "csrftoken" d);
        cbn; auto. }
    destruct (_ >? sessionTimeout cfg); cbn [fst snd].
    { destruct (Cookies.getCookie decodeURIComponent "csrftoken" d);
        cbn; auto. }
    destruct (_ >? _); cbn; [|auto].
    destruct (warningShown st) eqn:Hw; cbn; rewrite ?Hw; auto.
    split; [intros H; discriminate H | auto].
Qed.

Lemma idle_warnings_app (a b : list Effect) :
  PolicyRuns.idle_warnings (a ++ b)
  = (PolicyRuns.idle_warnings a + PolicyRuns.idle_warnings b)%nat.
Proof.
  unfold PolicyRuns.idle_warnings. now rewrite List.filter_app, length_app.
Qed.

Lemma steps_warning_shown (cfg : Config) (evs : list Event) (st : State) :
  Forall (fun ev => PolicyRuns.is_activity ev = false) evs ->
  warningShown st = true ->
  PolicyRuns.idle_warnings (snd (steps decodeURIComponent cfg evs st))
  = 0%nat.
Proof.
  intros Hall. revert st.
  induction Hall as [|ev evs Hev Hall IH]; intros st Hw; [reflexivity|].
  cbn [steps]. destruct (step_idle_warning cfg ev st Hev) as [H1 _].
  destruct (H1 Hw) as [Hw1 H0].
  destruct (step decodeURIComponent cfg ev st) as [st1 e1].
  cbn [fst snd] in *.
  specialize (IH st1 Hw1).
  destruct (steps decodeURIComponent cfg evs st1) as [st2 e2].
  cbn [snd] in *. rewrite idle_warnings_app. lia.
Qed.

End IdleWarningFacts.

(** X14. The idle warning of the core script comes up at most once until
    the user is active again: over any run of session checks and violations
    without activity it is shown at most once, and not at all when it has
    been shown already. *)
Theorem idle_warning_shown_once
    (decodeURIComponent : string -> option string)
    (cfg : Policy.Config) (evs : list Policy.Event) (st : Policy.State) :
  Forall (fun ev => PolicyRuns.is_activity ev = false) evs ->
  (PolicyRuns.idle_warnings
     (snd (Policy.steps decodeURIComponent cfg evs st)) <= 1)%nat
  /\ (Policy.warningShown st = true ->
      PolicyRuns.idle_warnings
        (snd (Policy.steps decodeURIComponent cfg evs st)) = 0%nat).
Proof.
  intros Hall. split; [|now apply steps_warning_shown].
  revert st. induction Hall as [|ev evs Hev Hall IH]; intros st;
    [cbn; lia|].
  cbn [Policy.steps].
  destruct (step_idle_warning decodeURIComponent cfg ev st Hev) as [_ H].
  pose proof (steps_warning_shown decodeURIComponent cfg evs) as Hshown.
  destruct (Policy.step decodeURIComponent cfg ev st) as [st1 e1].
  cbn [fst snd] in *.
  specialize (IH st1). specialize (Hshown st1 Hall).
  destruct (Policy.steps decodeURIComponent cfg evs st1) as [st2 e2].
  cbn [snd] in *.
  rewrite idle_warnings_app. destruct H as [H|[H Hw]]; [lia|].
  rewrite H, (Hshown Hw). lia.
Qed.

(** The theorem on a page checked every minute for four minutes. *)
Lemma idle_warning_shown_once_witness :
  let d := Samples.page_with_token in
  PolicyRuns.idle_warnings
    (snd (Policy.steps Samples.decodeURIComponent Policy.config
            [Policy.SessionCheck 60000 d; Policy.SessionCheck 120000 d;
             Policy.SessionCheck 181000 d; Policy.SessionCheck 240000 d]
            (Policy.start 0))) = 1%nat.
Proof.
  intros d.
  assert (H := idle_warning_shown_once Samples.decodeURIComponent
                 Policy.config
                 [Policy.SessionCheck 60000 d; Policy.SessionCheck 120000 d;
                  Policy.SessionCheck 181000 d; Policy.SessionCheck 240000 d]
                 (Policy.start 0)).
  destruct H as [H _]; [repeat constructor|].
  reflexivity.
Defined.

(** ** Screen blur of the core script *)

Section BlurFacts.
Import Blur.

Lemma remove_first_count (l : list Policy.Node) :
  length (List.filter is_blur_overlay
            (Policy.remove_first is_blur_overlay l))
  = pred (length (List.filter is_blur_overlay l)).
Proof.
  induction l as [|n l IH]; cbn; [reflexivity|].
  destruct (is_blur_overlay n) eqn:Hn; cbn; [reflexivity|].
  now rewrite Hn.
Qed.

Lemma remove_first_appended (l : list Policy.Node) :
  List.filter is_blur_overlay l = [] ->
  Policy.remove_first is_blur_overlay (l ++ [Policy.BlurOverlay]) = l.
Proof.
  induction l as [|n l IH]; cbn; [reflexivity|].
  destruct (is_blur_overlay n); [discriminate|].
  intros H. now rewrite IH.
Qed.

Lemma remove_first_absent (l : list Policy.Node) :
  List.filter is_blur_overlay l = [] ->
  Policy.remove_first is_blur_overlay l = l.
Proof.
  induction l as [|n l IH]; cbn; [reflexivity|].
  destruct (is_blur_overlay n); [discriminate|].
  intros H. now rewrite IH.
Qed.

Variable decodeURIComponent : string -> option string.

(** blurScreen with its calls unfolded into cases. *)
Lemma blurScreen_cases (d : Document) (reason : string) (st : State) :
  blurScreen decodeURIComponent d reason st
  = if Policy.isBlurred (policy st) then (st, [])
    else
      match Cookies.getCookie decodeURIComponent "csrftoken" d with
      | Cookies.Normal _ =>
          ({| policy :=
                Policy.set_body
                  (Policy.body (policy st) ++ [Policy.BlurOverlay])
                  (set_blurred true (policy st));
              filter := ("blur(" ++ blurIntensity ++ ")")%string |},
           [Policy.LogSecurityEvent "screen_blurred"
              (Policy.DReason reason)])
      | Cookies.Throw =>
          ({| policy := set_blurred true (policy st); filter := filter st |},
           [Policy.Uncaught])
      end.
Proof.
  unfold blurScreen, Policy.logSecurityEvent.
  destruct (Policy.isBlurred (policy st)); [reflexivity|].
  destruct (Cookies.getCookie decodeURIComponent "csrftoken" d);
    reflexivity.
Qed.

Lemma apply_op_consistent (op : Op) (st : State) :
  readable decodeURIComponent op ->
  consistent st -> consistent (fst (apply_op decodeURIComponent op st)).
Proof.
  unfold consistent, overlays. intros Hr H.
  destruct op as [reason d|]; cbn [apply_op].
  - rewrite blurScreen_cases. cbn [readable] in Hr.
    destruct (Policy.isBlurred (policy st)) eqn:Hb; cbn; [now rewrite Hb|].
    destruct (Cookies.getCookie decodeURIComponent "csrftoken" d);
      [|contradiction].
    cbn. rewrite List.filter_app, length_app, H. reflexivity.
  - cbn. rewrite remove_first_count, H.
    now destruct (Policy.isBlurred (policy st)).
Qed.

Lemma apply_op_needs_flag (op : Op) (st : State) :
  overlay_needs_flag st ->
  overlay_needs_flag (fst (apply_op decodeURIComponent op st)).
Proof.
  unfold overlay_needs_flag, overlays. intros H.
  destruct op as [reason d|]; cbn [apply_op].
  - rewrite blurScreen_cases.
    destruct (Policy.isBlurred (policy st)) eqn:Hb; cbn;
      [now rewrite Hb|].
    destruct (Cookies.getCookie decodeURIComponent "csrftoken" d); cbn.
    + rewrite List.filter_app, length_app. cbn. lia.
    + lia.
  - cbn. rewrite remove_first_count.
    destruct (Policy.isBlurred (policy st)); lia.
Qed.

End BlurFacts.

(** X15. blurScreen and unblurScreen never leave an overlay behind
    without the flag, nor more than one overlay: an overlay is only in the
    page while isBlurred is set.  Where every blurScreen call finds a
    csrftoken cookie it can read, flag and overlay stay in step: the
    overlay is there exactly when the flag is set.  A blurScreen call that
    cannot decode the cookie throws after it has set the flag and before
    it appends the overlay, so it leaves the flag set with no overlay.  A
    second blurScreen in a row does nothing and logs nothing, and
    unblurScreen after blurScreen gives back the body of an unblurred
    page. *)
Theorem blur_flag_matches_overlay
    (decodeURIComponent : string -> option string)
    (ops : list Blur.Op) (st : Blur.State) :
  Blur.consistent st ->
  Blur.overlay_needs_flag (fst (Blur.run decodeURIComponent ops st))
  /\ (Blur.overlays (fst (Blur.run decodeURIComponent ops st)) <= 1)%nat
  /\ (Forall (Blur.readable decodeURIComponent) ops ->
      Blur.consistent (fst (Blur.run decodeURIComponent ops st)))
  /\ (forall d r,
         Policy.isBlurred (Blur.policy st) = false ->
         Cookies.getCookie decodeURIComponent "csrftoken" d = Cookies.Throw ->
         Blur.blurScreen decodeURIComponent d r st
         = ({| Blur.policy := Blur.set_blurred true (Blur.policy st);
               Blur.filter := Blur.filter st |}, [Policy.Uncaught]))
  /\ (forall d1 r1 d2 r2,
         Blur.blurScreen decodeURIComponent d2 r2
           (fst (Blur.blurScreen decodeURIComponent d1 r1 st))
         = (fst (Blur.blurScreen decodeURIComponent d1 r1 st), []))
  /\ (Policy.isBlurred (Blur.policy st) = false ->
      forall d r,
        Policy.body
          (Blur.policy (Blur.unblurScreen
                          (fst (Blur.blurScreen decodeURIComponent d r st))))
        = Policy.body (Blur.policy st)).
Proof.
  intros Hc.
  assert (Hweak : Blur.overlay_needs_flag
                    (fst (Blur.run decodeURIComponent ops st))).
  { assert (H0 : Blur.overlay_needs_flag st).
    { unfold Blur.overlay_needs_flag. unfold Blur.consistent in Hc.
      rewrite Hc. lia. }
    clear Hc. revert st H0.
    induction ops as [|op ops IH]; intros st H0; [exact H0|].
    cbn [Blur.run].
    pose proof (apply_op_needs_flag decodeURIComponent op st H0) as H1.
    destruct (Blur.apply_op decodeURIComponent op st) as [st1 e1].
    cbn [fst] in H1.
    specialize (IH st1 H1).
    now destruct (Blur.run decodeURIComponent ops st1). }
  split; [exact Hweak|]. split.
  { unfold Blur.overlay_needs_flag in Hweak.
    destruct (Policy.isBlurred _); lia. }
  split.
  { intros Hall. clear Hweak. revert st Hc.
    induction Hall as [|op ops Hop Hall IH]; intros st Hc; [exact Hc|].
    cbn [Blur.run].
    pose proof (apply_op_consistent decodeURIComponent op st Hop Hc) as H1.
    destruct (Blur.apply_op decodeURIComponent op st) as [st1 e1].
    cbn [fst] in H1.
    specialize (IH st1 H1).
    now destruct (Blur.run decodeURIComponent ops st1). }
  split.
  { intros d r Hb Ht. rewrite blurScreen_cases, Hb, Ht. reflexivity. }
  split.
  - intros d1 r1 d2 r2. rewrite (blurScreen_cases _ d1).
    destruct (Policy.isBlurred (Blur.policy st)) eqn:Hb; cbn [fst].
    + rewrite blurScreen_cases, Hb. reflexivity.
    + destruct (Cookies.getCookie decodeURIComponent "csrftoken" d1);
        cbn [fst]; rewrite blurScreen_cases; reflexivity.
  - intros Hb d r. rewrite blurScreen_cases, Hb.
    unfold Blur.consistent, Blur.overlays in Hc. rewrite Hb in Hc.
    apply length_zero_iff_nil in Hc.
    destruct (Cookies.getCookie decodeURIComponent "csrftoken" d); cbn.
    + now apply remove_first_appended.
    + now apply remove_first_absent.
Qed.

(** The theorem on a fresh page blurred twice and then unblurred, and on
    the same page when its cookie cannot be decoded. *)
Lemma blur_flag_matches_overlay_witness :
  let st := {| Blur.policy := Policy.start 0; Blur.filter := "" |} in
  let d := Samples.page_with_token in
  Blur.consistent
    (fst (Blur.run Samples.decodeURIComponent
            [Blur.DoBlur "debugger_detected" d;
             Blur.DoBlur "recording_tool_detected" d;
             Blur.DoUnblur] st))
  /\ Blur.blurScreen Samples.decodeURIComponent Samples.page_with_bad_cookie
                     "debugger_detected" st
     = ({| Blur.policy := Blur.set_blurred true (Policy.start 0);
           Blur.filter := "" |}, [Policy.Uncaught]).
Proof.
  intros st d.
  destruct (blur_flag_matches_overlay
              Samples.decodeURIComponent
              [Blur.DoBlur "debugger_detected" d;
               Blur.DoBlur "recording_tool_detected" d; Blur.DoUnblur] st
              eq_refl) as (_ & _ & H & Ht & _).
  split.
  - apply H. repeat constructor; vm_compute; discriminate.
  - apply Ht; reflexivity.
Defined.

(** ** PrintScreen under the screenshot script *)

Section ScreenshotFacts.

Variable decodeURIComponent : string -> option string.

(** The call into the core script counts the violation, whether or not
    it returns. *)
Lemma screenshot_violation_count (cfg : Policy.Config) (d : Document)
      (type : string) (st : Policy.State) :
  option_map Policy.violations
    (fst (Screenshot.violation decodeURIComponent cfg d type (Some st)))
  = Some (Policy.violations st + 1).
Proof.
  unfold Screenshot.violation.
  pose proof (step_counts decodeURIComponent cfg (Policy.Violation type d) st)
    as H.
  cbn [Policy.step PolicyRuns.is_violation] in H.
  destruct (Policy.incrementViolation decodeURIComponent cfg d type st)
    as [st' effs].
  cbn in *. now rewrite H.
Qed.

Lemma screenshot_and_then_keep
      (r : option Policy.State * list Screenshot.Action)
      (k : option Policy.State -> option Policy.State * list Screenshot.Action) :
  (forall cs, fst (k cs) = cs) ->
  fst (Screenshot.and_then r k) = fst r.
Proof.
  intros Hk. unfold Screenshot.and_then. destruct r as [cs1 a1].
  destruct (Screenshot.threw a1); [reflexivity|].
  specialize (Hk cs1). destruct (k cs1) as [cs2 a2]. exact Hk.
Qed.

Lemma screenshot_and_then_start
      (cs : option Policy.State) (acts : list Screenshot.Action)
      (k : option Policy.State -> option Policy.State * list Screenshot.Action) :
  Screenshot.threw acts = false ->
  fst (Screenshot.and_then (cs, acts) k) = fst (k cs).
Proof.
  intros H. unfold Screenshot.and_then. rewrite H. now destruct (k cs).
Qed.

(** With the clipboard at hand, the keydown listener counts one violation
    on every event that is a PrintScreen for it. *)
Lemma keydown_counts_printscreen (cfg : Policy.Config)
      (env : Screenshot.Env) (e : Keys.KeyEvent) (st : Policy.State) :
  Screenshot.is_printscreen e = true ->
  Screenshot.clipboard env = true ->
  option_map Policy.violations
    (fst (Screenshot.keydown decodeURIComponent cfg env e (Some st)))
  = Some (Policy.violations st + 1).
Proof.
  intros Hp Hclip. unfold Screenshot.keydown, Screenshot.writeText.
  unfold Screenshot.is_printscreen in Hp. rewrite orb_comm in Hp.
  rewrite Hclip.
  destruct (_ && _ && (Keys.keyCode e =? 83)).
  { rewrite screenshot_and_then_start by reflexivity.
    rewrite screenshot_and_then_keep by reflexivity.
    apply screenshot_violation_count. }
  destruct (_ && _ && Keys.includes _ _ _).
  { rewrite screenshot_and_then_start by reflexivity.
    rewrite screenshot_and_then_keep by reflexivity.
    apply screenshot_violation_count. }
  rewrite Hp.
  rewrite screenshot_and_then_start by reflexivity.
  apply screenshot_violation_count.
Qed.

Lemma keyup_counts_printscreen (cfg : Policy.Config)
      (env : Screenshot.Env) (e : Keys.KeyEvent) (st : Policy.State) :
  Screenshot.is_printscreen e = true ->
  Screenshot.clipboard env = true ->
  option_map Policy.violations
    (fst (Screenshot.keyup decodeURIComponent cfg env e (Some st)))
  = Some (Policy.violations st + 1).
Proof.
  intros Hp Hclip. unfold Screenshot.keyup, Screenshot.writeText.
  unfold Screenshot.is_printscreen in Hp. rewrite Hp, Hclip.
  rewrite screenshot_and_then_start by reflexivity.
  rewrite screenshot_and_then_keep by reflexivity.
  apply screenshot_violation_count.
Qed.

End ScreenshotFacts.

(** X16. With the core script loaded and [navigator.clipboard] defined,
    one PrintScreen key stroke counts as two violations: the keydown
    listener of the screenshot script counts one and its keyup listener
    another, whether or not the core script can log them.  Where
    [navigator.clipboard] is not defined, both listeners throw on their
    clipboard call, before they reach the core script, and the stroke
    with key code 44 counts nothing. *)
Theorem printscreen_counts_twice
    (decodeURIComponent : string -> option string)
    (cfg : Policy.Config) (env : Screenshot.Env) (e : Keys.KeyEvent)
    (st : Policy.State) :
  Screenshot.is_printscreen e = true ->
  (Screenshot.clipboard env = true ->
   option_map Policy.violations
     (fst (Screenshot.stroke decodeURIComponent cfg env e (Some st)))
   = Some (Policy.violations st + 2))
  /\ (Screenshot.clipboard env = false ->
      Keys.keyCode e = 44 ->
      Screenshot.stroke decodeURIComponent cfg env e (Some st)
      = (Some st, [Screenshot.PreventDefault; Screenshot.Uncaught;
                   Screenshot.Uncaught])).
Proof.
  intros Hp. split.
  - intros Hclip. unfold Screenshot.stroke.
    pose proof (keydown_counts_printscreen decodeURIComponent cfg env e st
                                           Hp Hclip) as Hd.
    destruct (Screenshot.keydown decodeURIComponent cfg env e (Some st))
      as [cs1 a1].
    cbn [fst] in Hd. destruct cs1 as [st1|]; [|discriminate Hd].
    cbn in Hd. injection Hd as Hd.
    pose proof (keyup_counts_printscreen decodeURIComponent cfg env e st1
                                         Hp Hclip) as Hu.
    destruct (Screenshot.keyup decodeURIComponent cfg env e (Some st1))
      as [cs2 a2].
    cbn [fst] in *. rewrite Hu. f_equal. lia.
  - intros Hclip Hcode.
    unfold Screenshot.stroke, Screenshot.keydown, Screenshot.keyup,
      Screenshot.writeText.
    rewrite Hclip, Hcode. cbn [Z.eqb Pos.eqb Keys.includes existsb].
    rewrite !andb_false_r. cbn. rewrite orb_true_r. reflexivity.
Qed.

(** The theorem on a fresh page without cookies: served over https, two
    PrintScreen strokes count four violations; served over plain http,
    a stroke counts none. *)
Lemma printscreen_counts_twice_witness :
  let e := Samples.row_event Keys.RPrintScreen in
  let d := Samples.page_with_token in
  option_map Policy.violations
    (fst (Screenshot.strokes Samples.decodeURIComponent Policy.config
            (Samples.secure d) [e; e] (Some (Policy.start 0))))
  = Some 4
  /\ fst (Screenshot.stroke Samples.decodeURIComponent Policy.config
            (Samples.plain_http d) e (Some (Policy.start 0)))
     = Some (Policy.start 0).
Proof.
  intros e d.
  destruct (printscreen_counts_twice
              Samples.decodeURIComponent Policy.config (Samples.secure d) e
              (Policy.start 0) eq_refl) as [H1 _].
  destruct (printscreen_counts_twice
              Samples.decodeURIComponent Policy.config (Samples.plain_http d)
              e (Policy.start 0) eq_refl) as [_ H2].
  split.
  - cbn [Screenshot.strokes].
    specialize (H1 eq_refl).
    destruct (Screenshot.stroke Samples.decodeURIComponent Policy.config
                (Samples.secure d) e (Some (Policy.start 0))) as [cs1 a1].
    cbn [fst] in H1. destruct cs1 as [st1|]; [|discriminate H1].
    cbn in H1. injection H1 as H1.
    destruct (printscreen_counts_twice
                Samples.decodeURIComponent Policy.config (Samples.secure d) e
                st1 eq_refl) as [H3 _].
    specialize (H3 eq_refl).
    destruct (Screenshot.stroke Samples.decodeURIComponent Policy.config
                (Samples.secure d) e (Some st1)) as [cs2 a2].
    cbn [fst] in *. rewrite H3. f_equal. rewrite H1. reflexivity.
  - now rewrite (H2 eq_refl eq_refl).
Defined.

(** ** Violations and blur in the final script *)

Section FinalFacts.
Import Final.

Variable decodeURIComponent : string -> option string.

(** logViolation sends its request, or throws before it. *)
Lemma logViolation_cases (d : Document) (ty desc : string) (st : State) :
  logViolation decodeURIComponent d ty desc st
  = (st, match Cookies.getCsrfToken decodeURIComponent d with
         | Cookies.Normal _ => [Post ty desc]
         | Cookies.Throw => [Uncaught]
         end).
Proof.
  unfold logViolation.
  now destruct (Cookies.getCsrfToken decodeURIComponent d).
Qed.

(** blurScreen with its calls unfolded into cases. *)
Lemma final_blurScreen_cases (d : Document) (reason : string) (st : State) :
  blurScreen decodeURIComponent d reason st
  = if Banking.isBlurred (banking st) then (st, [])
    else
      match Cookies.getCsrfToken decodeURIComponent d with
      | Cookies.Normal _ =>
          ({| banking := banking (set_isBlurred true st);
              filter := "blur(10px)";
              body := body st ++ [BlurOverlay reason] |},
           [Post "screen_recording" ("Screen blurred: " ++ reason)%string])
      | Cookies.Throw => (set_isBlurred true st, [Uncaught])
      end.
Proof.
  unfold blurScreen. rewrite logViolation_cases.
  destruct (Banking.isBlurred (banking st)); [reflexivity|].
  destruct (Cookies.getCsrfToken decodeURIComponent d); reflexivity.
Qed.

(** detectDevTools with its calls unfolded into cases. *)
Lemma detectDevTools_cases (d : Document) (w : Strict.Window) (st : State) :
  detectDevTools decodeURIComponent d w st
  = if Strict.over_threshold w then
      if negb (Banking.devToolsOpen (banking st)) then
        match Cookies.getCsrfToken decodeURIComponent d with
        | Cookies.Normal _ =>
            let r := blurScreen decodeURIComponent d
                                "Developer tools detected"
                                (set_devToolsOpen true st) in
            (fst r, Post "devtools_detected" "Developer tools opened"
                    :: snd r)
        | Cookies.Throw => (set_devToolsOpen true st, [Uncaught])
        end
      else (st, [])
    else (set_devToolsOpen false st, []).
Proof.
  unfold detectDevTools. rewrite logViolation_cases.
  destruct (Strict.over_threshold w); [|reflexivity].
  destruct (negb _); [|reflexivity].
  destruct (Cookies.getCsrfToken decodeURIComponent d); [|reflexivity].
  cbn [and_then threw existsb orb].
  now destruct (blurScreen _ _ _ _).
Qed.

Lemma blurScreen_keeps (d : Document) (reason : string) (st : State) :
  Banking.violations
    (banking (fst (blurScreen decodeURIComponent d reason st)))
  = Banking.violations (banking st)
  /\ (forall n, is_overlay n = false ->
                (In n (body (fst (blurScreen decodeURIComponent d reason st)))
                 <-> In n (body st)))
  /\ (Banking.isBlurred (banking st) = true ->
      Banking.isBlurred
        (banking (fst (blurScreen decodeURIComponent d reason st))) = true).
Proof.
  rewrite final_blurScreen_cases.
  destruct (Banking.isBlurred (banking st)) eqn:Hb; cbn.
  - repeat split; auto.
  - destruct (Cookies.getCsrfToken decodeURIComponent d); cbn.
    + split; [reflexivity|]. split; [|discriminate].
      intros n Hn. rewrite in_app_iff. cbn. split; [|auto].
      intros [H|[H'|[]]]; [exact H|]. subst n. discriminate Hn.
    + split; [reflexivity|]. split; [tauto | discriminate].
Qed.

Lemma step_keeps (cfg : Banking.Config) (ev : Event) (st : State) :
  Banking.violations (banking (fst (step decodeURIComponent cfg ev st)))
  = Banking.violations (banking st) + (if acknowledged ev then 1 else 0)
  /\ (acknowledged ev = false ->
      forall n, is_overlay n = false ->
                (In n (body (fst (step decodeURIComponent cfg ev st)))
                 <-> In n (body st)))
  /\ (Banking.isBlurred (banking st) = true ->
      Banking.isBlurred (banking (fst (step decodeURIComponent cfg ev st)))
      = true).
Proof.
  destruct ev as [w d|r|reason d|ty desc d|now|now]; cbn [step acknowledged].
  - rewrite detectDevTools_cases.
    destruct (Strict.over_threshold w); cbn; [|split; [lia | tauto]].
    destruct (negb _); cbn; [|split; [lia | tauto]].
    destruct (Cookies.getCsrfToken decodeURIComponent d); cbn;
      [|split; [lia | tauto]].
    match goal with |- context [blurScreen _ ?d0 ?r ?s] =>
      pose proof (blurScreen_keeps d0 r s) as (H1 & H2 & H3);
      destruct (blurScreen decodeURIComponent d0 r s) as [st3 e3] end.
    cbn in *. split; [lia|]. split; [intros _; exact H2 | exact H3].
  - destruct r as [[]|]; cbn; try (split; [lia | tauto]).
    destruct (_ >=? _); cbn; (split; [lia|]); (split; [discriminate | tauto]).
  - pose proof (blurScreen_keeps d reason st) as (H1 & H2 & H3).
    split; [lia|]. split; [intros _; exact H2 | exact H3].
  - rewrite logViolation_cases. cbn. split; [lia | tauto].
  - unfold checkSession, Banking.checkSession.
    repeat match goal with |- context [if ?b then _ else _] => destruct b end;
      cbn; (split; [lia | tauto]).
  - cbn. split; [lia | tauto].
Qed.

Lemma step_inv (cfg : Banking.Config) (ev : Event) (st : State) :
  inv cfg st -> inv cfg (fst (step decodeURIComponent cfg ev st)).
Proof.
  intros [Hlow Hhigh].
  destruct (step_keeps cfg ev st) as (Hc & Hb & _).
  destruct (acknowledged ev) eqn:Ha.
  - destruct ev as [w d|[[]|]|reason d|ty desc d|now|now];
      try discriminate Ha.
    clear Hb. cbn [step fst received] in *.
    unfold inv. cbn [set_banking banking Banking.violations].
    destruct (Z.geb_spec (Banking.violations (banking st) + 1)
                (Banking.maxViolations cfg)) as [Hge|Hlt]; cbn.
    + split; [lia|]. intros _. unfold terminated. cbn.
      split; [auto | intros [H|[]]; discriminate H].
    + split; [|lia]. intros _. apply Hlow. lia.
  - specialize (Hb eq_refl). unfold inv. rewrite Hc.
    split; intros H.
    + apply (Hb PageContent eq_refl). apply Hlow. lia.
    + assert (Ht : terminated st) by (apply Hhigh; lia).
      destruct Ht as [Ht1 Ht2]. split.
      * now apply (Hb TerminationNotice eq_refl).
      * intros Hp. apply Ht2. now apply (Hb PageContent eq_refl).
Qed.

Lemma steps_counts_inv (cfg : Banking.Config) (evs : list Event)
      (st : State) :
  inv cfg st ->
  Banking.violations (banking (fst (steps decodeURIComponent cfg evs st)))
  = Banking.violations (banking st) + acknowledgements evs
  /\ inv cfg (fst (steps decodeURIComponent cfg evs st)).
Proof.
  unfold acknowledgements.
  revert st. induction evs as [|ev evs IH]; intros st Hinv; cbn [steps].
  - cbn. split; [lia | exact Hinv].
  - destruct (step_keeps cfg ev st) as (Hc & _).
    pose proof (step_inv cfg ev st Hinv) as Hi.
    destruct (step decodeURIComponent cfg ev st) as [st1 e1].
    cbn [fst] in *.
    specialize (IH st1 Hi).
    destruct (steps decodeURIComponent cfg evs st1) as [st2 e2].
    cbn [fst] in *. destruct IH as [IH1 IH2]. split; [|exact IH2].
    rewrite IH1, Hc. cbn [List.filter].
    destruct (acknowledged ev); cbn [length]; lia.
Qed.

Lemma steps_stay_blurred (cfg : Banking.Config) (evs : list Event)
      (st : State) :
  Banking.isBlurred (banking st) = true ->
  Banking.isBlurred (banking (fst (steps decodeURIComponent cfg evs st)))
  = true.
Proof.
  revert st. induction evs as [|ev evs IH]; intros st Hb; cbn [steps];
    [exact Hb|].
  destruct (step_keeps cfg ev st) as (_ & _ & H).
  destruct (step decodeURIComponent cfg ev st) as [st1 e1].
  cbn [fst] in *.
  specialize (IH st1 (H Hb)).
  now destruct (steps decodeURIComponent cfg evs st1).
Qed.

End FinalFacts.

(** X17. In the final script a violation counts only once the server has
    acknowledged it: the counter equals the number of responses with a
    true success field, whatever else happens, and on a fresh page with a
    positive maximum the session is terminated exactly when that number
    has reached the maximum.  Requests that are refused, fail or come back
    unreadable never end the session. *)
Theorem final_counts_acknowledged_violations
    (decodeURIComponent : string -> option string)
    (cfg : Banking.Config) (evs : list Final.Event) (t : Z) :
  0 < Banking.maxViolations cfg ->
  let st := fst (Final.steps decodeURIComponent cfg evs (Final.start t)) in
  Banking.violations (Final.banking st) = Final.acknowledgements evs
  /\ (Final.terminated st
      <-> Banking.maxViolations cfg <= Final.acknowledgements evs).
Proof.
  intros Hmax st.
  assert (Hinv : Final.inv cfg (Final.start t)).
  { split; cbn; [auto | lia]. }
  destruct (steps_counts_inv decodeURIComponent cfg evs (Final.start t) Hinv)
    as [Hc [Hlow Hhigh]].
  fold st in Hc, Hlow, Hhigh.
  assert (Hc' : Banking.violations (Final.banking st)
                = Final.acknowledgements evs)
    by (rewrite Hc; cbn; lia).
  split; [exact Hc'|]. rewrite <- Hc'. split.
  - intros [_ Hno].
    destruct (Z.le_gt_cases (Banking.maxViolations cfg)
                (Banking.violations (Final.banking st))); [assumption|].
    exfalso. apply Hno. apply Hlow. lia.
  - exact Hhigh.
Qed.

(** The theorem with the thresholds of the final script: four violations
    of which the server acknowledges two leave the session running. *)
Lemma final_counts_acknowledged_violations_witness :
  let d := Samples.page_with_token in
  let evs := [Final.Violation "copy_attempt" "copy event" d;
              Final.Received (Final.Json true);
              Final.Violation "right_click_attempt" "Context menu blocked" d;
              Final.Received Final.NoJson;
              Final.Violation "drag_attempt" "Drag operation blocked" d;
              Final.Received (Final.Json false);
              Final.Violation "copy_attempt" "cut event" d;
              Final.Received (Final.Json true)] in
  Banking.violations
    (Final.banking (fst (Final.steps Samples.decodeURIComponent
                           Banking.config evs (Final.start 0))))
  = 2.
Proof.
  intros d evs.
  assert (Hmax : 0 < Banking.maxViolations Banking.config) by reflexivity.
  exact (proj1 (final_counts_acknowledged_violations
                  Samples.decodeURIComponent Banking.config evs 0 Hmax)).
Defined.

(** X18. The final script cannot take its blur back: once isBlurred is
    set no later event clears it, and a further blurScreen call sends
    nothing.  Where getCsrfToken returns, the first detection of open
    developer tools on an unblurred page therefore sends two violations,
    devtools_detected and screen_recording, and later detections only the
    first.  Where getCsrfToken throws (no token in the form field or the
    meta tag and a csrftoken cookie that cannot be decoded), the detection
    sets devToolsOpen and ends there: nothing is sent and the page is not
    blurred. *)
Theorem final_blur_is_one_way
    (decodeURIComponent : string -> option string)
    (cfg : Banking.Config) (evs : list Final.Event) (st : Final.State)
    (d : Document) (w : Strict.Window) (reason : string) :
  (Banking.isBlurred (Final.banking st) = true ->
   Banking.isBlurred
     (Final.banking (fst (Final.steps decodeURIComponent cfg evs st))) = true
   /\ Final.blurScreen decodeURIComponent d reason st = (st, []))
  /\ (Strict.over_threshold w = true ->
      Banking.devToolsOpen (Final.banking st) = false ->
      (Cookies.getCsrfToken decodeURIComponent d <> Cookies.Throw ->
       Final.posted (snd (Final.detectDevTools decodeURIComponent d w st))
       = if Banking.isBlurred (Final.banking st)
         then ["devtools_detected"]
         else ["devtools_detected"; "screen_recording"])
      /\ (Cookies.getCsrfToken decodeURIComponent d = Cookies.Throw ->
          Final.detectDevTools decodeURIComponent d w st
          = (Final.set_devToolsOpen true st, [Final.Uncaught]))).
Proof.
  split.
  - intros Hb. split; [now apply steps_stay_blurred|].
    rewrite final_blurScreen_cases. now rewrite Hb.
  - intros Hw Hd. rewrite detectDevTools_cases, Hw, Hd. cbn [negb].
    rewrite final_blurScreen_cases.
    destruct (Cookies.getCsrfToken decodeURIComponent d);
      split; intros Hc; try congruence.
    cbn. destruct (Banking.isBlurred (Final.banking st)); reflexivity.
Qed.

(** The theorem on a fresh page whose developer tools are opened, closed
    and opened again, and on a page whose cookie cannot be decoded. *)
Lemma final_blur_is_one_way_witness :
  let docked := {| Strict.outerWidth := 1920; Strict.innerWidth := 1400;
                   Strict.outerHeight := 1080; Strict.innerHeight := 990 |} in
  let plain := {| Strict.outerWidth := 1920; Strict.innerWidth := 1920;
                  Strict.outerHeight := 1080; Strict.innerHeight := 990 |} in
  let d := Samples.page_with_token in
  let decode := Samples.decodeURIComponent in
  Final.posted (snd (Final.detectDevTools decode d docked (Final.start 0)))
  = ["devtools_detected"; "screen_recording"]
  /\ Final.posted
       (snd (Final.detectDevTools decode d docked
               (fst (Final.steps decode Banking.config
                       [Final.DevToolsPoll docked d;
                        Final.DevToolsPoll plain d]
                       (Final.start 0)))))
     = ["devtools_detected"]
  /\ Final.posted
       (snd (Final.detectDevTools decode Samples.page_with_bad_cookie docked
               (Final.start 0)))
     = [].
Proof.
  intros docked plain d decode.
  assert (Hr : Cookies.getCsrfToken decode d <> Cookies.Throw)
    by (vm_compute; discriminate).
  split; [|split].
  - exact (proj1 (proj2 (final_blur_is_one_way decode Banking.config []
                           (Final.start 0) d docked "") eq_refl eq_refl) Hr).
  - exact (proj1 (proj2 (final_blur_is_one_way decode Banking.config []
                           (fst (Final.steps decode Banking.config
                                   [Final.DevToolsPoll docked d;
                                    Final.DevToolsPoll plain d]
                                   (Final.start 0)))
                           d docked "") eq_refl eq_refl) Hr).
  - rewrite (proj2 (proj2 (final_blur_is_one_way decode Banking.config []
                             (Final.start 0) Samples.page_with_bad_cookie
                             docked "") eq_refl eq_refl) eq_refl).
    reflexivity.
Defined.

(** ** The notification client over whole runs *)

Section SocketRunFacts.
Import Socket SocketRun.

Lemma updateUnreadBadge_connection (count : option Z) (st : State) :
  connection (updateUnreadBadge count st) = connection st
  /\ menu_open (updateUnreadBadge count st) = menu_open st
  /\ socket_open (updateUnreadBadge count st) = socket_open st.
Proof.
  unfold updateUnreadBadge. destruct (badge st); cbn; auto.
Qed.

Lemma handleMessage_connection (data : Inbound) (st : State) :
  connection (fst (handleMessage data st)) = connection st
  /\ socket_open (fst (handleMessage data st)) = socket_open st
  /\ (forall f, In f (sent (snd (handleMessage data st))) ->
                f = GetNotifications 10
                /\ socket_open st = true /\ menu_open st = true).
Proof.
  destruct data; cbn [handleMessage fst snd];
    try (split; [reflexivity || apply updateUnreadBadge_connection|];
         split; [reflexivity || apply updateUnreadBadge_connection|];
         cbn; tauto).
  unfold handleNewNotification.
  assert (H : exists st1,
             match badge st with
             | Some b =>
                 updateUnreadBadge
                   (option_map (fun c => c + 1) (currentCount b)) st
             | None => st
             end = st1
             /\ connection st1 = connection st
             /\ menu_open st1 = menu_open st
             /\ socket_open st1 = socket_open st).
  { destruct (badge st) as [b|]; eexists; split; try reflexivity;
      [apply updateUnreadBadge_connection | auto]. }
  destruct H as (st1 & -> & Hc & Hm & Ho).
  unfold loadNotifications. rewrite Hm, Ho.
  destruct (menu_open st) eqn:Hmenu; [destruct (socket_open st) eqn:Hopen|];
    cbn [fst snd]; (split; [exact Hc|]); (split; [exact Ho|]);
    intros f Hf; unfold sent in Hf; rewrite !omap_app in Hf;
    destruct (permission_granted st1); cbn in Hf;
    try contradiction;
    destruct Hf as [Hf|Hf]; try contradiction; subst; auto.
Qed.

Ltac no_timer :=
  let d := fresh "d" in
  let Hd := fresh "Hd" in
  intros d Hd; cbn in Hd;
  repeat (destruct Hd as [Hd|Hd]; try discriminate Hd);
  try contradiction.

Ltac same_bounds :=
  cbn; (split; [lia|]); (split; [reflexivity|]); (split; [reflexivity|]).

Lemma step_bounds (ev : Event) (st : State) :
  0 <= reconnectAttempts st <= maxReconnectAttempts st ->
  0 <= reconnectAttempts (fst (step ev st))
    <= maxReconnectAttempts (fst (step ev st))
  /\ maxReconnectAttempts (fst (step ev st)) = maxReconnectAttempts st
  /\ reconnectDelay (fst (step ev st)) = reconnectDelay st
  /\ (forall d, In (SetTimeoutConnect d) (snd (step ev st)) ->
                exists n, 1 <= n <= maxReconnectAttempts st
                          /\ d = reconnectDelay st * n).
Proof.
  intros Hb. destruct ev; cbn [step].
  - unfold connect. destruct (isConnecting st || socket_open st);
      same_bounds; no_timer.
  - same_bounds. no_timer.
  - same_bounds. no_timer.
  - unfold onclose.
    destruct (Z.ltb_spec (reconnectAttempts st) (maxReconnectAttempts st));
      same_bounds.
    + intros d [Hd|[Hd|[]]]; [discriminate Hd|]. injection Hd as <-.
      exists (reconnectAttempts st + 1). split; [lia | reflexivity].
    + no_timer.
  - unfold click_reconnect, connect. cbn.
    destruct (isConnecting st || _); same_bounds; no_timer.
  - unfold heartbeat. destruct (socket_open st); same_bounds; no_timer.
  - destruct (handleMessage_connection data st) as (Hc & _ & _).
    unfold connection in Hc. injection Hc as H1 H2 H3 H4 H5 H6 H7.
    rewrite H2, H3, H4. split; [lia|]. split; [reflexivity|].
    split; [reflexivity|].
    intros d Hd. exfalso.
    destruct data; cbn [handleMessage snd] in Hd;
      try (cbn in Hd; repeat (destruct Hd as [Hd|Hd]; try discriminate Hd);
           contradiction).
    unfold handleNewNotification, loadNotifications in Hd.
    repeat match type of Hd with
           | context [if ?b then _ else _] => destruct b
           end;
      cbn in Hd; repeat (destruct Hd as [Hd|Hd]; try discriminate Hd);
      contradiction.
  - unfold markAsRead. destruct (socket_open st); same_bounds; no_timer.
  - unfold markAllAsRead. destruct (socket_open st); same_bounds; no_timer.
  - unfold loadNotifications. destruct (socket_open st); same_bounds;
      no_timer.
Qed.

Lemma handleMessage_menu (data : Inbound) (st : State) :
  menu_open (fst (handleMessage data st)) = menu_open st.
Proof.
  destruct data; cbn [handleMessage fst];
    try reflexivity; try apply updateUnreadBadge_connection.
  destruct (badge st) as [b|] eqn:Hb.
  - rewrite (handleNewNotification_state _ _ _ Hb).
    apply updateUnreadBadge_connection.
  - unfold handleNewNotification, loadNotifications. rewrite Hb.
    destruct (menu_open st) eqn:Hm; [destruct (socket_open st)|];
      cbn [fst]; rewrite ?Hm; reflexivity.
Qed.

Lemma handleMessage_no_socket (data : Inbound) (st : State) :
  sockets_created (snd (handleMessage data st)) = 0%nat.
Proof.
  destruct data; cbn [handleMessage snd]; try reflexivity.
  unfold handleNewNotification, loadNotifications.
  repeat match goal with
         | |- context [if ?b then _ else _] => destruct b
         end; reflexivity.
Qed.

Lemma sent_app (e1 e2 : list Effect) : sent (e1 ++ e2) = sent e1 ++ sent e2.
Proof. apply omap_app. Qed.

Lemma sockets_created_app (e1 e2 : list Effect) :
  sockets_created (e1 ++ e2)
  = (sockets_created e1 + sockets_created e2)%nat.
Proof. unfold sockets_created. now rewrite List.filter_app, length_app. Qed.

(** While the socket is not open, a handler other than [onopen] sends
    nothing and leaves the socket not open. *)
Lemma step_not_open (ev : Event) (st : State) :
  socket_open st = false -> is_opened ev = false ->
  socket_open (fst (step ev st)) = false /\ sent (snd (step ev st)) = [].
Proof.
  intros Ho Hev. destruct ev; try discriminate Hev; cbn [step].
  - unfold connect. rewrite Ho. destruct (isConnecting st); cbn; auto.
  - cbn. auto.
  - unfold onclose.
    destruct (reconnectAttempts st <? maxReconnectAttempts st); cbn; auto.
  - unfold click_reconnect, connect. cbn.
    unfold socket_open in *. cbn. rewrite Ho.
    destruct (isConnecting st); cbn; auto.
  - unfold heartbeat. rewrite Ho. auto.
  - destruct (handleMessage_connection data st) as (_ & Hs & Hf).
    split; [now rewrite Hs|].
    destruct (sent (snd (handleMessage data st))) as [|f l]; [reflexivity|].
    destruct (Hf f (or_introl eq_refl)) as (_ & Habs & _). congruence.
  - unfold markAsRead. rewrite Ho. auto.
  - unfold markAllAsRead. rewrite Ho. auto.
  - unfold loadNotifications. rewrite Ho. auto.
Qed.

(** Once the client is connecting or open, a handler other than [onclose]
    and [onerror] creates no socket and leaves it connecting or open. *)
Lemma step_connected (ev : Event) (st : State) :
  isConnecting st || socket_open st = true -> is_failure ev = false ->
  isConnecting (fst (step ev st)) || socket_open (fst (step ev st)) = true
  /\ sockets_created (snd (step ev st)) = 0%nat.
Proof.
  intros Hi Hev. destruct ev; try discriminate Hev; cbn [step].
  - unfold connect. rewrite Hi. auto.
  - cbn. auto.
  - unfold click_reconnect, connect. cbn.
    replace (socket_open _) with (socket_open st) by reflexivity.
    rewrite Hi. cbn. auto.
  - unfold heartbeat. destruct (socket_open st) eqn:Ho; cbn [fst snd];
      rewrite ?Ho; auto.
  - destruct (handleMessage_connection data st) as (Hc & Hs & _).
    unfold connection in Hc. injection Hc as _ _ _ _ _ Hc _.
    rewrite Hc, Hs. split; [exact Hi | apply handleMessage_no_socket].
  - unfold markAsRead. destruct (socket_open st) eqn:Ho; cbn [fst snd];
      rewrite ?Ho; auto.
  - unfold markAllAsRead. destruct (socket_open st) eqn:Ho; cbn [fst snd];
      rewrite ?Ho; auto.
  - unfold loadNotifications. destruct (socket_open st) eqn:Ho; cbn [fst snd];
      rewrite ?Ho; auto.
Qed.

(** A handler other than [onclose] and [onerror] creates at most one
    socket, and the client is connecting or open after it created one. *)
Lemma step_creates (ev : Event) (st : State) :
  is_failure ev = false ->
  sockets_created (snd (step ev st)) = 0%nat
  \/ (sockets_created (snd (step ev st)) = 1%nat
      /\ isConnecting (fst (step ev st))
         || socket_open (fst (step ev st)) = true).
Proof.
  intros Hev.
  destruct (isConnecting st || socket_open st) eqn:Hi.
  - left. now apply step_connected.
  - destruct ev; try discriminate Hev; cbn [step].
    + unfold connect. rewrite Hi. right. cbn. auto.
    + left. reflexivity.
    + unfold click_reconnect, connect. cbn.
      replace (socket_open _) with (socket_open st) by reflexivity.
      rewrite Hi. right. cbn. auto.
    + left. unfold heartbeat. now destruct (socket_open st).
    + left. apply handleMessage_no_socket.
    + left. unfold markAsRead. now destruct (socket_open st).
    + left. unfold markAllAsRead. now destruct (socket_open st).
    + left. unfold loadNotifications. now destruct (socket_open st).
Qed.

End SocketRunFacts.

(** X19. However the client is driven, the attempt counter stays between
    zero and the maximum, the maximum and the base delay never change, and
    every reconnect timer the run arms waits the base delay times a number
    between one and the maximum. *)
Theorem reconnect_attempts_stay_bounded
    (evs : list SocketRun.Event) (st : Socket.State) :
  0 <= Socket.reconnectAttempts st <= Socket.maxReconnectAttempts st ->
  let r := SocketRun.steps evs st in
  0 <= Socket.reconnectAttempts (fst r) <= Socket.maxReconnectAttempts st
  /\ Socket.maxReconnectAttempts (fst r) = Socket.maxReconnectAttempts st
  /\ Socket.reconnectDelay (fst r) = Socket.reconnectDelay st
  /\ (forall d, In (Socket.SetTimeoutConnect d) (snd r) ->
                exists n, 1 <= n <= Socket.maxReconnectAttempts st
                          /\ d = Socket.reconnectDelay st * n).
Proof.
  revert st. induction evs as [|ev evs IH]; intros st Hb.
  - cbn. split; [exact Hb|]. split; [reflexivity|]. split; [reflexivity|].
    intros d [].
  - cbn [SocketRun.steps].
    destruct (step_bounds ev st Hb) as (H1 & H2 & H3 & H4).
    destruct (SocketRun.step ev st) as [st1 e1]. cbn [fst snd] in *.
    assert (Hb1 : 0 <= Socket.reconnectAttempts st1
                    <= Socket.maxReconnectAttempts st1) by exact H1.
    specialize (IH st1 Hb1). cbn zeta in IH.
    destruct (SocketRun.steps evs st1) as [st2 e2]. cbn [fst snd] in *.
    destruct IH as (I1 & I2 & I3 & I4). rewrite H2 in I1, I2, I4.
    rewrite H3 in I3, I4.
    split; [exact I1|]. split; [exact I2|]. split; [exact I3|].
    intros d Hd. apply in_app_or in Hd. destruct Hd as [Hd|Hd]; auto.
Qed.

(** The theorem on a new client whose socket closes twice in a row. *)
Lemma reconnect_attempts_stay_bounded_witness :
  let st := Socket.constructed None false false in
  let r := SocketRun.steps
             [SocketRun.Connect; SocketRun.Closed; SocketRun.Connect;
              SocketRun.Closed] st in
  0 <= Socket.reconnectAttempts (fst r) <= 5
  /\ (forall d, In (Socket.SetTimeoutConnect d) (snd r) ->
                exists n, 1 <= n <= 5 /\ d = 3000 * n).
Proof.
  intros st r.
  assert (Hb : 0 <= Socket.reconnectAttempts st
                 <= Socket.maxReconnectAttempts st) by (cbn; lia).
  destruct (reconnect_attempts_stay_bounded
              [SocketRun.Connect; SocketRun.Closed; SocketRun.Connect;
               SocketRun.Closed] st Hb) as (H1 & _ & _ & H4).
  exact (conj H1 H4).
Defined.

(** X20. Nothing leaves the client before its socket has opened: in a run
    without an open callback that starts with the socket not open, the
    heartbeat, markAsRead, markAllAsRead, loadNotifications and the
    handlers of inbound frames send no frame at all, and the socket is
    still not open at the end. *)
Theorem nothing_sent_before_open
    (evs : list SocketRun.Event) (st : Socket.State) :
  Socket.socket_open st = false ->
  forallb (fun ev => negb (SocketRun.is_opened ev)) evs = true ->
  Socket.sent (snd (SocketRun.steps evs st)) = []
  /\ Socket.socket_open (fst (SocketRun.steps evs st)) = false.
Proof.
  revert st. induction evs as [|ev evs IH]; intros st Ho Hevs.
  - cbn. auto.
  - cbn [forallb] in Hevs. apply andb_prop in Hevs as [Hev Hevs].
    apply negb_true_iff in Hev.
    destruct (step_not_open ev st Ho Hev) as [Ho1 Hs1].
    cbn [SocketRun.steps].
    destruct (SocketRun.step ev st) as [st1 e1]. cbn [fst snd] in *.
    specialize (IH st1 Ho1 Hevs).
    destruct (SocketRun.steps evs st1) as [st2 e2]. cbn [fst snd] in *.
    destruct IH as [IH1 IH2].
    split; [|exact IH2]. now rewrite sent_app, Hs1, IH1.
Qed.

(** The theorem on a new client that is asked for everything while its
    socket is still connecting. *)
Lemma nothing_sent_before_open_witness :
  Socket.sent
    (snd (SocketRun.steps
            [SocketRun.Connect; SocketRun.HeartbeatTick;
             SocketRun.MarkAsRead "17"; SocketRun.MarkAllAsRead;
             SocketRun.LoadNotifications 10;
             SocketRun.Message (Socket.NewNotification Samples.new_enquiry)]
            (Socket.constructed None true true))) = [].
Proof.
  apply nothing_sent_before_open; reflexivity.
Defined.

(** X21. As long as no socket fails, the client creates at most one: in a
    run without close and error callbacks at most one WebSocket is
    created, and none when the run starts with the client connecting or
    open. *)
Theorem one_socket_until_failure
    (evs : list SocketRun.Event) (st : Socket.State) :
  forallb (fun ev => negb (SocketRun.is_failure ev)) evs = true ->
  (SocketRun.sockets_created (snd (SocketRun.steps evs st)) <= 1)%nat
  /\ (Socket.isConnecting st || Socket.socket_open st = true ->
      SocketRun.sockets_created (snd (SocketRun.steps evs st)) = 0%nat).
Proof.
  intros Hevs.
  assert (Hnone : forall evs st,
             forallb (fun ev => negb (SocketRun.is_failure ev)) evs = true ->
             Socket.isConnecting st || Socket.socket_open st = true ->
             SocketRun.sockets_created (snd (SocketRun.steps evs st))
             = 0%nat).
  { clear. intros evs. induction evs as [|ev evs IH]; intros st Hevs Hi.
    - reflexivity.
    - cbn [forallb] in Hevs. apply andb_prop in Hevs as [Hev Hevs].
      apply negb_true_iff in Hev.
      destruct (step_connected ev st Hi Hev) as [Hi1 Hc1].
      cbn [SocketRun.steps].
      destruct (SocketRun.step ev st) as [st1 e1]. cbn [fst snd] in *.
      specialize (IH st1 Hevs Hi1).
      destruct (SocketRun.steps evs st1) as [st2 e2]. cbn [fst snd] in *.
      now rewrite sockets_created_app, Hc1, IH. }
  split; [|now apply Hnone].
  revert st. induction evs as [|ev evs IH]; intros st.
  - cbn. lia.
  - cbn [forallb] in Hevs. apply andb_prop in Hevs as [Hev Hevs].
    apply negb_true_iff in Hev.
    pose proof (step_creates ev st Hev) as Hc.
    specialize (IH Hevs). cbn [SocketRun.steps].
    destruct (SocketRun.step ev st) as [st1 e1]. cbn [fst snd] in *.
    specialize (IH st1). pose proof (Hnone evs st1 Hevs) as Hn.
    destruct (SocketRun.steps evs st1) as [st2 e2]. cbn [fst snd] in *.
    rewrite sockets_created_app.
    destruct Hc as [Hc|[Hc Hi]]; [lia|]. rewrite (Hn Hi). lia.
Qed.

(** The theorem on a new client whose connect method is called three
    times around the open callback. *)
Lemma one_socket_until_failure_witness :
  (SocketRun.sockets_created
     (snd (SocketRun.steps
             [SocketRun.Connect; SocketRun.Connect; SocketRun.Opened;
              SocketRun.ClickReconnect; SocketRun.Connect]
             (Socket.constructed None false false))) <= 1)%nat.
Proof.
  apply one_socket_until_failure. reflexivity.
Defined.

(** An error callback clears isConnecting but leaves the socket in place,
    so a connect call that follows it creates a second socket. *)
Lemma second_socket_after_error :
  SocketRun.sockets_created
    (snd (SocketRun.steps
            [SocketRun.Connect; SocketRun.Errored; SocketRun.Connect]
            (Socket.constructed None false false))) = 2%nat.
Proof. reflexivity. Qed.

(** X22. Inbound frames never touch the connection: whatever frames
    arrive, the socket, the attempt counter, the heartbeat and the
    reconnect buttons are as before, no socket is created, and the only
    frame the client sends in answer is a request for ten notifications,
    which needs the socket open and the notification menu on display. *)
Theorem inbound_frames_keep_connection
    (frames : list Socket.Inbound) (st : Socket.State) :
  let r := SocketRun.steps (map SocketRun.Message frames) st in
  SocketRun.connection (fst r) = SocketRun.connection st
  /\ SocketRun.sockets_created (snd r) = 0%nat
  /\ (forall f, In f (Socket.sent (snd r)) ->
                f = Socket.GetNotifications 10
                /\ Socket.socket_open st = true
                /\ Socket.menu_open st = true).
Proof.
  revert st. induction frames as [|data frames IH]; intros st.
  - cbn. split; [reflexivity|]. split; [reflexivity|]. intros f [].
  - cbn [map SocketRun.steps SocketRun.step].
    destruct (handleMessage_connection data st) as (Hc & Ho & Hf).
    pose proof (handleMessage_menu data st) as Hm.
    pose proof (handleMessage_no_socket data st) as Hn.
    destruct (Socket.handleMessage data st) as [st1 e1]. cbn [fst snd] in *.
    specialize (IH st1). cbn zeta in IH.
    destruct (SocketRun.steps (map SocketRun.Message frames) st1)
      as [st2 e2]. cbn [fst snd] in *.
    destruct IH as (I1 & I2 & I3).
    split; [now rewrite I1|].
    split; [now rewrite sockets_created_app, Hn, I2|].
    intros f Hin. rewrite sent_app in Hin. apply in_app_or in Hin.
    destruct Hin as [Hin|Hin]; [now apply Hf|].
    destruct (I3 f Hin) as (H1 & H2 & H3).
    split; [exact H1|]. split; congruence.
Qed.

(** X23. The count an unread_count or connection_established frame
    carries is read back off the badge capped at 99: for a positive count
    the badge is put on display and the script reads the smaller of the
    count and 99 off it; for a count of zero or less the badge is hidden
    and keeps its text. *)
Theorem unread_count_read_back
    (st : Socket.State) (b : Socket.Badge) (frame : Socket.Inbound)
    (c : Z) (user_type : string) (user_id : Z) (groups : list string) :
  Socket.badge st = Some b ->
  frame = Socket.UnreadCount c
  \/ frame = Socket.ConnectionEstablished user_type user_id groups c ->
  let r := Socket.handleMessage frame st in
  snd r = []
  /\ (0 < c ->
      Socket.badge_count (fst r) = Some (Z.min c 99)
      /\ option_map Socket.show (Socket.badge (fst r)) = Some true
      /\ option_map Socket.display (Socket.badge (fst r)) = Some "block")
  /\ (c <= 0 ->
      Socket.badge (fst r)
      = Some {| Socket.textContent := Socket.textContent b;
                Socket.show := false; Socket.display := "none" |}).
Proof.
  intros Hb Hframe r.
  assert (Hr : r = (Socket.updateUnreadBadge (Some c) st, []))
    by (destruct Hframe; subst; reflexivity).
  rewrite Hr. cbn [fst snd]. split; [reflexivity|].
  unfold Socket.badge_count.
  rewrite (updateUnreadBadge_badge (Some c) st b Hb). cbn [Socket.gt0].
  split; intros Hc.
  - destruct (Z.gtb_spec c 0); [|lia]. cbn [option_map Socket.show
                                              Socket.display].
    split; [|split; reflexivity].
    destruct (Z.gtb_spec c 99).
    + rewrite Z.min_r by lia. reflexivity.
    + rewrite Z.min_l by lia. apply badge_text_round_trip. lia.
  - destruct (Z.gtb_spec c 0); [lia|]. reflexivity.
Qed.

(** The theorem on a connected client that is told of 150 unread
    notifications. *)
Lemma unread_count_read_back_witness :
  Socket.badge_count
    (fst (Socket.handleMessage (Socket.UnreadCount 150)
            (Samples.connected (Samples.badge_showing "7")))) = Some 99.
Proof.
  assert (Hc : 0 < 150) by lia.
  exact (proj1 (proj1 (proj2 (unread_count_read_back
                                (Samples.connected (Samples.badge_showing "7"))
                                (Samples.badge_showing "7")
                                (Socket.UnreadCount 150) 150 "" 0 []
                                eq_refl (or_introl eq_refl))) Hc)).
Defined.

(** ** The copy and paste script on top of the core script *)

Section CopyPasteFacts.
Import Keys.

Variable decodeURIComponent : string -> option string.

Lemma copypaste_violation (cfg : Policy.Config) (d : Document)
      (type : string) (cs : option Policy.State) :
  CopyPaste.count (fst (CopyPaste.violation decodeURIComponent cfg d type cs))
  = option_map (fun v => v + 1) (CopyPaste.count cs)
  /\ (cs = None ->
      snd (CopyPaste.violation decodeURIComponent cfg d type cs) = []).
Proof.
  destruct cs as [st|]; [|split; reflexivity].
  unfold CopyPaste.violation, CopyPaste.count.
  pose proof (step_counts decodeURIComponent cfg (Policy.Violation type d) st)
    as H.
  cbn [Policy.step PolicyRuns.is_violation] in H.
  destruct (Policy.incrementViolation decodeURIComponent cfg d type st)
    as [st' effs].
  cbn in *. split; [now rewrite H | discriminate].
Qed.

Lemma screenshot_violation_step (cfg : Policy.Config) (d : Document)
      (type : string) (cs : option Policy.State) :
  CopyPaste.count
    (fst (Screenshot.violation decodeURIComponent cfg d type cs))
  = option_map (fun v => v + 1) (CopyPaste.count cs).
Proof.
  destruct cs as [st|]; [|reflexivity].
  unfold CopyPaste.count. rewrite screenshot_violation_count. reflexivity.
Qed.

Lemma copypaste_keydown_step (cfg : Policy.Config) (d : Document)
      (e : KeyEvent) (cs : option Policy.State) :
  CopyPaste.at_most_one
    (CopyPaste.count cs)
    (CopyPaste.count (fst (CopyPaste.keydown decodeURIComponent cfg d e cs))).
Proof.
  unfold CopyPaste.keydown, CopyPaste.at_most_one.
  repeat match goal with
         | |- context [if ?b then _ else _] => destruct b
         end;
    try (left; reflexivity);
    match goal with
    | |- context [CopyPaste.violation _ cfg d ?t cs] =>
        pose proof (proj1 (copypaste_violation cfg d t cs)) as H;
        destruct (CopyPaste.violation decodeURIComponent cfg d t cs);
        right; exact H
    end.
Qed.

Lemma screenshot_keydown_step (cfg : Policy.Config) (env : Screenshot.Env)
      (e : KeyEvent) (cs : option Policy.State) :
  CopyPaste.at_most_one
    (CopyPaste.count cs)
    (CopyPaste.count
       (fst (Screenshot.keydown decodeURIComponent cfg env e cs))).
Proof.
  unfold Screenshot.keydown, Screenshot.writeText, CopyPaste.at_most_one.
  repeat match goal with
         | |- context [if ?b then _ else _] => destruct b
         end;
    try (left; reflexivity);
    right;
    rewrite screenshot_and_then_start by reflexivity;
    rewrite ?screenshot_and_then_keep by reflexivity;
    apply screenshot_violation_step.
Qed.

(** The copy and paste script only counts key codes of its own lists. *)
Lemma copypaste_keydown_quiet (cfg : Policy.Config) (d : Document)
      (e : KeyEvent) (cs : option Policy.State) :
  includes Z.eqb [67; 88; 86; 65; 123; 73; 74; 85] (keyCode e) = false ->
  fst (CopyPaste.keydown decodeURIComponent cfg d e cs) = cs.
Proof.
  unfold includes. cbn [existsb]. intros H.
  repeat (apply orb_false_elim in H; destruct H as [?H H]).
  unfold CopyPaste.keydown, includes. cbn [existsb].
  repeat match goal with Hx : (_ =? _) = false |- _ => rewrite Hx; clear Hx end.
  cbn [orb]. rewrite !andb_false_r. cbn [orb].
  destruct (ctrlKey e && (keyCode e =? 70)); reflexivity.
Qed.

(** The screenshot script only counts the key codes of its own lists and
    the key named PrintScreen. *)
Lemma screenshot_keydown_quiet (cfg : Policy.Config) (env : Screenshot.Env)
      (e : KeyEvent) (cs : option Policy.State) :
  includes Z.eqb [83; 51; 52; 53; 54; 44] (keyCode e) = false ->
  String.eqb (key e) "PrintScreen" = false ->
  fst (Screenshot.keydown decodeURIComponent cfg env e cs) = cs.
Proof.
  unfold includes. cbn [existsb]. intros H Hk.
  repeat (apply orb_false_elim in H; destruct H as [?H H]).
  unfold Screenshot.keydown, includes. cbn [existsb].
  repeat match goal with Hx : (_ =? _) = false |- _ => rewrite Hx; clear Hx end.
  rewrite Hk. cbn [orb]. rewrite !andb_false_r. reflexivity.
Qed.

(** A key code of the copy and paste script is none of the screenshot
    script's. *)
Lemma copypaste_code_not_screenshot (e : KeyEvent) :
  (key e = "PrintScreen" -> keyCode e = 44) ->
  includes Z.eqb [67; 88; 86; 65; 123; 73; 74; 85] (keyCode e) = true ->
  includes Z.eqb [83; 51; 52; 53; 54; 44] (keyCode e) = false
  /\ String.eqb (key e) "PrintScreen" = false.
Proof.
  intros Hkey Hin. split.
  - unfold includes in *. cbn [existsb] in *.
    repeat (apply orb_prop in Hin; destruct Hin as [Hin|Hin]);
      try discriminate Hin;
      apply Z.eqb_eq in Hin; rewrite Hin; reflexivity.
  - destruct (String.eqb_spec (key e) "PrintScreen") as [Hk|];
      [|reflexivity].
    apply Hkey in Hk. rewrite Hk in Hin. discriminate Hin.
Qed.

End CopyPasteFacts.

(** X24. The screenshot script and the copy and paste script never count
    the same key press: on an event whose key is named PrintScreen only
    when its key code is 44, the two keydown listeners together raise the
    violation count of the core script by one at most, and when one of
    the two scripts counted the event the other leaves the core script
    alone. *)
Theorem keydown_counted_by_one_script
    (decodeURIComponent : string -> option string)
    (cfg : Policy.Config) (env : Screenshot.Env) (e : Keys.KeyEvent)
    (cs : option Policy.State) :
  (Keys.key e = "PrintScreen" -> Keys.keyCode e = 44) ->
  let cs1 := fst (Screenshot.keydown decodeURIComponent cfg env e cs) in
  let cs1' := fst (CopyPaste.keydown decodeURIComponent cfg
                                     (Screenshot.doc env) e cs) in
  CopyPaste.at_most_one
    (CopyPaste.count cs)
    (CopyPaste.count
       (fst (CopyPaste.both_keydown decodeURIComponent cfg env e cs)))
  /\ (cs1 <> cs ->
      fst (CopyPaste.keydown decodeURIComponent cfg (Screenshot.doc env) e
                             cs1) = cs1)
  /\ (cs1' <> cs ->
      fst (Screenshot.keydown decodeURIComponent cfg env e cs1') = cs1').
Proof.
  intros Hkey cs1 cs1'.
  assert (Hboth : fst (CopyPaste.both_keydown decodeURIComponent cfg env e cs)
                  = fst (Screenshot.keydown decodeURIComponent cfg env e
                                            cs1')).
  { unfold CopyPaste.both_keydown. subst cs1'.
    destruct (CopyPaste.keydown decodeURIComponent cfg (Screenshot.doc env)
                                e cs) as [c1 a1]. cbn [fst].
    now destruct (Screenshot.keydown decodeURIComponent cfg env e c1). }
  rewrite Hboth.
  destruct (Keys.includes Z.eqb [67; 88; 86; 65; 123; 73; 74; 85]
                          (Keys.keyCode e)) eqn:Hin.
  - destruct (copypaste_code_not_screenshot e Hkey Hin) as [Hcode Hname].
    assert (Hquiet : forall c,
               fst (Screenshot.keydown decodeURIComponent cfg env e c) = c)
      by (intros c; now apply screenshot_keydown_quiet).
    split; [rewrite Hquiet; apply copypaste_keydown_step|].
    split; [intros Hne; exfalso; apply Hne; apply Hquiet
           | intros _; apply Hquiet].
  - assert (Hquiet : forall c,
               fst (CopyPaste.keydown decodeURIComponent cfg
                                      (Screenshot.doc env) e c) = c)
      by (intros c; now apply copypaste_keydown_quiet).
    split; [subst cs1'; rewrite Hquiet; apply screenshot_keydown_step|].
    split; [intros _; apply Hquiet
           | intros Hne; exfalso; apply Hne; apply Hquiet].
Qed.

(** The theorem on Ctrl+C, which the copy and paste script counts, and on
    PrintScreen, which the screenshot script counts. *)
Lemma keydown_counted_by_one_script_witness :
  let ctrl_c := Samples.key_event "c" 67 true false false false in
  let prtsc := Samples.row_event Keys.RPrintScreen in
  let env := Samples.secure Samples.page_with_token in
  CopyPaste.at_most_one
    (Some 0)
    (CopyPaste.count
       (fst (CopyPaste.both_keydown Samples.decodeURIComponent Policy.config
               env ctrl_c (Some (Policy.start 0)))))
  /\ CopyPaste.at_most_one
       (Some 0)
       (CopyPaste.count
          (fst (CopyPaste.both_keydown Samples.decodeURIComponent
                  Policy.config env prtsc (Some (Policy.start 0))))).
Proof.
  intros ctrl_c prtsc env. split.
  - apply (keydown_counted_by_one_script Samples.decodeURIComponent
             Policy.config env ctrl_c (Some (Policy.start 0))).
    cbn. discriminate.
  - apply (keydown_counted_by_one_script Samples.decodeURIComponent
             Policy.config env prtsc (Some (Policy.start 0))).
    reflexivity.
Defined.

(** X25. The copy and paste script blocks the same events whether or not
    the core script is loaded: for every event it listens to, the default
    action is prevented with the core script exactly when it is prevented
    without it; without the core script nothing reaches it and nothing is
    counted, and with it the count rises by one at most and only on
    events whose default was prevented. *)
Theorem copypaste_blocks_without_core
    (decodeURIComponent : string -> option string)
    (cfg : Policy.Config) (d : Document) (ev : CopyPaste.DomEvent)
    (st : Policy.State) :
  let with_core := CopyPaste.listener decodeURIComponent cfg d ev (Some st) in
  let without := CopyPaste.listener decodeURIComponent cfg d ev None in
  CopyPaste.prevents (snd with_core) = CopyPaste.prevents (snd without)
  /\ fst without = None
  /\ CopyPaste.core_effects (snd without) = []
  /\ CopyPaste.at_most_one (Some (Policy.violations st))
                           (CopyPaste.count (fst with_core))
  /\ (CopyPaste.prevents (snd with_core) = false -> fst with_core = Some st).
Proof.
  assert (Hv : forall type,
             exists st1 effs,
               CopyPaste.violation decodeURIComponent cfg d type (Some st)
               = (Some st1, map CopyPaste.Core effs)
               /\ Policy.violations st1 = Policy.violations st + 1).
  { intros type. unfold CopyPaste.violation.
    pose proof (step_counts decodeURIComponent cfg
                            (Policy.Violation type d) st) as H.
    cbn [Policy.step PolicyRuns.is_violation] in H.
    destruct (Policy.incrementViolation decodeURIComponent cfg d type st)
      as [st1 effs].
    exists st1, effs. split; [reflexivity | exact H]. }
  destruct ev as [| |ap|asel| |e| |]; cbn [CopyPaste.listener];
    try (destruct (Hv "copy_attempt") as (st1 & effs & -> & Hc));
    try (destruct (Hv "cut_attempt") as (st1 & effs & -> & Hc));
    try (destruct (Hv "context_menu") as (st1 & effs & -> & Hc));
    try (cbn; unfold CopyPaste.at_most_one; cbn; rewrite ?Hc;
         split; [reflexivity|]; split; [reflexivity|];
         split; [reflexivity|]; split; [auto | discriminate]).
  - destruct ap; cbn; unfold CopyPaste.at_most_one; cbn;
      (split; [reflexivity|]); (split; [reflexivity|]);
      (split; [reflexivity|]); (split; [auto | auto]).
  - destruct asel; cbn; unfold CopyPaste.at_most_one; cbn;
      (split; [reflexivity|]); (split; [reflexivity|]);
      (split; [reflexivity|]); (split; [auto | auto]).
  - unfold CopyPaste.keydown.
    destruct (Hv "keyboard_shortcut") as (s1 & f1 & -> & H1).
    destruct (Hv "devtools_attempt") as (s2 & f2 & -> & H2).
    cbn [CopyPaste.violation].
    repeat match goal with
           | |- context [if ?b then _ else _] => destruct b
           end;
      cbn; unfold CopyPaste.at_most_one; cbn; rewrite ?H1, ?H2;
      (split; [reflexivity|]); (split; [reflexivity|]);
      (split; [reflexivity|]); (split; [auto | auto; discriminate]).
Qed.

(** ** The balanced script *)

Section BalancedFacts.
Import Balanced.

Lemma balanced_showWarning_inv (d : Document) (reason : string) (st : State) :
  inv st ->
  inv (fst (showWarning d reason st))
  /\ (length (posts (snd (showWarning d reason st)))
       + (if warningShown st then 1 else 0)
      = if warningShown (fst (showWarning d reason st)) then 1 else 0)%nat.
Proof.
  intros [Ho Hp]. unfold showWarning.
  destruct (warningShown st) eqn:Hw; cbn [fst snd].
  - rewrite Hw. split; [split; [exact Ho | now rewrite Hw]|reflexivity].
  - split; [|reflexivity]. split; cbn.
    + now rewrite Ho.
    + rewrite length_app, Hp. reflexivity.
Qed.

Lemma balanced_step_inv (d : Document) (ev : Event) (st : State) :
  inv st ->
  inv (fst (step d ev st))
  /\ (length (posts (snd (step d ev st)))
       + (if warningShown st then 1 else 0)
      <= (if warningShown (fst (step d ev st)) then 1 else 0)
         + (match ev with TimerFires => 1 | KeyDown _ => 0 end))%nat.
Proof.
  intros Hi. destruct ev as [e|]; cbn [step].
  - unfold keydown.
    repeat match goal with
           | |- context [if ?b then _ else _] =>
               lazymatch b with
               | warningShown _ => fail
               | _ => destruct b
               end
           end;
      try match goal with
          | |- context [showWarning d ?r st] =>
              destruct (balanced_showWarning_inv d r st Hi) as [H1 H2];
              destruct (showWarning d r st) as [st' effs];
              cbn [fst snd] in *; split; [exact H1|];
              change (posts (PreventDefault :: effs)) with (posts effs); lia
          end.
    cbn [fst snd]. split; [exact Hi | cbn; lia].
  - destruct Hi as [Ho Hp].
    destruct (pending st) as [|o rest] eqn:Hpe; cbn [fst snd].
    + split; [split; [now rewrite Hpe | now rewrite Hpe]|cbn; lia].
    + assert (Hrest : rest = []).
      { destruct (warningShown st); cbn in Hp; [|discriminate Hp].
        destruct rest; [reflexivity | discriminate Hp]. }
      subst rest. split.
      * split; cbn; [|reflexivity]. rewrite Ho. cbn.
        now rewrite Nat.eqb_refl.
      * cbn. destruct (warningShown st); lia.
Qed.

End BalancedFacts.

(** X26. The balanced script reports at most one key press per overlay:
    over any sequence of key presses and timer callbacks on a page where
    the flag, the overlay and its timer agree (a fresh page is one) the
    number of requests it sends is at most one more than the number of
    timer callbacks, at most one overlay is in the page, and the overlay
    is there exactly when warningShown is set. *)
Theorem balanced_one_report_per_overlay
    (d : Document) (evs : list Balanced.Event) (st : Balanced.State) :
  Balanced.inv st ->
  let r := Balanced.steps d evs st in
  Balanced.inv (fst r)
  /\ (length (Balanced.overlays (fst r))
      = if Balanced.warningShown (fst r) then 1 else 0)%nat
  /\ (length (Balanced.posts (snd r))
       + (if Balanced.warningShown st then 1 else 0)
      <= Balanced.timer_events evs + 1)%nat.
Proof.
  intros Hi r. subst r.
  assert (H : Balanced.inv (fst (Balanced.steps d evs st))
              /\ (length (Balanced.posts (snd (Balanced.steps d evs st)))
                   + (if Balanced.warningShown st then 1 else 0)
                  <= Balanced.timer_events evs
                     + (if Balanced.warningShown
                             (fst (Balanced.steps d evs st))
                        then 1 else 0))%nat).
  { revert st Hi. induction evs as [|ev evs IH]; intros st Hi.
    - cbn. split; [exact Hi | lia].
    - cbn [Balanced.steps].
      destruct (balanced_step_inv d ev st Hi) as [H1 H2].
      destruct (Balanced.step d ev st) as [st1 e1]. cbn [fst snd] in *.
      destruct (IH st1 H1) as [I1 I2].
      destruct (Balanced.steps d evs st1) as [st2 e2]. cbn [fst snd] in *.
      split; [exact I1|].
      unfold Balanced.posts in *. rewrite omap_app, length_app.
      unfold Balanced.timer_events in *. cbn [List.filter].
      destruct ev; cbn [length]; lia. }
  destruct H as [H1 H2]. split; [exact H1|]. split.
  - destruct H1 as [Ho Hp]. now rewrite Ho.
  - destruct (Balanced.warningShown (fst (Balanced.steps d evs st))); lia.
Qed.

(** The theorem on a fresh page where PrintScreen and F12 go down before
    the timer fires and PrintScreen once more after it. *)
Lemma balanced_one_report_per_overlay_witness :
  let prtsc := Balanced.KeyDown (Samples.row_event Keys.RPrintScreen) in
  let f12 := Balanced.KeyDown (Samples.row_event Keys.RF12) in
  let r := Balanced.steps Samples.page_with_token
             [prtsc; f12; Balanced.TimerFires; prtsc] Balanced.start in
  (length (Balanced.posts (snd r)) <= 2)%nat
  /\ length (Balanced.overlays (fst r)) = 1%nat.
Proof.
  intros prtsc f12 r.
  assert (Hi : Balanced.inv Balanced.start) by (split; reflexivity).
  destruct (balanced_one_report_per_overlay
              Samples.page_with_token
              [prtsc; f12; Balanced.TimerFires; prtsc] Balanced.start Hi)
    as (_ & H2 & H3).
  split; [exact H3 | exact H2].
Defined.

(** ** The listeners of the warning-only script *)

Section WarningOnlyFacts.
Import WarningOnly.

Lemma closest_exempted (s : Selector) (el : Elem) :
  In s EXEMPTED_SELECTORS ->
  found (closest [s] el) = true ->
  isExemptedElement (Some el) = true.
Proof.
  intros Hin Hf. unfold isExemptedElement. apply existsb_exists.
  exists s. split; [exact Hin|]. rewrite Hf. apply orb_true_r.
Qed.

Lemma closest_one_of (s1 s2 : Selector) (el : Elem) :
  found (closest [s1; s2] el) = true ->
  found (closest [s1] el) = true \/ found (closest [s2] el) = true.
Proof.
  unfold closest, found.
  generalize (self el :: ancestors el) as chain. intros chain H.
  destruct (List.find _ chain) as [n|] eqn:Hf; [|discriminate H].
  apply find_some in Hf as [Hin Hn].
  assert (Hc : forall s, matches_node s n = true ->
                 match List.find
                         (fun n => existsb (fun s => matches_node s n) [s])
                         chain with
                 | Some _ => true
                 | None => false
                 end = true).
  { intros s Hm.
    destruct (List.find _ chain) eqn:Hnone; [reflexivity|].
    pose proof (find_none _ _ Hnone n Hin) as Hx. cbn [existsb] in Hx.
    rewrite Hm in Hx. discriminate Hx. }
  cbn [existsb] in Hn. rewrite orb_false_r in Hn.
  apply orb_prop in Hn as [Hn|Hn]; [left | right]; now apply Hc.
Qed.

(** An element inside the sidebar or the header is exempted. *)
Lemma navigation_is_exempted (el : Elem) :
  found (closest [ClassSel "customer-sidebar"; ClassSel "customer-header"] el)
  = true ->
  isExemptedElement (Some el) = true.
Proof.
  intros H. apply closest_one_of in H as [H|H];
    (eapply closest_exempted; [|exact H]); cbn; tauto.
Qed.

End WarningOnlyFacts.

(** X27. In the warning-only script every right click that is blocked is
    logged: the test that is meant to keep clicks on the sidebar and the
    header out of the log never fails, because an element inside either
    is exempted and its click was let through before. *)
Theorem blocked_right_click_is_logged (target : WarningOnly.Elem) :
  WarningOnly.prevents (WarningOnly.contextmenu target) = true ->
  WarningOnly.found
    (WarningOnly.closest [WarningOnly.ClassSel "customer-sidebar";
                          WarningOnly.ClassSel "customer-header"] target)
  = false
  /\ WarningOnly.contextmenu target
     = [WarningOnly.PreventDefault;
        WarningOnly.ShowWarning
          "Right-click is disabled for content protection";
        WarningOnly.LogActivity "right_click_attempt"
                                "Right-click on content"].
Proof.
  unfold WarningOnly.contextmenu. intros Hp.
  destruct (WarningOnly.isExemptedElement (Some target)) eqn:He;
    [discriminate Hp|].
  destruct (Keys.includes _ _ _); [discriminate Hp|].
  destruct (WarningOnly.found (WarningOnly.closest _ target)) eqn:Hn.
  - apply navigation_is_exempted in Hn. congruence.
  - split; reflexivity.
Qed.

(** The theorem on a paragraph inside a demo card. *)
Lemma blocked_right_click_is_logged_witness :
  let p := {| WarningOnly.self :=
                {| WarningOnly.tag := "P"; WarningOnly.classes := [];
                   WarningOnly.attributes := [] |};
              WarningOnly.ancestors :=
                [{| WarningOnly.tag := "DIV";
                    WarningOnly.classes := ["demo-card"];
                    WarningOnly.attributes := [] |}] |} in
  WarningOnly.logs (WarningOnly.contextmenu p) = ["right_click_attempt"].
Proof.
  intros p.
  destruct (blocked_right_click_is_logged p eq_refl) as [_ H].
  rewrite H. reflexivity.
Defined.

(** X28. The warning-only script leaves exempted elements alone: on an
    element that matches one of the exempted selectors or lies inside one
    that does, the contextmenu, keydown, selectstart and copy listeners do
    nothing.  Its keydown listener never logs, whatever the key; and the
    shortcuts for view source, save and print go through when the key
    arrives in upper case. *)
Theorem warning_only_spares_exempted
    (el : WarningOnly.Elem) (e : Keys.KeyEvent) (selection : string)
    (active : option WarningOnly.Elem) :
  (WarningOnly.isExemptedElement (Some el) = true ->
   WarningOnly.contextmenu el = []
   /\ WarningOnly.keydown e (Some el) = []
   /\ WarningOnly.selectstart el = []
   /\ WarningOnly.copy (Some el) selection = Cookies.Normal [])
  /\ WarningOnly.logs (WarningOnly.keydown e active) = []
  /\ (Keys.includes String.eqb ["U"; "S"; "P"] (Keys.key e) = true ->
      WarningOnly.keydown e active = []).
Proof.
  split; [|split].
  - intros He. unfold WarningOnly.contextmenu, WarningOnly.keydown,
      WarningOnly.selectstart, WarningOnly.copy. rewrite He. auto.
  - unfold WarningOnly.keydown.
    repeat match goal with
           | |- context [if ?b then _ else _] => destruct b
           end; reflexivity.
  - intros Hk. unfold WarningOnly.keydown.
    destruct (WarningOnly.isExemptedElement active); [reflexivity|].
    unfold Keys.includes in Hk. cbn [existsb] in Hk.
    repeat (apply orb_prop in Hk; destruct Hk as [Hk|Hk]);
      try discriminate Hk;
      apply String.eqb_eq in Hk; rewrite Hk; cbn;
      now rewrite ?andb_false_r.
Qed.

(** The theorem on a link of the sidebar and on Ctrl+U typed with the
    caps lock on. *)
Lemma warning_only_spares_exempted_witness :
  let link := {| WarningOnly.self :=
                   {| WarningOnly.tag := "A";
                      WarningOnly.classes := ["nav-link"];
                      WarningOnly.attributes := [("href", "/customer/demos/")] |};
                 WarningOnly.ancestors := [] |} in
  let ctrl_U := Samples.key_event "U" 85 true false false false in
  WarningOnly.contextmenu link = []
  /\ WarningOnly.keydown ctrl_U None = [].
Proof.
  intros link ctrl_U.
  destruct (warning_only_spares_exempted link ctrl_U "" None)
    as (H1 & _ & H3).
  split; [exact (proj1 (H1 eq_refl)) | exact (H3 eq_refl)].
Defined.
